(** * LLM-File-Parsing-backend: schema reconciliation, key-value extraction,
      normalisation and correction merge

    A shallow embedding of the Python services under [app/services] and of
    the endpoints under [app/api/v1/endpoints], followed by the properties
    of the design document that were checked against them and by further
    properties of the code: what the extractors and the matcher return,
    what an upload and a correction store, and what is fetched back.

    Conventions of the embedding.
    - A Python [str] is a [string]; the text functions ([strip], [lower],
      [int()], [float()]) are modelled on ASCII text.
    - A Python [dict] whose iteration order is observable (the mappings, the
      extracted records) is an association list kept in insertion order with
      unique keys; a [set] used only for membership is a [gset]; the table
      of processing logs, looked up by file identifier, is a [gmap].
    - A [set] that is listed or gone through is the list a [HashSeed] gives
      for it; the rows of a query without [ORDER BY] come in the order a
      [RowOrder] gives them.
    - The store is the committed content of the tables; of what
      [db/file_model.py] declares it enforces the foreign keys to
      [file_upload], the 32 bits of an [Integer], the widths of the
      [String(n)] columns and the names that may not be null.
    - A call that can raise returns [Exc A]: [Ok a] or [Raise e]. *)

From Stdlib Require Import ZArith Ascii String List Bool Lia.
From stdpp Require Import base decidable option list gmap strings.

Import ListNotations.
Open Scope string_scope.
Open Scope list_scope.

(** ** Python exceptions and fallible computations *)

Inductive PyExn :=
| ValueError
| TypeError
| OverflowError
| AttributeError
| KeyError
| IndexError
| RuntimeError (cause : PyExn)
| HTTPException (status_code : Z)
| ServiceFailure (detail : string).

Inductive Exc (A : Type) :=
| Ok (a : A)
| Raise (e : PyExn).

Arguments Ok {A} a.
Arguments Raise {A} e.

(** [Exc] is a monad; stdpp's [x ← c; k] notation sequences statements and
    propagates the first exception. *)
#[export] Instance exc_ret : MRet Exc := fun _ a => Ok a.
#[export] Instance exc_bind : MBind Exc := fun _ _ k c =>
  match c with
  | Ok a => k a
  | Raise e => Raise e
  end.

(** [try: body except: handler], the bare [except] of the orchestrator. *)
Definition try_except {A} (body : Exc A) (handler : Exc A) : Exc A :=
  match body with
  | Ok a => Ok a
  | Raise _ => handler
  end.

(** [try: body except Exception as e: raise RuntimeError(...)]. *)
Definition reraise_runtime {A} (body : Exc A) : Exc A :=
  match body with
  | Ok a => Ok a
  | Raise e => Raise (RuntimeError e)
  end.

(** ** Text primitives *)

Definition chars (s : string) : list ascii := list_ascii_of_string s.
Definition text (l : list ascii) : string := string_of_list_ascii l.

(** [str.isspace] on one ASCII character: TAB, LF, VT, FF, CR, the
    separators 0x1c to 0x1f, and the blank. *)
Definition is_space (c : ascii) : bool :=
  let n := nat_of_ascii c in
  ((9 <=? n)%nat && (n <=? 13)%nat) || ((28 <=? n)%nat && (n <=? 32)%nat).

Fixpoint lstrip_chars (space : ascii -> bool) (l : list ascii) : list ascii :=
  match l with
  | [] => []
  | c :: l' => if space c then lstrip_chars space l' else l
  end.

Definition rstrip_chars (space : ascii -> bool) (l : list ascii) : list ascii :=
  rev (lstrip_chars space (rev l)).

Definition strip_chars (space : ascii -> bool) (l : list ascii) : list ascii :=
  rstrip_chars space (lstrip_chars space l).

(** [str.strip()] *)
Definition strip (s : string) : string :=
  text (strip_chars is_space (chars s)).

Definition lower_char (c : ascii) : ascii :=
  let n := nat_of_ascii c in
  if (65 <=? n)%nat && (n <=? 90)%nat then ascii_of_nat (n + 32) else c.

(** [str.lower()] *)
Definition lower (s : string) : string :=
  text (map lower_char (chars s)).

Definition colon : ascii := ":"%char.
Definition newline : ascii := ascii_of_nat 10.

(** [c in s] for a one-character [c] *)
Definition contains_char (c : ascii) (s : string) : bool :=
  existsb (Ascii.eqb c) (chars s).

(** The two parts of [s.split(c, 1)] when [c] occurs in [s]. *)
Fixpoint split_first (c : ascii) (l : list ascii) : option (list ascii * list ascii) :=
  match l with
  | [] => None
  | x :: l' =>
      if Ascii.eqb x c then Some ([], l')
      else match split_first c l' with
           | Some (a, b) => Some (x :: a, b)
           | None => None
           end
  end.

(** [s.split(c)] : all the pieces, at least one. *)
Fixpoint split_all (c : ascii) (l : list ascii) : list (list ascii) :=
  match l with
  | [] => [[]]
  | x :: l' =>
      if Ascii.eqb x c then [] :: split_all c l'
      else match split_all c l' with
           | piece :: rest => (x :: piece) :: rest
           | [] => [[x]]
           end
  end.

Definition split_lines (s : string) : list string :=
  map text (split_all newline (chars s)).

(** Truthiness of a [str]. *)
Definition nonempty (s : string) : bool :=
  match s with
  | EmptyString => false
  | String _ _ => true
  end.

(** ** Insertion-ordered dictionaries *)

Section Dict.
Context {K V : Type} `{EqDecision K}.

(** [d[k] = v] : overwrite in place, or append a new entry. *)
Fixpoint dict_set (k : K) (v : V) (d : list (K * V)) : list (K * V) :=
  match d with
  | [] => [(k, v)]
  | (k', v') :: d' =>
      if decide (k = k') then (k, v) :: d'
      else (k', v') :: dict_set k v d'
  end.

(** [d.get(k)] *)
Fixpoint dict_get (k : K) (d : list (K * V)) : option V :=
  match d with
  | [] => None
  | (k', v') :: d' => if decide (k = k') then Some v' else dict_get k d'
  end.

Definition dict_keys (d : list (K * V)) : list K := map fst d.
Definition dict_values (d : list (K * V)) : list V := map snd d.

(** [dict(pairs)] and dict comprehensions: later pairs overwrite. *)
Definition dict_of_pairs (l : list (K * V)) : list (K * V) :=
  fold_left (fun d kv => dict_set (fst kv) (snd kv) d) l [].

(** [k in l] on a list *)
Definition mem (k : K) (l : list K) : bool := bool_decide (k ∈ l).

(** The keys of [acc] followed by the new ones among [keys], each at its
    first appearance. *)
Definition first_seen (keys acc : list K) : list K :=
  fold_left (fun acc k => if mem k acc then acc else acc ++ [k]) keys acc.
End Dict.

(** ** The order of a set

    [list(s)] and [for x in s] go through a set in the order of its hash
    table, which for texts depends on the seed the interpreter draws when
    it starts.  A seed is taken as that order: what [list(set(l))] gives
    for every list [l], namely the elements of [l], each once. *)

Record HashSeed := mkSeed {
  listing : forall A : Type, EqDecision A -> list A -> list A;
  listing_NoDup : forall A (dec : EqDecision A) (l : list A), NoDup (listing A dec l);
  listing_elem : forall A (dec : EqDecision A) (l : list A) (x : A),
      x ∈ listing A dec l <-> x ∈ l
}.

(** [list(set(l))] under a seed. *)
Definition list_of_set {A} `{EqDecision A} (seed : HashSeed) (l : list A) : list A :=
  listing seed A _ l.

(** Two seeds: one lists a set in the order of first insertion, the other
    in the reverse order. *)
Definition first_seed : HashSeed :=
  mkSeed (fun A dec l => remove_dups l)
         (fun A dec l => NoDup_remove_dups l)
         (fun A dec l x => elem_of_remove_dups l x).

Definition reverse_seed : HashSeed.
Proof.
  refine (mkSeed (fun A dec l => reverse (remove_dups l)) _ _).
  - intros A dec l. rewrite reverse_Permutation. apply NoDup_remove_dups.
  - intros A dec l x. rewrite elem_of_reverse. apply elem_of_remove_dups.
Defined.

(** ** difflib : [SequenceMatcher] and [get_close_matches]

    The standard-library routine behind the fuzzy matcher, transcribed for
    the way it is called here: [isjunk=None], [autojunk=True], [n=1].  A
    ratio [2.0 * matches / length] is kept as the exact fraction
    [(2 * matches, length)] and compared by cross-multiplication; for
    sequences shorter than 2^26 characters this agrees with the comparison
    of the rounded doubles, the cutoff [0.7] being [(7, 10)]. *)

Module Difflib.

(** [enumerate(b)] filtered on one element: where [c] occurs in [b]. *)
Fixpoint indices_from (c : ascii) (b : list ascii) (j : nat) : list nat :=
  match b with
  | [] => []
  | x :: b' =>
      if Ascii.eqb x c then j :: indices_from c b' (S j)
      else indices_from c b' (S j)
  end.

(** The autojunk heuristic of [__chain_b]. *)
Definition popular (b : list ascii) (c : ascii) : bool :=
  let n := length b in
  ((200 <=? n) && (n / 100 + 1 <? length (indices_from c b 0)))%nat.

(** [b2j.get(c, nothing)] *)
Definition b2j (b : list ascii) (c : ascii) : list nat :=
  if popular b c then [] else indices_from c b 0.

Definition Match := (nat * nat * nat)%type.

(** The inner [for j in b2j.get(a[i], nothing)] of [find_longest_match]. *)
Fixpoint scan_js (js : list nat) (i blo bhi : nat)
         (j2len newj2len : list (nat * nat)) (best : Match)
  : list (nat * nat) * Match :=
  match js with
  | [] => (newj2len, best)
  | j :: js' =>
      if (j <? blo)%nat then scan_js js' i blo bhi j2len newj2len best
      else if (bhi <=? j)%nat then (newj2len, best)
      else
        let prev := match j with
                    | O => 0%nat
                    | S j' => default 0%nat (dict_get j' j2len)
                    end in
        let k := (prev + 1)%nat in
        let '(_, _, bestsize) := best in
        let best' := if (bestsize <? k)%nat
                     then ((i + 1 - k)%nat, (j + 1 - k)%nat, k)
                     else best in
        scan_js js' i blo bhi j2len (dict_set j k newj2len) best'
  end.

(** The outer [for i in range(alo, ahi)]. *)
Definition scan_is (a b : list ascii) (alo ahi blo bhi : nat) : Match :=
  snd (fold_left
         (fun (st : list (nat * nat) * Match) (i : nat) =>
            match nth_error a i with
            | Some c => scan_js (b2j b c) i blo bhi (fst st) [] (snd st)
            | None => ([], snd st)
            end)
         (seq alo (ahi - alo))
         ([], (alo, blo, 0%nat))).

(** First [while]: grow the block to the left over equal elements. *)
Fixpoint extend_left (fuel : nat) (a b : list ascii) (alo blo : nat) (m : Match) : Match :=
  match fuel with
  | O => m
  | S fuel' =>
      let '(besti, bestj, bestsize) := m in
      if ((alo <? besti) && (blo <? bestj))%nat then
        match nth_error a (besti - 1), nth_error b (bestj - 1) with
        | Some x, Some y =>
            if Ascii.eqb x y
            then extend_left fuel' a b alo blo
                   ((besti - 1)%nat, (bestj - 1)%nat, (bestsize + 1)%nat)
            else m
        | _, _ => m
        end
      else m
  end.

(** Second [while]: grow it to the right. *)
Fixpoint extend_right (fuel : nat) (a b : list ascii) (ahi bhi : nat) (m : Match) : Match :=
  match fuel with
  | O => m
  | S fuel' =>
      let '(besti, bestj, bestsize) := m in
      if ((besti + bestsize <? ahi) && (bestj + bestsize <? bhi))%nat then
        match nth_error a (besti + bestsize), nth_error b (bestj + bestsize) with
        | Some x, Some y =>
            if Ascii.eqb x y
            then extend_right fuel' a b ahi bhi (besti, bestj, (bestsize + 1)%nat)
            else m
        | _, _ => m
        end
      else m
  end.

(** [find_longest_match(alo, ahi, blo, bhi)]; [bjunk] is empty, so the
    two closing loops over junk never run. *)
Definition find_longest_match (a b : list ascii) (alo ahi blo bhi : nat) : Match :=
  let m0 := scan_is a b alo ahi blo bhi in
  let m1 := extend_left (length a) a b alo blo m0 in
  extend_right (length a) a b ahi bhi m1.

(** The work list of [get_matching_blocks]; the head of [queue] is the
    item [queue.pop()] returns.  Every block found uses up at least one
    element of [a], so [2 * len(a) + 1] rounds empty the list. *)
Fixpoint matching_loop (fuel : nat) (a b : list ascii)
         (queue : list (nat * nat * nat * nat)) (blocks : list Match) : list Match :=
  match fuel with
  | O => blocks
  | S fuel' =>
      match queue with
      | [] => blocks
      | (alo, ahi, blo, bhi) :: queue' =>
          let '(i, j, k) := find_longest_match a b alo ahi blo bhi in
          match k with
          | O => matching_loop fuel' a b queue' blocks
          | S _ =>
              let q1 := if ((alo <? i) && (blo <? j))%nat
                        then (alo, i, blo, j) :: queue' else queue' in
              let q2 := if ((i + k <? ahi) && (j + k <? bhi))%nat
                        then ((i + k)%nat, ahi, (j + k)%nat, bhi) :: q1 else q1 in
              matching_loop fuel' a b q2 (blocks ++ [(i, j, k)])
          end
      end
  end.

(** The blocks before sorting and merging of neighbours, which leave the
    sum of the sizes as it is. *)
Definition matching_blocks (a b : list ascii) : list Match :=
  matching_loop (2 * length a + 1) a b [(0%nat, length a, 0%nat, length b)] [].

Definition Ratio := (nat * nat)%type.

(** [_calculate_ratio] *)
Definition calculate_ratio (matches len : nat) : Ratio :=
  match len with
  | O => (1%nat, 1%nat)
  | S _ => ((2 * matches)%nat, len)
  end.

Definition ratio_ge (r c : Ratio) : bool := (fst c * snd r <=? fst r * snd c)%nat.
Definition ratio_gt (r c : Ratio) : bool := (fst c * snd r <? fst r * snd c)%nat.
Definition ratio_eq (r c : Ratio) : bool := (fst c * snd r =? fst r * snd c)%nat.

Definition ratio (a b : list ascii) : Ratio :=
  calculate_ratio (list_sum (map (fun m : Match => snd m) (matching_blocks a b)))
                  (length a + length b).

(** [quick_ratio]: size of the multiset intersection. *)
Definition quick_matches (a b : list ascii) : nat :=
  snd (fold_left
         (fun (st : list (ascii * Z) * nat) (elt : ascii) =>
            let numb := match dict_get elt (fst st) with
                        | Some v => v
                        | None => Z.of_nat (length (indices_from elt b 0))
                        end in
            (dict_set elt (numb - 1)%Z (fst st),
             if (0 <? numb)%Z then S (snd st) else snd st))
         a ([], 0%nat)).

Definition quick_ratio (a b : list ascii) : Ratio :=
  calculate_ratio (quick_matches a b) (length a + length b).

Definition real_quick_ratio (a b : list ascii) : Ratio :=
  calculate_ratio (Nat.min (length a) (length b)) (length a + length b).

(** Tuple order on [(score, x)] as used by [max]. *)
Definition scored_gt (p q : Ratio * string) : bool :=
  ratio_gt (fst p) (fst q) || (ratio_eq (fst p) (fst q) && String.ltb (snd q) (snd p)).

(** [heapq.nlargest(1, result)]: [max], keeping the first maximum. *)
Definition nlargest1 (result : list (Ratio * string)) : list (Ratio * string) :=
  match result with
  | [] => []
  | p :: rest => [fold_left (fun cur item => if scored_gt item cur then item else cur) rest p]
  end.

(** [get_close_matches(word, possibilities, n=1, cutoff)] *)
Definition get_close_matches (word : string) (possibilities : list string) (cutoff : Ratio)
  : list string :=
  let b := chars word in
  let result :=
    flat_map (fun x : string =>
                let a := chars x in
                if ratio_ge (real_quick_ratio a b) cutoff
                   && ratio_ge (quick_ratio a b) cutoff
                   && ratio_ge (ratio a b) cutoff
                then [(ratio a b, x)] else [])
             possibilities in
  map snd (nlargest1 result).

End Difflib.

(** ** Cell values and data frames *)

(** A [float] held in a frame: [FFinite m e] is the double of value
    [m * 2^e]. *)
Inductive PyFloat :=
| FNaN
| FInf (negative : bool)
| FFinite (m e : Z).

(** The values a cell or a row dictionary can hold; [PObj] stands for any
    object without [__int__] and [__float__], such as a timestamp. *)
Inductive PyVal :=
| PNone
| PStr (s : string)
| PInt (z : Z)
| PBool (b : bool)
| PFloat (f : PyFloat)
| PObj.

#[export] Instance PyFloat_eq_dec : EqDecision PyFloat.
Proof. solve_decision. Defined.
#[export] Instance PyVal_eq_dec : EqDecision PyVal.
Proof. solve_decision. Defined.

Definition placeholder : PyVal := PStr "-".

(** pandas' missing cell: [NaN], or [None] in an object column. *)
Definition isna (v : PyVal) : bool :=
  match v with
  | PNone | PFloat FNaN => true
  | _ => false
  end.

(** A column label: a [str], or an [int] for spreadsheets whose header
    row holds numbers. *)
Inductive Label :=
| LStr (s : string)
| LInt (z : Z).

#[export] Instance Label_eq_dec : EqDecision Label.
Proof. solve_decision. Defined.

(** A frame is kept row by row; every row has one cell per column.  A frame
    with no column can still have rows, as [df[[]]] has. *)
Record DataFrame (L : Type) := mkFrame {
  columns : list L;
  data : list (list PyVal)
}.

Arguments mkFrame {L} columns data.
Arguments columns {L} d.
Arguments data {L} d.

Section Frames.
Context {L : Type} `{EqDecision L}.

(** [pd.DataFrame()] *)
Definition empty_frame : DataFrame L := mkFrame [] [].

(** [df.empty] : some axis has length zero. *)
Definition frame_empty (df : DataFrame L) : bool :=
  match columns df, data df with
  | [], _ | _, [] => true
  | _, _ => false
  end.

(** [len(df)] *)
Definition frame_len (df : DataFrame L) : Z := Z.of_nat (length (data df)).

(** Positions of the columns carrying label [l]. *)
Fixpoint positions_from (l : L) (cols : list L) (i : nat) : list nat :=
  match cols with
  | [] => []
  | c :: cols' =>
      if decide (c = l) then i :: positions_from l cols' (S i)
      else positions_from l cols' (S i)
  end.

Definition take_cells (ps : list nat) (row : list PyVal) : list PyVal :=
  map (fun p => nth p row (PFloat FNaN)) ps.

(** The labels of the columns [df[labels]] keeps, and where they stand in
    [df]. *)
Definition selected_columns (labels cols : list L) : list L :=
  flat_map (fun l => map (fun _ => l) (positions_from l cols 0)) labels.

Definition selected_positions (labels cols : list L) : list nat :=
  flat_map (fun l => positions_from l cols 0) labels.

(** [df[labels]] with a list of labels: every column carrying each label,
    in the order asked; [KeyError] when a label is not a column. *)
Definition frame_select (labels : list L) (df : DataFrame L) : Exc (DataFrame L) :=
  if forallb (fun l => mem l (columns df)) labels then
    Ok (mkFrame (selected_columns labels (columns df))
                (map (take_cells (selected_positions labels (columns df))) (data df)))
  else Raise KeyError.

(** [df.rename(columns=d, inplace=True)] *)
Definition frame_rename (d : list (L * L)) (df : DataFrame L) : DataFrame L :=
  mkFrame (map (fun l => default l (dict_get l d)) (columns df)) (data df).

(** [df[l] = v] for a label that is not yet a column. *)
Definition frame_add_column (l : L) (v : PyVal) (df : DataFrame L) : DataFrame L :=
  mkFrame (columns df ++ [l]) (map (fun row => row ++ [v]) (data df)).

(** [df.fillna(v)] *)
Definition frame_fillna (v : PyVal) (df : DataFrame L) : DataFrame L :=
  mkFrame (columns df) (map (map (fun c => if isna c then v else c)) (data df)).

(** [df.to_dict(orient="records")]: one [dict(zip(columns, row))] per
    row, so that of two columns with one label the later one is kept. *)
Definition to_dict_records (df : DataFrame L) : list (list (L * PyVal)) :=
  map (fun row => dict_of_pairs (combine (columns df) row)) (data df).
End Frames.

Arguments empty_frame {L}.

(** One extracted block: label -> value, in order of first appearance. *)
Definition Record_ := list (string * string).

(** [pd.DataFrame(players)] from a list of dictionaries: the columns are
    the keys in order of first appearance, absent cells are [NaN]. *)
Definition frame_of_records (rs : list Record_) : DataFrame string :=
  let cols := fold_left (fun acc r => first_seen (dict_keys r) acc) rs [] in
  mkFrame cols
          (map (fun r => map (fun c => match dict_get c r with
                                       | Some v => PStr v
                                       | None => PFloat FNaN
                                       end) cols) rs).

(** ** Uploaded files and the external readers

    Everything the services learn about a stored file comes from library
    calls outside this repository.  A [File] records, for one path, what
    each of those calls returns or raises. *)

Record File := mkFile {
  file_path : string;
  (** [detect_file_type(path)] : (media type, extension) *)
  detected_type : Exc (string * string);
  (** [pd.read_csv(path)]; the header row of a delimited file is text *)
  read_csv : Exc (DataFrame string);
  (** [pd.read_excel(path)] *)
  read_excel : Exc (DataFrame Label);
  (** [pd.read_csv] of the temporary CSV export written by [df.to_csv] *)
  read_exported_csv : Exc (DataFrame string);
  (** the [text] of each of [Document(path).paragraphs] *)
  docx_paragraphs : Exc (list string);
  (** [page.extract_text()] of each of [pdfplumber.open(path).pages] *)
  pdf_pages : Exc (list string);
  (** whether the document loader of [load_file(path)] succeeds *)
  load_file : Exc unit
}.

(** [s.endswith(suffix)] *)
Definition ends_with (suffix s : string) : bool :=
  let n := String.length s in
  let k := String.length suffix in
  (k <=? n)%nat && bool_decide (substring (n - k) k s = suffix).

(** [needle in s] for strings *)
Fixpoint contains (needle s : string) : bool :=
  if String.prefix needle s then true
  else match s with
       | EmptyString => false
       | String _ s' => contains needle s'
       end.

(** ** services/file_parser.py *)

Module FileParser.

Definition SCHEMA_MAPPING : list (string * list string) :=
  [ ("Player Name", ["Player Name"; "p_name"; "player"; "name"; "full_name";
                     "player_name"; "player_full_name"; "player_full"]);
    ("Matches", ["Matches"; "mat"; "match_count"; "total_matches"; "games";
                 "total_games"; "matches_played"; "matches_count"]);
    ("Innings", ["Innings"; "inns"; "innings_count"; "played_innings";
                 "total_innings"; "innings_played"]);
    ("Total Runs", ["Total Runs"; "runs"; "total_score"; "r_total"; "total_runs";
                    "runs_scored"; "total_runs_scored"]);
    ("Highest Score", ["Highest Score"; "hs"; "max_score"; "top_score"; "highest";
                       "highest_score"]);
    ("Average", ["Average"; "ave"; "bat_avg"; "average_runs"; "avg";
                 "batting_average"]);
    ("Wickets", ["Wickets"; "wkt"; "wickets_taken"; "total_wickets"; "wicket_count"]);
    ("Centuries", ["Centuries"; "100s"; "centuries"; "century"; "100"]);
    ("Half Centuries", ["Half Centuries"; "50s"; "half_centuries"; "50";
                        "half_century"; "fifty"]);
    ("Fifers", ["Fifers"; "five_wkts"; "5_wickets"; "5"; "fifer"; "five_wicket_haul"]);
    ("Best Bowling Figures", ["Best Bowling Figures"; "bbf"; "best_figures";
                              "best_bowling"; "best_bowling_figures";
                              "best_bowling_figure"]) ].

(** [list(schema_mapping.keys())] : the canonical fields in canonical order. *)
Definition schema_fields : list string := dict_keys SCHEMA_MAPPING.

Record KvState := {
  players : list Record_;
  player_data : Record_;
  duplicate_keys : gset string
}.

Definition kv_init : KvState :=
  {| players := []; player_data := []; duplicate_keys := ∅ |}.

(** The body shared by both loops, once [key] and [value] are cut out. *)
Definition kv_pair (st : KvState) (key value : string) : KvState :=
  let st1 :=
    if nonempty key && nonempty value && bool_decide (key ∈ duplicate_keys st)
    then {| players := players st ++ [player_data st];
            player_data := [];
            duplicate_keys := ∅ |}
    else st in
  if nonempty key && nonempty value
  then {| players := players st1;
          player_data := dict_set key value (player_data st1);
          duplicate_keys := {[ key ]} ∪ duplicate_keys st1 |}
  else st1.

(** [if ':' in line: key, value = map(str.strip, line.split(':', 1)) ...] *)
Definition kv_line (st : KvState) (line : string) : KvState :=
  match split_first colon (chars line) with
  | Some (k, v) => kv_pair st (strip (text k)) (strip (text v))
  | None => st
  end.

(** [if player_data: players.append(player_data)] *)
Definition kv_finish (st : KvState) : list Record_ :=
  match player_data st with
  | [] => players st
  | _ :: _ => players st ++ [player_data st]
  end.

(** One paragraph of a DOCX document. *)
Definition docx_paragraph (st : KvState) (para : string) : KvState :=
  let t := strip para in
  if nonempty t then kv_line st t else st.

(** The loop of [extract_key_value_from_docx] and the closing
    [if player_data], up to the list handed to [pd.DataFrame]. *)
Definition docx_blocks (paragraphs : list string) : list Record_ :=
  kv_finish (fold_left docx_paragraph paragraphs kv_init).

(** [extract_key_value_from_docx(file_path)]: any exception gives the empty
    frame. *)
Definition extract_key_value_from_docx (f : File) : DataFrame string :=
  match docx_paragraphs f with
  | Ok paragraphs => frame_of_records (docx_blocks paragraphs)
  | Raise _ => empty_frame
  end.

(** One page of a PDF: [duplicate_keys] is rebound to a fresh set at the
    top of every page, [player_data] and [players] are not. *)
Definition pdf_page (st : KvState) (page_text : string) : KvState :=
  let st0 := {| players := players st;
                player_data := player_data st;
                duplicate_keys := ∅ |} in
  fold_left kv_line (split_lines page_text) st0.

(** The loops of [extract_key_value_from_pdf] and the closing
    [if player_data]. *)
Definition pdf_blocks (pages : list string) : list Record_ :=
  kv_finish (fold_left pdf_page pages kv_init).

(** [extract_key_value_from_pdf(file_path)] *)
Definition extract_key_value_from_pdf (f : File) : DataFrame string :=
  match pdf_pages f with
  | Ok pages => frame_of_records (pdf_blocks pages)
  | Raise _ => empty_frame
  end.

End FileParser.

(** ** services/file_processing.py *)

Module FileProcessing.

Definition schema_mapping := FileParser.SCHEMA_MAPPING.

(** [{alias.lower(): key for key, aliases in schema_mapping.items()
      for alias in aliases}] *)
Definition build_flat_map (schema : list (string * list string)) : list (string * string) :=
  dict_of_pairs
    (List.flat_map (fun ka : string * list string =>
                 map (fun alias => (lower alias, fst ka)) (snd ka))
              schema).

Definition flat_map : list (string * string) :=
  Eval vm_compute in build_flat_map schema_mapping.

(** A mapping: source header -> canonical field, in insertion order. *)
Definition Mapping := list (string * string).

(** [d[k]] on a dictionary *)
Definition dict_index {K V} `{EqDecision K} (k : K) (d : list (K * V)) : Exc V :=
  match dict_get k d with
  | Some v => Ok v
  | None => Raise KeyError
  end.

(** The loop body of [fuzzy_match_columns], over any alias table and
    cutoff. *)
Definition fuzzy_step (flat : list (string * string)) (cutoff : Difflib.Ratio)
           (acc : Exc (Mapping * list string)) (col : string)
  : Exc (Mapping * list string) :=
  '(matched, unmatched) ← acc;
  match Difflib.get_close_matches (lower col) (dict_keys flat) cutoff with
  | m :: _ =>
      field ← dict_index m flat;
      Ok (dict_set col field matched, unmatched)
  | [] => Ok (matched, unmatched ++ [col])
  end.

Definition fuzzy_match_columns_with (flat : list (string * string)) (cutoff : Difflib.Ratio)
           (headers : list string) : Exc (Mapping * list string) :=
  fold_left (fuzzy_step flat cutoff) headers (Ok ([], [])).

(** [fuzzy_match_columns(headers)] : the module's [flat_map], cutoff 0.7. *)
Definition fuzzy_match_columns (headers : list string) : Exc (Mapping * list string) :=
  fuzzy_match_columns_with flat_map (7%nat, 10%nat) headers.

(** The name [model] is bound twice at module level: first to the
    generative client, then to the sentence encoder.  The second binding
    is the one every function sees. *)
Inductive ModelHandle :=
| GenerativeModel (model_name : string)
| SentenceTransformer (model_name : string).

Definition model : ModelHandle := SentenceTransformer "all-MiniLM-L6-v2".

(** What the completion service does with one request. *)
Inductive Completion :=
| ServiceRaises (e : PyExn)
| EmptyResponse
| Reply (body : string).

(** [m.generate_content(prompt, generation_config=...)].  The encoder has
    no such attribute; the client hands the request to the service. *)
Definition generate_content (m : ModelHandle) (svc : Completion) : Exc Completion :=
  match m with
  | SentenceTransformer _ => Raise AttributeError
  | GenerativeModel _ =>
      match svc with
      | ServiceRaises e => Raise e
      | _ => Ok svc
      end
  end.

(** [response.text] : a [str], or [ValueError] when the response carries
    no content. *)
Definition response_text (r : Completion) : Exc string :=
  match r with
  | Reply body => Ok body
  | EmptyResponse => Raise ValueError
  | ServiceRaises e => Raise e
  end.

(** [s[key]] for a [str] [s] and a [str] key: string indices must be
    integers. *)
Definition str_getitem {A} (s key : string) : Exc A := Raise TypeError.

(** The body of the inner [try] of [process_tabular] and
    [process_document]. *)
Definition generative_mapping (m : ModelHandle) (svc : Completion) (headers : list string)
  : Exc (Mapping * list string) :=
  let columns := map lower headers in
  response ← generate_content m svc;
  t1 ← response_text response;
  matched ← str_getitem t1 "matched_columns";
  t2 ← response_text response;
  unmatched ← str_getitem t2 "unmatched_columns";
  Ok (matched, unmatched).

(** The [matched_columns] entry of a summary is the mapping, or the empty
    list on the early and the error returns. *)
Inductive MatchedColumns :=
| AsDict (m : Mapping)
| AsList (l : list string).

Record Summary := mkSummary {
  summary_path : string;
  total_records : Z;
  accepted_records : Z;
  rejected_records : Z;
  matched_columns : MatchedColumns;
  unmatched_columns : list string;
  status : string
}.

(** What a [return a, b, c] or a [return a, b] hands back. *)
Inductive Returned :=
| Triple (result : Summary) (matched_data : DataFrame string) (matched : Mapping)
| Pair (result : Summary) (matched_data : DataFrame string).

(** The dictionary of the early and of the error returns. *)
Definition rejected_summary (path : string) : Summary :=
  mkSummary path 0 0 0 (AsList []) [] "Rejected".

(** Lines 168 to 183 and 287 to 301: counts, projection and summary. *)
Definition summarize (path : string) (df : DataFrame string)
           (matched : Mapping) (unmatched : list string) : Exc Returned :=
  let total := frame_len df in
  let accepted := if (6 <=? Z.of_nat (length matched))%Z then total else 0%Z in
  let mapped_temp_col := List.filter (fun key => mem key (columns df)) (dict_keys matched) in
  matched_data ← match matched with
                 | [] => Ok empty_frame
                 | _ :: _ => frame_select mapped_temp_col df
                 end;
  Ok (Triple (mkSummary path total accepted (total - accepted)%Z
                        (AsDict matched) unmatched
                        (if (accepted =? 0)%Z then "Rejected" else "Accepted"))
             matched_data matched).

(** A spreadsheet read directly: a header that is not text makes
    [col.lower()] raise [AttributeError], in the [try] and again in the
    fuzzy matcher of its handler, before anything else is done. *)
Definition text_headers (df : DataFrame Label) : Exc (DataFrame string) :=
  cols ← fold_right (fun l acc =>
                       match l with
                       | LStr s => rest ← acc; Ok (s :: rest)
                       | LInt _ => Raise AttributeError
                       end) (Ok []) (columns df);
  Ok (mkFrame cols (data df)).

(** [pd.read_csv(path) if path.endswith(".csv") else pd.read_excel(path)] *)
Definition read_table (f : File) : Exc (DataFrame string) :=
  if ends_with ".csv" (file_path f) then read_csv f
  else df0 ← read_excel f; text_headers df0.

Definition process_tabular (svc : Completion) (f : File) : Returned :=
  let attempt :=
    df ← read_table f;
    let headers := columns df in
    '(matched, unmatched) ← try_except (generative_mapping model svc headers)
                                        (fuzzy_match_columns headers);
    summarize (file_path f) df matched unmatched in
  match attempt with
  | Ok r => r
  | Raise _ => Triple (rejected_summary (file_path f)) empty_frame []
  end.

(** The extractor chosen by the suffix of the path. *)
Definition extract_document (f : File) : DataFrame string :=
  if ends_with ".docx" (file_path f)
  then FileParser.extract_key_value_from_docx f
  else FileParser.extract_key_value_from_pdf f.

Definition process_document (svc : Completion) (f : File) : Returned :=
  let attempt :=
    _ ← (if nonempty (file_path f) then Ok () else Raise ValueError);
    let df := extract_document f in
    if frame_empty df
    then Ok (Pair (rejected_summary (file_path f)) empty_frame)
    else
      let headers := columns df in
      '(matched, unmatched) ← try_except (generative_mapping model svc headers)
                                          (fuzzy_match_columns headers);
      summarize (file_path f) df matched unmatched in
  match attempt with
  | Ok r => r
  | Raise _ => Triple (rejected_summary (file_path f)) empty_frame []
  end.

End FileProcessing.

(** ** The fuzzy matcher within a run

    The matcher and the library routine behind it once more, this time
    with what a run asks of its surroundings written out: a request to
    the completion service, and the order in which the interpreter goes
    through a set, which is the one thing in a run that is drawn at
    random.  [SequenceMatcher.__chain_b] goes through the set [popular]
    to delete its elements from [b2j]. *)

Module Runs.

(** What surrounds a run: what the completion service would answer, and
    the hash seed the interpreter has drawn. *)
Record World := mkWorld {
  service : FileProcessing.Completion;
  hash_seed : HashSeed
}.

(** What a run asks of its surroundings. *)
Inductive Event :=
| ServiceCalled
| SetListed.

#[export] Instance Event_eq_dec : EqDecision Event.
Proof. solve_decision. Defined.

(** A computation within a run: its result and what it has asked, in
    order. *)
Definition Run (A : Type) : Type := World -> A * list Event.

Definition ret {A} (a : A) : Run A := fun _ => (a, []).

Definition bind {A B} (c : Run A) (k : A -> Run B) : Run B :=
  fun w => let '(a, asked) := c w in
           let '(b, asked') := k a w in
           (b, asked ++ asked').

(** [for x in s] and [list(s)] for the set of the elements of [l]. *)
Definition list_set {A} `{EqDecision A} (l : list A) : Run (list A) :=
  fun w => (list_of_set (hash_seed w) l, [SetListed]).

(** [m.generate_content(...)] *)
Definition generate_content (m : FileProcessing.ModelHandle)
  : Run (Exc FileProcessing.Completion) :=
  match m with
  | FileProcessing.SentenceTransformer _ => ret (Raise AttributeError)
  | FileProcessing.GenerativeModel _ =>
      fun w => (match service w with
                | FileProcessing.ServiceRaises e => Raise e
                | r => Ok r
                end, [ServiceCalled])
  end.

(** [del d[k]] *)
Definition dict_delete {K V} `{EqDecision K} (k : K) (d : list (K * V))
  : Exc (list (K * V)) :=
  if mem k (dict_keys d)
  then Ok (List.filter (fun kv => negb (bool_decide (fst kv = k))) d)
  else Raise KeyError.

(** [for i, elt in enumerate(b): b2j.setdefault(elt, []).append(i)] *)
Definition index_all (b : list ascii) : list (ascii * list nat) :=
  fold_left (fun d ie => dict_set (snd ie) (default [] (dict_get (snd ie) d) ++ [fst ie]) d)
            (combine (seq 0 (length b)) b) [].

(** [__chain_b] with [isjunk=None] and [autojunk=True]: the set [junk]
    stays empty; in a sequence of 200 elements or more, the elements that
    occur more often than in one place out of a hundred, plus one, are
    added to the set [popular] and then deleted from [b2j], in the order
    of the set. *)
Definition chain_b (b : list ascii) : Run (Exc (list (ascii * list nat))) :=
  let b2j := index_all b in
  let n := length b in
  if (200 <=? n)%nat then
    let ntest := (n / 100 + 1)%nat in
    let popular :=
      map fst (List.filter (fun kv => (ntest <? length (snd kv))%nat) b2j) in
    bind (list_set popular)
         (fun elts => ret (fold_left (fun d elt => d' ← d; dict_delete elt d')
                                     elts (Ok b2j)))
  else ret (Ok b2j).

Section Matcher.

(** [self.b2j] *)
Variable b2j : list (ascii * list nat).

(** [b2j.get(c, nothing)] *)
Definition b2j_get (c : ascii) : list nat := default [] (dict_get c b2j).

(** The outer [for i in range(alo, ahi)] of [find_longest_match]. *)
Definition scan_is (a : list ascii) (alo ahi blo bhi : nat) : Difflib.Match :=
  snd (fold_left
         (fun (st : list (nat * nat) * Difflib.Match) (i : nat) =>
            match nth_error a i with
            | Some c => Difflib.scan_js (b2j_get c) i blo bhi (fst st) [] (snd st)
            | None => ([], snd st)
            end)
         (seq alo (ahi - alo))
         ([], (alo, blo, 0%nat))).

Definition find_longest_match (a b : list ascii) (alo ahi blo bhi : nat) : Difflib.Match :=
  let m0 := scan_is a alo ahi blo bhi in
  let m1 := Difflib.extend_left (length a) a b alo blo m0 in
  Difflib.extend_right (length a) a b ahi bhi m1.

Fixpoint matching_loop (fuel : nat) (a b : list ascii)
         (queue : list (nat * nat * nat * nat)) (blocks : list Difflib.Match)
  : list Difflib.Match :=
  match fuel with
  | O => blocks
  | S fuel' =>
      match queue with
      | [] => blocks
      | (alo, ahi, blo, bhi) :: queue' =>
          let '(i, j, k) := find_longest_match a b alo ahi blo bhi in
          match k with
          | O => matching_loop fuel' a b queue' blocks
          | S _ =>
              let q1 := if ((alo <? i) && (blo <? j))%nat
                        then (alo, i, blo, j) :: queue' else queue' in
              let q2 := if ((i + k <? ahi) && (j + k <? bhi))%nat
                        then ((i + k)%nat, ahi, (j + k)%nat, bhi) :: q1 else q1 in
              matching_loop fuel' a b q2 (blocks ++ [(i, j, k)])
          end
      end
  end.

Definition matching_blocks (a b : list ascii) : list Difflib.Match :=
  matching_loop (2 * length a + 1) a b [(0%nat, length a, 0%nat, length b)] [].

Definition ratio (a b : list ascii) : Difflib.Ratio :=
  Difflib.calculate_ratio
    (list_sum (map (fun m : Difflib.Match => snd m) (matching_blocks a b)))
    (length a + length b).

(** The loop of [get_close_matches] over the possibilities and the
    choice of the best, once [set_seq2(word)] has built [b2j]. *)
Definition close_matches (word : string) (possibilities : list string)
           (cutoff : Difflib.Ratio) : list string :=
  let b := chars word in
  let result :=
    List.flat_map (fun x : string =>
                let a := chars x in
                if Difflib.ratio_ge (Difflib.real_quick_ratio a b) cutoff
                   && Difflib.ratio_ge (Difflib.quick_ratio a b) cutoff
                   && Difflib.ratio_ge (ratio a b) cutoff
                then [(ratio a b, x)] else [])
             possibilities in
  map snd (Difflib.nlargest1 result).

End Matcher.

(** [0.0 <= cutoff <= 1.0], for a cutoff given as a ratio of naturals. *)
Definition cutoff_in_range (cutoff : Difflib.Ratio) : bool :=
  Difflib.ratio_ge (1%nat, 1%nat) cutoff.

(** [get_close_matches(word, possibilities, n=1, cutoff)]: a cutoff out
    of range is refused before the matcher is built. *)
Definition get_close_matches (word : string) (possibilities : list string)
           (cutoff : Difflib.Ratio) : Run (Exc (list string)) :=
  if cutoff_in_range cutoff
  then bind (chain_b (chars word))
            (fun built =>
               ret (b2j ← built; Ok (close_matches b2j word possibilities cutoff)))
  else ret (Raise ValueError).

(** The loop body of [fuzzy_match_columns]. *)
Definition fuzzy_step (flat : list (string * string)) (cutoff : Difflib.Ratio)
           (acc : Run (Exc (FileProcessing.Mapping * list string))) (col : string)
  : Run (Exc (FileProcessing.Mapping * list string)) :=
  bind acc
       (fun r =>
          match r with
          | Raise e => ret (Raise e)
          | Ok (matched, unmatched) =>
              bind (get_close_matches (lower col) (dict_keys flat) cutoff)
                   (fun found =>
                      ret (close ← found;
                           match close with
                           | m :: _ =>
                               field ← FileProcessing.dict_index m flat;
                               Ok (dict_set col field matched, unmatched)
                           | [] => Ok (matched, unmatched ++ [col])
                           end))
          end).

Definition fuzzy_match_columns_with (flat : list (string * string)) (cutoff : Difflib.Ratio)
           (headers : list string) : Run (Exc (FileProcessing.Mapping * list string)) :=
  fold_left (fuzzy_step flat cutoff) headers (ret (Ok ([], []))).

(** [fuzzy_match_columns(headers)] : the module's [flat_map], cutoff 0.7. *)
Definition fuzzy_match_columns (headers : list string)
  : Run (Exc (FileProcessing.Mapping * list string)) :=
  fuzzy_match_columns_with FileProcessing.flat_map (7%nat, 10%nat) headers.

End Runs.

(** ** services/file_analyzer.py *)

Module FileAnalyzer.

Import FileProcessing.

(** [result, matched_data, matched = value] : unpacking needs exactly
    three items. *)
Definition unpack3 (r : Returned) : Exc (Summary * DataFrame string * Mapping) :=
  match r with
  | Triple result matched_data matched => Ok (result, matched_data, matched)
  | Pair _ _ => Raise ValueError
  end.

(** The temporary file [temp_converted_from_excel.csv] written by
    [df.to_csv]. *)
Definition temp_csv (f : File) : File :=
  mkFile "temp_converted_from_excel.csv"
         (Ok ("text/csv", "csv"))
         (read_exported_csv f)
         (Raise ValueError)
         (read_exported_csv f)
         (Raise ValueError)
         (Raise ValueError)
         (Ok ()).

(** [docs, _ = load_file(path); ... = process_document(docs, file_path=path)] *)
Definition as_document (svc : Completion) (f : File)
  : Exc (Summary * DataFrame string * Mapping) :=
  _ ← load_file f;
  unpack3 (process_document svc f).

Definition analyze_file (svc : Completion) (f : File)
  : Exc (Summary * DataFrame string * Mapping) :=
  reraise_runtime
    ('(mime, ext) ← detected_type f;
     if bool_decide (ext = "csv") then
       unpack3 (process_tabular svc f)
     else if bool_decide (ext = "xlsx") then
       match (_ ← read_excel f; unpack3 (process_tabular svc (temp_csv f))) with
       | Ok r => Ok r
       | Raise _ => reraise_runtime (as_document svc f)
       end
     else if contains "word" mime || mem ext ["docx"; "doc"] then
       reraise_runtime (as_document svc f)
     else if contains "pdf" mime || bool_decide (ext = "pdf") then
       reraise_runtime (as_document svc f)
     else Raise ValueError).

End FileAnalyzer.

(** ** The normaliser

    The same statements appear in [upload_file] (lines 65 to 79) and in
    [save_submit_columns_data] (lines 189 to 199): rename the projected
    columns, add a placeholder column for every canonical field that is
    not a column, reorder to the canonical order, fill the missing cells,
    and turn the rows into dictionaries. *)

Section Normalizer.
Context {L : Type} `{EqDecision L}.
Variable label : string -> L.

(** [for col in schema_mapping: if col not in df.columns: df[col] = "-"] *)
Definition add_placeholders (fields : list string) (df : DataFrame L) : DataFrame L :=
  fold_left (fun d col =>
               if mem (label col) (columns d) then d
               else frame_add_column (label col) placeholder d)
            fields df.

Definition normalize (renames : list (L * L)) (matched_data : DataFrame L)
  : Exc (list (list (L * PyVal))) :=
  let renamed := frame_rename renames matched_data in
  let completed := add_placeholders FileParser.schema_fields renamed in
  ordered ← frame_select (map label FileParser.schema_fields) completed;
  Ok (to_dict_records (frame_fillna (PStr "") ordered)).
End Normalizer.

(** ** api/v1/endpoints/upload_file.py : the normalisation block *)

Module UploadFile.

Import FileProcessing.

(** The records handed to [save_file_analysis_to_db] as [mapped_data], from
    the frame and the mapping returned by [analyze_file]. *)
Definition mapped_data (matched_data : DataFrame string) (matched : Mapping)
  : Exc (list (list (string * PyVal))) :=
  normalize (fun s => s) matched matched_data.

End UploadFile.

(** ** The builtins [int()] and [float()] *)

(** The blanks that [int()] and [float()] skip around an ASCII literal:
    TAB, LF, VT, FF, CR and the blank, without the separators 0x1c to 0x1f
    that [str.strip()] also removes. *)
Definition is_numeric_space (c : ascii) : bool :=
  let n := nat_of_ascii c in
  ((9 <=? n)%nat && (n <=? 13)%nat) || (n =? 32)%nat.

Definition is_digit (c : ascii) : bool :=
  let n := nat_of_ascii c in (48 <=? n)%nat && (n <=? 57)%nat.

Definition digit_value (c : ascii) : Z := Z.of_nat (nat_of_ascii c) - 48.

Definition underscore : ascii := "_"%char.

(** Numeric literals may group digits with single underscores: an
    underscore is accepted only after a digit and only before a digit, and
    is dropped.  [prev] is the character just read. *)
Fixpoint remove_underscores (prev : ascii) (l : list ascii) : option (list ascii) :=
  match l with
  | [] => if Ascii.eqb prev underscore then None else Some []
  | c :: l' =>
      if Ascii.eqb c underscore then
        if is_digit prev then remove_underscores c l' else None
      else if Ascii.eqb prev underscore && negb (is_digit c) then None
      else cons c <$> remove_underscores c l'
  end.

(** An optional sign: whether it is a minus, and what follows. *)
Definition split_sign (l : list ascii) : bool * list ascii :=
  match l with
  | c :: l' =>
      if Ascii.eqb c "-"%char then (true, l')
      else if Ascii.eqb c "+"%char then (false, l')
      else (false, l)
  | [] => (false, [])
  end.

Definition decimal_value (digits : list ascii) : Z :=
  fold_left (fun acc c => 10 * acc + digit_value c)%Z digits 0%Z.

(** The interpreter converts no text of more than 4300 digits to an
    integer, and no integer of more than 4300 digits to text: both raise
    [ValueError]. *)
Definition max_str_digits : Z := 4300.

(** [int(s)] for a [str], base ten; [None] stands for [ValueError].  The
    digits are counted without the sign and the underscores. *)
Definition int_of_str (s : string) : option Z :=
  body ← remove_underscores Ascii.zero (strip_chars is_numeric_space (chars s));
  let '(negative, digits) := split_sign body in
  match digits with
  | [] => None
  | _ :: _ =>
      if forallb is_digit digits && (Z.of_nat (length digits) <=? max_str_digits)%Z
      then Some (if negative then - decimal_value digits else decimal_value digits)%Z
      else None
  end.

Fixpoint span_digits (l : list ascii) : list ascii * list ascii :=
  match l with
  | c :: l' =>
      if is_digit c then let '(ds, rest) := span_digits l' in (c :: ds, rest)
      else ([], l)
  | [] => ([], [])
  end.

Definition is_nil {A} (l : list A) : bool :=
  match l with [] => true | _ :: _ => false end.

(** The decimal form accepted by [float()]: digits with an optional point,
    at least one digit in all, and an optional exponent. *)
Definition decimal_literal (l : list ascii) : bool :=
  let '(int_part, r1) := span_digits l in
  let '(frac_part, r2) :=
    match r1 with
    | c :: r => if Ascii.eqb c "."%char then span_digits r else ([], r1)
    | [] => ([], r1)
    end in
  negb (is_nil int_part && is_nil frac_part) &&
  match r2 with
  | [] => true
  | c :: r3 =>
      (Ascii.eqb c "e"%char || Ascii.eqb c "E"%char) &&
      let digits := snd (split_sign r3) in
      negb (is_nil digits) && forallb is_digit digits
  end.

Definition special_literal (l : list ascii) : bool :=
  mem (text (map lower_char l)) ["inf"; "infinity"; "nan"].

(** Whether [float(s)] accepts the [str] [s]. *)
Definition float_literal (s : string) : bool :=
  match remove_underscores Ascii.zero (strip_chars is_numeric_space (chars s)) with
  | None => false
  | Some body =>
      let rest := snd (split_sign body) in
      special_literal rest || decimal_literal rest
  end.

(** What [float(v)] returns: a value already held as a double, the double
    nearest to an integer, or the double denoted by a literal. *)
Inductive FloatOut :=
| FExact (f : PyFloat)
| FRounded (z : Z)
| FParsed (literal : string).

Definition float_zero : FloatOut := FExact (FFinite 0 0).

(** [int(v)] *)
Definition py_int (v : PyVal) : Exc Z :=
  match v with
  | PNone | PObj => Raise TypeError
  | PStr s => match int_of_str s with
              | Some z => Ok z
              | None => Raise ValueError
              end
  | PInt z => Ok z
  | PBool b => Ok (if b then 1 else 0)%Z
  | PFloat FNaN => Raise ValueError
  | PFloat (FInf _) => Raise OverflowError
  | PFloat (FFinite m e) =>
      Ok (if (0 <=? e)%Z then m * 2 ^ e else Z.quot m (2 ^ (- e)))%Z
  end.

(** [float(v)]; an integer beyond the range of a double overflows. *)
Definition py_float (v : PyVal) : Exc FloatOut :=
  match v with
  | PNone | PObj => Raise TypeError
  | PStr s => if float_literal s then Ok (FParsed s) else Raise ValueError
  | PInt z => if (Z.abs z <? 2 ^ 1024 - 2 ^ 970)%Z then Ok (FRounded z)
              else Raise OverflowError
  | PBool b => Ok (FRounded (if b then 1 else 0))
  | PFloat f => Ok (FExact f)
  end.

(** [a or b] *)
Definition py_or (a b : PyVal) : PyVal :=
  match a with
  | PNone | PStr "" | PInt 0 | PBool false => b
  | PFloat (FFinite 0 _) => b
  | _ => a
  end.

(** [str(v)], kept as the value it is the text of: an integer of more than
    4300 digits has no text. *)
Definition py_str (v : PyVal) : Exc PyVal :=
  match v with
  | PInt z => if (Z.abs z <? 10 ^ max_str_digits)%Z then Ok v else Raise ValueError
  | _ => Ok v
  end.

(** ** db/file_model.py : the tables

    The rows of [file_upload] and [mapped_data], and what the column types
    of the tables accept.  The rows of the log and of the three statistics
    tables are declared with the function that writes them. *)

Module FileModel.

(** [uploaded_date] is filled by the clock of the store. *)
Record FileUpload := mkUpload {
  upload_id : Z;
  file_name : string;
  file_type : string;
  uploaded_date : Z
}.

Record MappedData := mkMapped {
  mapped_id : Z;
  mapped_file_id : Z;
  mapped_rows : list (list (string * PyVal))
}.

(** A text fits a [String(n)] column. *)
Definition fits (n : nat) (s : string) : bool := (String.length s <=? n)%nat.

(** An [Integer] column holds 32 bits. *)
Definition int4_ok (z : Z) : bool :=
  (-2147483648 <=? z)%Z && (z <=? 2147483647)%Z.

(** The decimal text of an integer has at most [n] characters, the sign
    included. *)
Definition int_fits (n : Z) (z : Z) : bool :=
  if (z <? 0)%Z then (- z <? 10 ^ (n - 1))%Z else (z <? 10 ^ n)%Z.

(** What a [String(n)] column that is not nullable accepts of a value
    handed over as it is: the store keeps a number, a truth value or a
    timestamp as its text, which for a float, a truth value and a
    timestamp is shorter than any column of these tables; [None] is
    [NULL]. *)
Definition varchar_ok (n : nat) (v : PyVal) : bool :=
  match v with
  | PNone => false
  | PStr s => fits n s
  | PInt z => int_fits (Z.of_nat n) z
  | PBool _ | PFloat _ | PObj => true
  end.

(** A value of the [JSONB] column: an object such as a timestamp has no
    JSON text, and the store reads neither [NaN] nor [Infinity]. *)
Definition jsonb_ok (v : PyVal) : bool :=
  match v with
  | PObj | PFloat FNaN | PFloat (FInf _) => false
  | _ => true
  end.

(** The answer of the store to a statement: the driver raises when the
    store refuses it. *)
Definition accepted (ok : bool) : Exc unit :=
  if ok then Ok () else Raise (ServiceFailure "DBAPIError").

End FileModel.

(** ** services/save_data.py *)

Module SaveData.

(** [convert_string_to_int]: the integer, or [None] on [ValueError]. *)
Definition convert_string_to_int (value : string) : option Z := int_of_str value.

(** [safe_int]: [ValueError] and [TypeError] give 0, anything else
    propagates. *)
Definition safe_int (value : PyVal) : Exc Z :=
  match py_int value with
  | Ok z => Ok z
  | Raise ValueError | Raise TypeError => Ok 0%Z
  | Raise e => Raise e
  end.

(** [safe_float] *)
Definition safe_float (value : PyVal) : Exc FloatOut :=
  match py_float value with
  | Ok x => Ok x
  | Raise ValueError | Raise TypeError => Ok float_zero
  | Raise e => Raise e
  end.

(** The body of a correction request. *)
Record ColumnMappingRequest := mkRequest {
  file_id : Z;
  user_mapping : list (string * string);
  request_path : string;
  file_type : string
}.

(** The rows of the three statistics tables; [highest_score] and
    [best_bowling] hold the value that [str()] is applied to. *)
Record Player := mkPlayer {
  player_id : Z;
  player_file_id : Z;
  player_name : PyVal;
  matches : Z;
  innings : Z
}.

Record Batting := mkBatting {
  batting_player_id : Z;
  total_runs : Z;
  average : FloatOut;
  highest_score : PyVal;
  century : Z;
  half_century : Z
}.

Record Bowling := mkBowling {
  bowling_player_id : Z;
  wickets : Z;
  five_wickets : Z;
  best_bowling : PyVal
}.

(** One row of [file_processing_log]; every column but the key is
    nullable. *)
Record FileProcessingLog := mkLog {
  log_file_id : Z;
  log_matched_columns : option (list Label);
  log_unmatched_columns : option (list Label);
  log_missing_columns : option (list string);
  log_total_records : option Z;
  log_status : option string
}.

(** The tables the function reads and writes; the log has at most one row
    per file identifier.  A committed store holds what the session has
    written when [db.commit()] returns.  The store numbers the rows of a
    table in the order they come, and refuses a player or a log of a file
    it has no upload for, a number beyond 32 bits in an [Integer] column,
    a text wider than its column and a null name. *)
Record Db := mkDb {
  file_upload : list FileModel.FileUpload;
  file_processing_log : gmap Z FileProcessingLog;
  player : list Player;
  batting : list Batting;
  bowling : list Bowling
}.

(** [file_id] refers to a row of [file_upload]. *)
Definition uploaded (fid : Z) (db : Db) : bool :=
  mem fid (map FileModel.upload_id (file_upload db)).

(** What the store accepts of the three rows of a record. *)
Definition player_ok (db : Db) (p : Player) : bool :=
  uploaded (player_file_id p) db
  && FileModel.varchar_ok 255 (player_name p)
  && FileModel.int4_ok (matches p) && FileModel.int4_ok (innings p).

Definition batting_ok (b : Batting) : bool :=
  FileModel.int4_ok (total_runs b) && FileModel.int4_ok (century b)
  && FileModel.int4_ok (half_century b).

Definition bowling_ok (w : Bowling) : bool :=
  FileModel.int4_ok (wickets w) && FileModel.int4_ok (five_wickets w)
  && FileModel.varchar_ok 50 (best_bowling w).

Definition text_labels (df : DataFrame string) : DataFrame Label :=
  mkFrame (map LStr (columns df)) (data df).

(** Lines 164 to 171: reading the file again. *)
Definition read_source (request : ColumnMappingRequest) (f : File) : Exc (DataFrame Label) :=
  if bool_decide (file_type request = "csv") || bool_decide (file_type request = "xlsx") then
    if bool_decide (file_type request = "csv")
    then df ← read_csv f; Ok (text_labels df)
    else read_excel f
  else if ends_with ".docx" (request_path request)
       then Ok (text_labels (FileParser.extract_key_value_from_docx f))
       else Ok (text_labels (FileParser.extract_key_value_from_pdf f)).

(** Lines 177 to 184: one entry of the user's mapping. *)
Definition select_step (header : list Label)
           (acc : list Label * list (Label * string)) (kv : string * string)
  : list Label * list (Label * string) :=
  let '(mapped_temp_col, new_mapped) := acc in
  let '(key, value) := kv in
  match convert_string_to_int key with
  | Some new_key =>
      if mem (LInt new_key) header
      then (mapped_temp_col ++ [LInt new_key], dict_set (LInt new_key) value new_mapped)
      else if mem (LStr key) header
           then (mapped_temp_col ++ [LStr key], dict_set (LStr key) value new_mapped)
           else acc
  | None =>
      if mem (LStr key) header
      then (mapped_temp_col ++ [LStr key], dict_set (LStr key) value new_mapped)
      else acc
  end.

(** Lines 175 to 184: the columns to project and the renaming, from the
    user's mapping and the header of the file. *)
Definition select_mapped (mapped : list (string * string)) (header : list Label)
  : list Label * list (Label * string) :=
  fold_left (select_step header) mapped ([], []).

(** Lines 187 to 199: the canonical records. *)
Definition canonical_records (mapped : list (string * string)) (df : DataFrame Label)
  : Exc (list (list (Label * PyVal))) :=
  let '(mapped_temp_col, new_mapped) := select_mapped mapped (columns df) in
  matched_data ← match mapped with
                 | [] => Ok empty_frame
                 | _ :: _ => frame_select mapped_temp_col df
                 end;
  normalize LStr (map (fun kv => (fst kv, LStr (snd kv))) new_mapped) matched_data.

(** Lines 213 to 219: the row restricted to the user's target fields, and
    the targets whose value is [None]. *)
Definition map_row (user_mapping : list string) (row : list (Label * PyVal))
  : list (string * PyVal) * list string :=
  fold_left
    (fun (acc : list (string * PyVal) * list string) mapped_key =>
       let value := default PNone (dict_get (LStr mapped_key) row) in
       (dict_set mapped_key value (fst acc),
        if bool_decide (value = PNone) then snd acc ++ [mapped_key] else snd acc))
    user_mapping ([], []).

Definition row_get (key : string) (mapped_row : list (string * PyVal)) : PyVal :=
  default PNone (dict_get key mapped_row).

(** Lines 223 to 251: the three inserts for one row.  The player reaches
    the store at [db.flush()], which gives it its identifier; the batting
    and the bowling row are only added to the session and reach the store
    at the next flush or at the commit.  Whichever refusal or exception
    comes first, the request ends in the same way. *)
Definition insert_entities (fid : Z) (mapped_row : list (string * PyVal)) (db : Db) : Exc Db :=
  m ← safe_int (row_get "Matches" mapped_row);
  i ← safe_int (row_get "Innings" mapped_row);
  let pid := (Z.of_nat (length (player db)) + 1)%Z in
  let p := mkPlayer pid fid
                    (default (PStr "Unknown") (dict_get "Player Name" mapped_row)) m i in
  _ ← FileModel.accepted (player_ok db p);
  runs ← safe_int (row_get "Total Runs" mapped_row);
  avg ← safe_float (row_get "Average" mapped_row);
  hs ← py_str (py_or (row_get "Highest Score" mapped_row) (PStr "0"));
  c ← safe_int (row_get "Centuries" mapped_row);
  hc ← safe_int (row_get "Half Centuries" mapped_row);
  let b := mkBatting pid runs avg hs c hc in
  w ← safe_int (row_get "Wickets" mapped_row);
  fw ← safe_int (row_get "Fifers" mapped_row);
  bb ← py_str (py_or (row_get "Best Bowling Figures" mapped_row) (PStr "0/0"));
  let bw := mkBowling pid w fw bb in
  _ ← FileModel.accepted (batting_ok b && bowling_ok bw);
  Ok (mkDb (file_upload db) (file_processing_log db) (player db ++ [p])
           (batting db ++ [b]) (bowling db ++ [bw])).

(** One turn of the [for row in raw_data] loop. *)
Definition insert_step (fid : Z) (user_mapping : list string)
           (acc : Exc (Db * Z * list string)) (row : list (Label * PyVal))
  : Exc (Db * Z * list string) :=
  '(db1, total, unmatched) ← acc;
  let '(mapped_row, missing) := map_row user_mapping row in
  db2 ← insert_entities fid mapped_row db1;
  Ok (db2, (total + 1)%Z, unmatched ++ missing).

(** The [for row in raw_data] loop: the store, the row count and the
    targets seen with no value, in order of discovery. *)
Definition insert_rows (fid : Z) (user_mapping : list string)
           (raw_data : list (list (Label * PyVal))) (db : Db)
  : Exc (Db * Z * list string) :=
  fold_left (insert_step fid user_mapping) raw_data (Ok (db, 0%Z, [])).

(** Lines 256 to 263: no log yet for this file.  [unmatched_columns_set]
    is given by the targets added to the set, in the order they were
    added. *)
Definition create_log (seed : HashSeed) (fid : Z) (user_mapping : list string)
           (unmatched_columns_set : list string) (total : Z) : FileProcessingLog :=
  mkLog fid
        (Some (map LStr user_mapping))
        (Some (list_of_set seed (map LStr unmatched_columns_set)))
        None
        (Some total)
        (Some (if is_nil unmatched_columns_set then "accepted" else "partial")).

(** [temp.append(col)] : [None] has no such attribute. *)
Definition append_to (temp : option (list Label)) (col : Label) : Exc (option (list Label)) :=
  match temp with
  | Some l => Ok (Some (l ++ [col]))
  | None => Raise AttributeError
  end.

(** [list(set(temp))] : [None] is not iterable. *)
Definition set_of (seed : HashSeed) (temp : option (list Label)) : Exc (list Label) :=
  match temp with
  | Some l => Ok (list_of_set seed l)
  | None => Raise TypeError
  end.

(** Lines 265 to 272: the log of this file exists and is updated; the
    result is the row as the commit leaves it in the store.
    [temp_unmatched_columns] is the very list the log was loaded with, so
    the [append] of line 269 extends the loaded value in place.  At the
    commit the mapper compares the list assigned on line 270 with that
    loaded value, now extended: when the two are equal it sees no change
    and writes nothing, and the store keeps the list it had. *)
Definition merge_log (seed : HashSeed) (file_log : FileProcessingLog) (header : list Label)
           (new_mapped : list (Label * string)) (total : Z) : Exc FileProcessingLog :=
  let matched_columns := dict_keys new_mapped in
  temp ← fold_left (fun (acc : Exc (option (list Label))) col =>
                      t ← acc;
                      if mem col matched_columns then Ok t else append_to t col)
                   header (Ok (log_unmatched_columns file_log));
  unmatched ← set_of seed temp;
  Ok (mkLog (log_file_id file_log)
            (Some matched_columns)
            (if bool_decide (temp = Some unmatched)
             then log_unmatched_columns file_log
             else Some unmatched)
            (log_missing_columns file_log)
            (Some total)
            (Some (if is_nil matched_columns then "partial" else "accepted"))).

(** [save_submit_columns_data(request, db)] in an interpreter started with
    [seed]: the store after [db.commit()]; on any exception the session is
    rolled back and a 500 error raised.  The log reaches the store at the
    commit. *)
Definition save_submit_columns_data (seed : HashSeed) (request : ColumnMappingRequest)
           (f : File) (db : Db) : Exc Db :=
  let attempt :=
    let mapped := user_mapping request in
    df ← read_source request f;
    let header := columns df in
    let '(_, new_mapped) := select_mapped mapped header in
    matched_data ← canonical_records mapped df;
    let targets := dict_values mapped in
    '(db1, total, unmatched_columns_set) ← insert_rows (file_id request) targets matched_data db;
    match file_processing_log db1 !! file_id request with
    | None =>
        _ ← FileModel.accepted (uploaded (file_id request) db1 && FileModel.int4_ok total);
        Ok (mkDb (file_upload db1)
                 (<[file_id request :=
                      create_log seed (file_id request) targets unmatched_columns_set total]>
                    (file_processing_log db1))
                 (player db1) (batting db1) (bowling db1))
    | Some file_log =>
        file_log' ← merge_log seed file_log header new_mapped total;
        _ ← FileModel.accepted (FileModel.int4_ok total);
        Ok (mkDb (file_upload db1)
                 (<[file_id request := file_log']> (file_processing_log db1))
                 (player db1) (batting db1) (bowling db1))
    end in
  match attempt with
  | Ok db' => Ok db'
  | Raise _ => Raise (HTTPException 500)
  end.

End SaveData.

(** ** services/save_data.py : recording an upload *)

Module SaveUploads.

(** All the tables behind one session: those of [SaveData.Db] and the
    mapped data.  The store is modelled as it answers when it is reached:
    it numbers the rows of a table, and refuses a text wider than its
    column, a second log for a file, a number beyond an [Integer] and a
    value without JSON text.  Texts hold no NUL character. *)
Record Store := mkStore {
  mapped_data : list FileModel.MappedData;
  statistics : SaveData.Db
}.

Definition file_upload (st : Store) : list FileModel.FileUpload :=
  SaveData.file_upload (statistics st).

(** The store with other tables of uploads, logs and statistics. *)
Definition with_statistics (st : Store) (db : SaveData.Db) : Store :=
  mkStore (mapped_data st) db.

(** [s.split(".")[0]] and [s.split(".")[-1]] *)
Definition first_piece (s : string) : string :=
  text (hd [] (split_all "."%char (chars s))).

Definition last_piece (s : string) : string :=
  text (List.last (split_all "."%char (chars s)) []).

(** [db.add(FileUpload(file_name=..., file_type=...)); db.flush()]: the row
    gets an identifier no row has had, here the next one of the table, as
    when no row is deleted and no numbered row rolled back; a text wider
    than its column is refused by the store.  [ServiceFailure] is the
    error of the database driver. *)
Definition add_upload (now : Z) (file_name file_type : string) (st : Store)
  : Exc (Z * Store) :=
  let db := statistics st in
  if FileModel.fits 255 file_name && FileModel.fits 50 file_type then
    let fid := (Z.of_nat (length (file_upload st)) + 1)%Z in
    Ok (fid,
        with_statistics st
          (SaveData.mkDb (file_upload st ++ [FileModel.mkUpload fid file_name file_type now])
                         (SaveData.file_processing_log db)
                         (SaveData.player db) (SaveData.batting db) (SaveData.bowling db)))
  else Raise (ServiceFailure "DataError").

(** [db.add(FileProcessingLog(...))]: [file_id] is unique in the log. *)
Definition add_log (log : SaveData.FileProcessingLog) (st : Store) : Exc Store :=
  let db := statistics st in
  match SaveData.file_processing_log db !! SaveData.log_file_id log with
  | Some _ => Raise (ServiceFailure "IntegrityError")
  | None =>
      Ok (with_statistics st
            (SaveData.mkDb (SaveData.file_upload db)
                           (<[SaveData.log_file_id log := log]>
                              (SaveData.file_processing_log db))
                           (SaveData.player db) (SaveData.batting db)
                           (SaveData.bowling db)))
  end.

(** [save_rejected_files(file_name, db)]: the identifier of the new upload
    and the committed store; on an exception the session is rolled back
    and the exception raised again. *)
Definition save_rejected_files (now : Z) (file_name : string) (st : Store)
  : Exc (Z * Store) :=
  let file_type :=
    if contains_char "."%char file_name then last_piece file_name else "unknown" in
  let file_name := first_piece file_name in
  '(fid, st1) ← add_upload now file_name file_type st;
  st2 ← add_log (SaveData.mkLog fid None None None None (Some "rejected")) st1;
  Ok (fid, st2).

(** [save_file_analysis_to_db(...)] with arguments of the types its
    signature gives.  The log and the mapped data reach the store at
    [db.commit()]. *)
Definition save_file_analysis_to_db
           (now : Z) (file_name file_type : string)
           (matched_columns unmatched_columns : list string)
           (total_records : Z) (status : string)
           (mapped : list (list (string * PyVal)))
           (missing_columns : list string) (st : Store) : Exc (Z * Store) :=
  '(fid, st1) ← add_upload now file_name file_type st;
  _ ← (if FileModel.fits 50 status && FileModel.int4_ok total_records
          && forallb (forallb (fun kv => FileModel.jsonb_ok (snd kv))) mapped
       then Ok () else Raise (ServiceFailure "StatementError"));
  st2 ← add_log (SaveData.mkLog fid (Some (map LStr matched_columns))
                                (Some (map LStr unmatched_columns))
                                (Some missing_columns)
                                (Some total_records) (Some status)) st1;
  let mid := (Z.of_nat (length (mapped_data st2)) + 1)%Z in
  Ok (fid, mkStore (mapped_data st2 ++ [FileModel.mkMapped mid fid mapped])
                   (statistics st2)).

End SaveUploads.

(** ** The order of a result

    A query without [ORDER BY] gets its rows in the order the store finds
    them.  An order is taken as what the store answers for every list of
    rows, given in the order of the table: the same rows, in some
    order. *)

Record RowOrder := mkOrder {
  answer : forall A : Type, list A -> list A;
  answer_perm : forall A (l : list A), answer A l ≡ₚ l
}.

Arguments answer _ {A} l.

Definition table_order : RowOrder :=
  mkOrder (fun A l => l) (fun A l => Permutation_refl l).

Definition reverse_order : RowOrder :=
  mkOrder (fun A l => reverse l) (fun A l => reverse_Permutation l).

(** ** services/fetch_data.py *)

Module FetchData.

(** One value of a row of statistics: a text column, of which the store
    returns the text of what was assigned; an integer; a float; or [None]
    for a player without batting or bowling row. *)
Inductive Stat :=
| SText (assigned : PyVal)
| SInt (z : Z)
| SFloat (x : FloatOut)
| SNone.

(** [player.batting] and [player.bowling]: the first of the rows that
    refer to the player, as the store answers them, if there is one. *)
Definition batting_of (order : RowOrder) (db : SaveData.Db) (p : SaveData.Player)
  : option SaveData.Batting :=
  head (answer order
          (List.filter (fun b => (SaveData.batting_player_id b =? SaveData.player_id p)%Z)
                       (SaveData.batting db))).

Definition bowling_of (order : RowOrder) (db : SaveData.Db) (p : SaveData.Player)
  : option SaveData.Bowling :=
  head (answer order
          (List.filter (fun w => (SaveData.bowling_player_id w =? SaveData.player_id p)%Z)
                       (SaveData.bowling db))).

(** [row.attribute if row else None] *)
Definition attribute {A B} (row : option A) (f : A -> B) (wrap : B -> Stat) : Stat :=
  match row with
  | Some r => wrap (f r)
  | None => SNone
  end.

(** The list appended to [result] for one player. *)
Definition stats_of (order : RowOrder) (db : SaveData.Db) (p : SaveData.Player)
  : list Stat :=
  let batting := batting_of order db p in
  let bowling := bowling_of order db p in
  [ SText (SaveData.player_name p);
    SInt (SaveData.matches p);
    SInt (SaveData.innings p);
    attribute batting SaveData.total_runs SInt;
    attribute batting SaveData.highest_score SText;
    attribute batting SaveData.average SFloat;
    attribute bowling SaveData.wickets SInt;
    attribute batting SaveData.century SInt;
    attribute batting SaveData.half_century SInt;
    attribute bowling SaveData.five_wickets SInt;
    attribute bowling SaveData.best_bowling SText ].

(** The players of a file, each once, as the query of lines 93 to 99
    gets them: it fixes no order. *)
Definition players_of (order : RowOrder) (file_id : Z) (db : SaveData.Db)
  : list SaveData.Player :=
  answer order
    (List.filter (fun p => (SaveData.player_file_id p =? file_id)%Z) (SaveData.player db)).

(** [get_mapped_data(file_id, db)]: the 404 is raised inside the [try]
    and, like any exception, turned into a 500 by its handler. *)
Definition get_mapped_data (order : RowOrder) (file_id : Z) (db : SaveData.Db)
  : Exc (list (list Stat)) :=
  let attempt :=
    let players := players_of order file_id db in
    _ ← (if is_nil players then Raise (HTTPException 404) else Ok ());
    Ok (map (stats_of order db) players) in
  match attempt with
  | Ok result => Ok result
  | Raise _ => Raise (HTTPException 500)
  end.

(** One dictionary of [get_file_metadata]; a file without log gets the
    defaults of the conditional expressions. *)
Record Metadata := mkMetadata {
  meta_file_id : Z;
  meta_file_name : string;
  meta_file_type : string;
  meta_uploaded_date : Z;
  meta_matched_columns : option (list Label);
  meta_unmatched_columns : option (list Label);
  meta_total_records : option Z;
  meta_status : option string;
  meta_missing_columns : option (list string)
}.

Definition metadata_of (file : FileModel.FileUpload)
           (metadata : option SaveData.FileProcessingLog) : Metadata :=
  mkMetadata (FileModel.upload_id file) (FileModel.file_name file)
             (FileModel.file_type file) (FileModel.uploaded_date file)
             (match metadata with
              | Some m => SaveData.log_matched_columns m | None => Some [] end)
             (match metadata with
              | Some m => SaveData.log_unmatched_columns m | None => Some [] end)
             (match metadata with
              | Some m => SaveData.log_total_records m | None => Some 0%Z end)
             (match metadata with
              | Some m => SaveData.log_status m | None => Some "Unknown" end)
             (match metadata with
              | Some m => SaveData.log_missing_columns m | None => Some [] end).

(** [get_file_metadata(db)].  In the second loop the filter is written
    with Python's [and] between two column comparisons: the first
    comparison is not true as a Python value, so [and] returns it and the
    comparison of the status never reaches the query.  Neither query
    for the uploads fixes an order. *)
Definition get_file_metadata (order : RowOrder) (st : SaveUploads.Store)
  : Exc (list Metadata) :=
  let db := SaveUploads.statistics st in
  let log_of (file : FileModel.FileUpload) :=
    SaveData.file_processing_log db !! FileModel.upload_id file in
  let attempt :=
    let user_mapped_file_ids := remove_dups (map SaveData.player_file_id (SaveData.player db)) in
    let files :=
      answer order
        (List.filter (fun file => mem (FileModel.upload_id file) user_mapped_file_ids)
                     (SaveUploads.file_upload st)) in
    let result := map (fun file => metadata_of file (log_of file)) files in
    let files := answer order (SaveUploads.file_upload st) in
    Ok (result ++ map (fun file => metadata_of file (log_of file)) files) in
  match attempt with
  | Ok result => Ok result
  | Raise _ => Raise (HTTPException 500)
  end.

End FetchData.

(** ** api/v1/endpoints *)

Module Endpoints.

(** [await value] for a value that is not awaitable, such as the tuple,
    the dictionary or the integer a plain function returns. *)
Definition await {A B} (value : A) : Exc B := Raise TypeError.

(** [try: body except HTTPException as he: raise he
     except Exception as e: db.rollback(); raise HTTPException(500)] *)
Definition reraise_http {A} (body : Exc A) : Exc A :=
  match body with
  | Ok a => Ok a
  | Raise (HTTPException code) => Raise (HTTPException code)
  | Raise _ => Raise (HTTPException 500)
  end.

(** [get_all_file_metadata] and [get_user_mapped_data]: any exception
    becomes a 500. *)
Definition get_all_file_metadata (order : RowOrder) (st : SaveUploads.Store)
  : Exc (list FetchData.Metadata) :=
  match FetchData.get_file_metadata order st with
  | Ok result => Ok result
  | Raise _ => Raise (HTTPException 500)
  end.

Definition get_user_mapped_data (order : RowOrder) (file_id : Z) (st : SaveUploads.Store)
  : Exc (list (list FetchData.Stat)) :=
  match FetchData.get_mapped_data order file_id (SaveUploads.statistics st) with
  | Ok result => Ok result
  | Raise _ => Raise (HTTPException 500)
  end.

(** The dictionary [save_submit_columns_data] returns. *)
Record Response := mkResponse {
  response_status : string;
  response_message : string
}.

(** [submit_columns(request, db)]: what the client gets, and the store
    afterwards.  [save_submit_columns_data] has committed when it returns;
    the [db.rollback()] of the handler then has nothing to undo. *)
Definition submit_columns (seed : HashSeed) (request : SaveData.ColumnMappingRequest)
           (f : File) (st : SaveUploads.Store) : Exc Response * SaveUploads.Store :=
  match SaveData.save_submit_columns_data seed request f (SaveUploads.statistics st) with
  | Ok db' =>
      let returned :=
        mkResponse "success"
                   "Data saved to Player, Batting, Bowling, and logs successfully" in
      (reraise_http (await returned), SaveUploads.with_statistics st db')
  | Raise e => (reraise_http (Raise e), st)
  end.

(** [os.path.join(a, b)] for two components. *)
Definition path_join (a b : string) : string :=
  if String.prefix "/" b then b
  else if nonempty a && negb (ends_with "/" a) then (a ++ "/" ++ b)%string
  else (a ++ b)%string.

(** What [upload_file] is given: the name the client sent, and what the
    calls on the file system and the identifier generator do. *)
Record UploadFile := mkUploadFile {
  filename : string;
  (** [os.makedirs(upload_dir, exist_ok=True)] *)
  makedirs : Exc unit;
  (** [uuid.uuid4().hex] *)
  uuid_hex : string;
  (** writing the upload to the path it is stored at, and what the readers
      then find at that path *)
  stored : string -> Exc File
}.

Section UploadFile.

(** What an upload answers. *)
Variable Answer : Type.

(** The statements of [upload_file] that follow
    [result, matched_data, matched = await analyze_file(stored_path)],
    from line 62 to line 97: whatever they do with the three values and
    the store. *)
Variable rest : FileProcessing.Summary * DataFrame string * FileProcessing.Mapping ->
                SaveUploads.Store -> Exc Answer * SaveUploads.Store.

(** Lines 47 to 60 of the [try].  [save_rejected_files] is called
    without its second argument on line 52, which has no default. *)
Definition analysed_upload (svc : FileProcessing.Completion) (file : UploadFile)
  : Exc (FileProcessing.Summary * DataFrame string * FileProcessing.Mapping) :=
  _ ← makedirs file;
  let file_ext := SaveUploads.last_piece (filename file) in
  if negb (mem file_ext ["csv"; "xlsx"; "pdf"; "docx"]) then
    _ ← (Raise TypeError : Exc Z);
    Raise (HTTPException 400)
  else
    let unique_filename := (uuid_hex file ++ "." ++ file_ext)%string in
    let stored_path := path_join "uploaded_files" unique_filename in
    f ← stored file stored_path;
    analysed ← FileAnalyzer.analyze_file svc f;
    await analysed.

(** [upload_file(file, db)]: the handler of the [try] records the upload
    as rejected and raises a 500; an exception of [save_rejected_files]
    itself leaves the handler as it is. *)
Definition upload_file (now : Z) (svc : FileProcessing.Completion) (file : UploadFile)
           (st : SaveUploads.Store) : Exc Answer * SaveUploads.Store :=
  let '(outcome, st1) :=
    match analysed_upload svc file with
    | Ok analysed => rest analysed st
    | Raise e => (Raise e, st)
    end in
  match outcome with
  | Ok answer => (Ok answer, st1)
  | Raise _ =>
      match SaveUploads.save_rejected_files now (filename file) st1 with
      | Ok (_, st2) => (Raise (HTTPException 500), st2)
      | Raise e => (Raise e, st1)
      end
  end.

End UploadFile.

End Endpoints.

(** ** services/file_loader.py *)

Module FileLoader.

(** [s.rfind(c)]: the index of the last [c], or -1. *)
Fixpoint rfind_from (c : ascii) (l : list ascii) (i last : Z) : Z :=
  match l with
  | [] => last
  | x :: l' => rfind_from c l' (i + 1)%Z (if Ascii.eqb x c then i else last)
  end.

Definition rfind (c : ascii) (l : list ascii) : Z := rfind_from c l 0 (-1).

(** [s[i:j]] for [0 <= i]. *)
Definition slice (i j : Z) (l : list ascii) : list ascii :=
  take (Z.to_nat (j - i)) (drop (Z.to_nat i) l).

(** [os.path.splitext(p)] on a POSIX path: the extension starts at the
    last full stop of the last component, unless that component has
    nothing but full stops before it. *)
Definition splitext (p : string) : string * string :=
  let l := chars p in
  let sepIndex := rfind "/"%char l in
  let dotIndex := rfind "."%char l in
  if (sepIndex <? dotIndex)%Z
     && existsb (fun c => negb (Ascii.eqb c "."%char)) (slice (sepIndex + 1) dotIndex l)
  then (text (take (Z.to_nat dotIndex) l), text (drop (Z.to_nat dotIndex) l))
  else (p, "").

(** What lies outside [detect_file_type]: opening and reading the file,
    the guess of [filetype] from its first bytes as (media type,
    extension), and the media type [mimetypes] guesses from the name. *)
Record Probe := mkProbe {
  opened : Exc unit;
  guess : option (string * string);
  guess_type : option string
}.

Definition detect_file_type (file_path : string) (probe : Probe) : Exc (string * string) :=
  reraise_runtime
    (let ext := text (strip_chars (Ascii.eqb "."%char)
                                  (chars (lower (snd (splitext file_path))))) in
     if bool_decide (ext = "csv") then Ok ("text/csv", "csv")
     else
       _ ← opened probe;
       match guess probe with
       | Some (mime, extension) =>
           if bool_decide (extension = "zip") then
             let mime := match guess_type probe with
                         | Some m => if nonempty m then m else "application/zip"
                         | None => "application/zip"
                         end in
             Ok (mime, ext)
           else Ok (mime, extension)
       | None => Ok ("Unknown", "Unknown")
       end).

(** The four document loaders, each succeeding or raising; the documents
    they return are not used by any caller. *)
Record Loaders := mkLoaders {
  csv_loader : Exc unit;
  excel_loader : Exc unit;
  pdf_loader : Exc unit;
  word_loader : Exc unit
}.

Definition load_file (file_path : string) (loaders : Loaders) : Exc (unit * string) :=
  let ext := lower (snd (splitext file_path)) in
  reraise_runtime
    (if bool_decide (ext = ".csv") then docs ← csv_loader loaders; Ok (docs, "tabular")
     else if bool_decide (ext = ".xlsx") then docs ← excel_loader loaders; Ok (docs, "tabular")
     else if bool_decide (ext = ".pdf") then docs ← pdf_loader loaders; Ok (docs, "document")
     else if bool_decide (ext = ".docx") then docs ← word_loader loaders; Ok (docs, "document")
     else Raise ValueError).

End FileLoader.

(** * Vocabulary of the properties *)

Definition summary_of (r : FileProcessing.Returned) : FileProcessing.Summary :=
  match r with
  | FileProcessing.Triple result _ _ => result
  | FileProcessing.Pair result _ => result
  end.

(** The resolved mapping a pass hands back; a two-item return has none. *)
Definition mapping_of (r : FileProcessing.Returned) : FileProcessing.Mapping :=
  match r with
  | FileProcessing.Triple _ _ matched => matched
  | FileProcessing.Pair _ _ => []
  end.

(** The acceptance rule for a file of [n] rows, as a function of the count
    [k] that is compared with the threshold. *)
Definition acceptance_rule (n : Z) (k : nat) (r : FileProcessing.Summary) : Prop :=
  FileProcessing.total_records r = n
  /\ FileProcessing.accepted_records r = (if (6 <=? k)%nat then n else 0)%Z
  /\ FileProcessing.rejected_records r = (n - FileProcessing.accepted_records r)%Z
  /\ FileProcessing.status r
     = (if (0 <? FileProcessing.accepted_records r)%Z then "Accepted" else "Rejected").

(** The number of distinct canonical fields a mapping covers. *)
Definition distinct_fields (m : FileProcessing.Mapping) : nat :=
  length (remove_dups (dict_values m)).

(** The blocks already emitted are not empty, and the open block is not
    empty once a label has been seen. *)
Definition kv_inv (st : FileParser.KvState) : Prop :=
  Forall (fun r => r <> []) (FileParser.players st)
  /\ (FileParser.duplicate_keys st <> ∅ -> FileParser.player_data st <> []).

(** ** The work list of [get_matching_blocks] *)

(** A range of [a] still to be compared, and the number of rounds that
    suffice to be done with a list of such ranges. *)
Definition range_ok (r : nat * nat * nat * nat) : Prop :=
  let '(alo, ahi, _, _) := r in (alo <= ahi)%nat.

Definition range_rounds (r : nat * nat * nat * nat) : nat :=
  let '(alo, ahi, _, _) := r in (2 * (ahi - alo) + 1)%nat.

Definition queue_rounds (queue : list (nat * nat * nat * nat)) : nat :=
  list_sum (map range_rounds queue).

(** A block that lies within the range [alo, ahi) of [a]. *)
Definition block_within (alo ahi : nat) (m : Difflib.Match) : Prop :=
  let '(i, _, k) := m in (alo <= i)%nat /\ (i + k <= ahi)%nat.

(** ** The key-value block extractor as the design states it

    One pass over the lines of the whole document, with the open record
    and the labels seen in it. *)

Record BlockState := mkBlocks {
  emitted : list Record_;
  open_record : Record_;
  seen : list string
}.

Definition block_line (st : BlockState) (line : string) : BlockState :=
  match split_first colon (chars line) with
  | None => st
  | Some (l, v) =>
      let label := strip (text l) in
      let value := strip (text v) in
      if nonempty label && nonempty value then
        if mem label (seen st)
        then mkBlocks (emitted st ++ [open_record st]) [(label, value)] [label]
        else mkBlocks (emitted st) (dict_set label value (open_record st))
                      (label :: seen st)
      else st
  end.

Definition key_value_blocks (lines : list string) : list Record_ :=
  let st := fold_left block_line lines (mkBlocks [] [] []) in
  match open_record st with
  | [] => emitted st
  | _ :: _ => emitted st ++ [open_record st]
  end.

(** The extractor state and the state of the design agree. *)
Definition blocks_agree (st : FileParser.KvState) (sp : BlockState) : Prop :=
  FileParser.players st = emitted sp
  /\ FileParser.player_data st = open_record sp
  /\ (forall k, k ∈ FileParser.duplicate_keys st <-> k ∈ seen sp).

(** ** Frames and the normaliser *)

(** Every row has one cell per column. *)
Definition well_formed {L} (df : DataFrame L) : bool :=
  forallb (fun row => (length row =? length (columns df))%nat) (data df).

(** What [fillna("")] leaves in a cell. *)
Definition fill (v : PyVal) : PyVal := if isna v then PStr "" else v.

(** The label a column has after [rename(columns=d)]. *)
Definition renamed {L} `{EqDecision L} (d : list (L * L)) (l : L) : L :=
  default l (dict_get l d).

(** The canonical fields that receive a placeholder column, given the
    columns already there. *)
Fixpoint added_fields {L} `{EqDecision L} (label : string -> L)
         (fields : list string) (cols : list L) : list string :=
  match fields with
  | [] => []
  | c :: fields' =>
      if mem (label c) cols then added_fields label fields' cols
      else c :: added_fields label fields' (cols ++ [label c])
  end.



(** A record of the normaliser, against the row it comes from:
    [cols] and [row] are the projected columns before renaming and their
    cells, [rho] is the renaming. *)
Definition canonical_record {L} `{EqDecision L} (label : string -> L) (rho : L -> L)
           (cols : list L) (row : list PyVal) (rec : list (L * PyVal)) : Prop :=
  dict_keys rec = map label FileParser.schema_fields
  /\ forall c, c ∈ FileParser.schema_fields ->
       (label c ∉ map rho cols -> dict_get (label c) rec = Some placeholder)
       /\ (label c ∈ map rho cols ->
           exists h v, (h, v) ∈ combine cols row
                       /\ rho h = label c
                       /\ dict_get (label c) rec = Some (fill v)).


(** ** Numeric cells *)

(** A value that parses as a number: a number already, or text that
    [float()] accepts. *)
Definition numeric (v : PyVal) : bool :=
  match v with
  | PInt _ | PBool _ | PFloat _ => true
  | PStr s => float_literal s
  | PNone | PObj => false
  end.

(** The fields stored as integers. *)
Definition int_fields : list string :=
  ["Matches"; "Innings"; "Total Runs"; "Centuries"; "Half Centuries"; "Wickets"; "Fifers"].

(** The cell of a canonical record. *)
Definition cell (c : string) (row : list (Label * PyVal)) : PyVal :=
  default PNone (dict_get (LStr c) row).

(** The numbers that do not fit: an infinite float has no integer value,
    an integer beyond the range of a double has no float value. *)
Definition int_overflows (v : PyVal) : bool :=
  match v with
  | PFloat (FInf _) => true
  | _ => false
  end.

Definition float_overflows (v : PyVal) : bool :=
  match v with
  | PInt z => negb (Z.abs z <? 2 ^ 1024 - 2 ^ 970)%Z
  | _ => false
  end.



(** ** Corrections *)

(** The row loop of a correction over the frame read from the file: the
    store with the new statistics rows, the row count, and the target
    fields found without a value. *)
Definition rows_stored (request : SaveData.ColumnMappingRequest) (df : DataFrame Label)
           (db : SaveData.Db) : Exc (SaveData.Db * Z * list string) :=
  records ← SaveData.canonical_records (SaveData.user_mapping request) df;
  SaveData.insert_rows (SaveData.file_id request)
                       (dict_values (SaveData.user_mapping request)) records db.

(** The headers of the file that the user's mapping maps. *)
Definition mapped_headers (request : SaveData.ColumnMappingRequest) (df : DataFrame Label)
  : list Label :=
  dict_keys (snd (SaveData.select_mapped (SaveData.user_mapping request) (columns df))).

(** The header a key of the user's mapping designates: the column whose
    label is the integer the key spells, else the column whose label is
    the key itself. *)
Definition header_of (header : list Label) (key : string) : option Label :=
  match SaveData.convert_string_to_int key with
  | Some z =>
      if mem (LInt z) header then Some (LInt z)
      else if mem (LStr key) header then Some (LStr key) else None
  | None => if mem (LStr key) header then Some (LStr key) else None
  end.

(** The list the log was loaded with, as the appends of line 269 leave
    it: the unmatched headers it had, followed by the headers of the file
    that are not among [keys]. *)
Definition extended (prior header keys : list Label) : list Label :=
  prior ++ List.filter (fun col => negb (mem col keys)) header.

(** The unmatched list the commit leaves in the store: the list it had
    when the list assigned equals the extended one, and the list assigned
    otherwise. *)
Definition merged_unmatched (seed : HashSeed) (prior header keys : list Label)
  : list Label :=
  if bool_decide (list_of_set seed (extended prior header keys) = extended prior header keys)
  then prior
  else list_of_set seed (extended prior header keys).

(** The unmatched headers a log lists; a log created for a rejected upload
    lists none. *)
Definition unmatched_of (log : SaveData.FileProcessingLog) : list Label :=
  default [] (SaveData.log_unmatched_columns log).

(** The store after a correction request: the committed store, or the
    store as it was when the request fails and the session is rolled
    back. *)
Definition db_after (seed : HashSeed) (request : SaveData.ColumnMappingRequest) (f : File)
           (db : SaveData.Db) : SaveData.Db :=
  match SaveData.save_submit_columns_data seed request f db with
  | Ok db' => db'
  | Raise _ => db
  end.

(** ** Sample files *)

Definition not_this_kind {A} : Exc A := Raise ValueError.

Definition csv_file (path : string) (df : DataFrame string) : File :=
  mkFile path (Ok ("text/csv", "csv")) (Ok df) not_this_kind not_this_kind
         not_this_kind not_this_kind (Ok ()).

Definition docx_file (path : string) (paragraphs : list string) : File :=
  mkFile path
         (Ok ("application/vnd.openxmlformats-officedocument.wordprocessingml.document",
              "docx"))
         not_this_kind not_this_kind not_this_kind (Ok paragraphs) not_this_kind (Ok ()).

Definition pdf_file (path : string) (pages : list string) : File :=
  mkFile path (Ok ("application/pdf", "pdf"))
         not_this_kind not_this_kind not_this_kind not_this_kind (Ok pages) (Ok ()).

(** Two lines of text on one page. *)
Definition two_lines (a b : string) : string := a ++ String newline b.

(** The four lines of the design's example, two per page. *)
Definition two_page_pdf : File :=
  pdf_file "uploaded_files/players.pdf"
           [two_lines "Name: A" "Runs: 1"; two_lines "Name: B" "Runs: 2"].

(** A document without a single separator. *)
Definition plain_docx : File :=
  docx_file "uploaded_files/notes.docx" ["Team sheet"; "No statistics were recorded"].

(** Six headers, two of them aliases of the same canonical field. *)
Definition six_headers_csv : File :=
  csv_file "uploaded_files/six.csv"
           (mkFrame ["runs"; "total_runs"; "mat"; "inns"; "hs"; "avg"]
                    [[PInt 8676; PInt 8676; PInt 111; PInt 187; PStr "254*"; PStr "49.3"]]).

(** Two headers, one of which no alias resembles. *)
Definition batting_csv : File :=
  csv_file "uploaded_files/batting.csv"
           (mkFrame ["batsman"; "runs"] [[PStr "V Kohli"; PInt 8676]]).

Definition quoted (s : string) : string :=
  String (ascii_of_nat 34) s ++ String (ascii_of_nat 34) "".

(** A reply that follows the structured contract for [batting_csv]. *)
Definition conforming_reply : string :=
  "{" ++ quoted "matched_columns" ++ ": {"
      ++ quoted "batsman" ++ ": " ++ quoted "Player Name" ++ ", "
      ++ quoted "runs" ++ ": " ++ quoted "Total Runs" ++ "}, "
      ++ quoted "unmatched_columns" ++ ": [], "
      ++ quoted "summary" ++ ": " ++ quoted "Mapped from names and values." ++ "}".

(** The [matched_columns] object of [conforming_reply]. *)
Definition conforming_matched : FileProcessing.Mapping :=
  [("batsman", "Player Name"); ("runs", "Total Runs")].

(** A table with a mapped column whose cell is missing and a column the
    mapping leaves out. *)
Definition squad_frame : DataFrame string :=
  mkFrame ["p_name"; "runs"; "shirt"]
          [[PStr "A Sharma"; PFloat FNaN; PInt 7]; [PStr "B Rao"; PInt 412; PInt 9]].

Definition squad_mapping : FileProcessing.Mapping :=
  [("p_name", "Player Name"); ("runs", "Total Runs")].

(** A correction for a file whose log lists "shirt" and "runs" as
    unmatched: the user maps "runs". *)
Definition runs_csv : File :=
  csv_file "uploaded_files/runs.csv"
           (mkFrame ["runs"; "shirt"] [[PInt 412; PInt 9]; [PStr "-"; PInt 7]]).

Definition runs_request : SaveData.ColumnMappingRequest :=
  SaveData.mkRequest 1 [("runs", "Total Runs")] "uploaded_files/runs.csv" "csv".

Definition runs_log : SaveData.FileProcessingLog :=
  SaveData.mkLog 1 (Some []) (Some [LStr "runs"; LStr "shirt"]) (Some [])
                 (Some 2%Z) (Some "Rejected").

(** The upload the log belongs to. *)
Definition runs_upload : FileModel.FileUpload :=
  FileModel.mkUpload 1 "runs.csv" "csv" 0.

Definition runs_db : SaveData.Db :=
  SaveData.mkDb [runs_upload] {[ 1%Z := runs_log ]} [] [] [].

(** The same file with a log that lists no unmatched header. *)
Definition clean_db : SaveData.Db :=
  SaveData.mkDb [runs_upload]
                {[ 1%Z := SaveData.mkLog 1 (Some []) (Some []) (Some [])
                                         (Some 2%Z) (Some "Rejected") ]} [] [] [].

(** The upload alone, without a log. *)
Definition upload_db : SaveData.Db :=
  SaveData.mkDb [runs_upload] ∅ [] [] [].

(** The log entry of file 1 after a correction, if the correction goes
    through. *)
Definition log_after (seed : HashSeed) (request : SaveData.ColumnMappingRequest) (f : File)
           (db : SaveData.Db) : Exc (option SaveData.FileProcessingLog) :=
  db' ← SaveData.save_submit_columns_data seed request f db;
  Ok (SaveData.file_processing_log db' !! SaveData.file_id request).

(** A table whose "mat" cell does not parse and whose "inns" cell is an
    infinite float, as [pd.read_csv] gives for the text "inf". *)
Definition inf_csv : File :=
  csv_file "uploaded_files/inf.csv"
           (mkFrame ["mat"; "inns"] [[PStr "-"; PFloat (FInf false)]]).

Definition inf_request : SaveData.ColumnMappingRequest :=
  SaveData.mkRequest 1 [("mat", "Matches"); ("inns", "Innings")]
                     "uploaded_files/inf.csv" "csv".

(** Three headers and three rows: the end-to-end scenario of the design. *)
Definition three_headers_csv : File :=
  csv_file "uploaded_files/three.csv"
           (mkFrame ["p_name"; "runs"; "mat"]
                    [[PStr "A"; PInt 10; PInt 1]; [PStr "B"; PInt 20; PInt 2];
                     [PStr "C"; PInt 30; PInt 3]]).

(** ** Key-value documents *)

(** A label or a value as the extractor keeps it: not empty, with nothing
    left to strip. *)
Definition trimmed (s : string) : bool :=
  nonempty s && bool_decide (strip s = s).

(** A label has no separator in it. *)
Definition label_ok (k : string) : bool :=
  trimmed k && negb (contains_char colon k).

Definition pair_ok (kv : string * string) : bool :=
  label_ok (fst kv) && trimmed (snd kv).

(** A block as the extractor emits it: at least one pair, no label twice. *)
Definition record_ok (r : Record_) : bool :=
  negb (is_nil r) && bool_decide (NoDup (dict_keys r)) && forallb pair_ok r.

(** The paragraph that carries one pair. *)
Definition render_pair (kv : string * string) : string :=
  fst kv ++ ": " ++ snd kv.

(** The paragraphs of a document that lists the blocks one after the
    other. *)
Definition render_records (rs : list Record_) : list string :=
  concat (map (map render_pair) rs).

(** Every block after the first opens with a label of the block before
    it, which is what tells the two apart. *)
Fixpoint separable (rs : list Record_) : bool :=
  match rs with
  | r1 :: rest =>
      match rest with
      | ((k, _) :: _) :: _ => mem k (dict_keys r1) && separable rest
      | [] :: _ => false
      | [] => true
      end
  | [] => true
  end.

(** What holds of the extractor's state between two lines: the emitted
    blocks are well formed, the open block has no label twice and only
    well-formed pairs, and it is not empty once a label has been seen. *)
Definition kv_wf (st : FileParser.KvState) : Prop :=
  forallb record_ok (FileParser.players st) = true
  /\ NoDup (dict_keys (FileParser.player_data st))
  /\ forallb pair_ok (FileParser.player_data st) = true
  /\ (FileParser.duplicate_keys st <> ∅ -> FileParser.player_data st <> []).


(** ** The fuzzy matcher, header by header *)

(** The alias [get_close_matches] returns for a header, if any. *)
Definition close_alias (flat : list (string * string)) (cutoff : Difflib.Ratio)
           (h : string) : option string :=
  head (Difflib.get_close_matches (lower h) (dict_keys flat) cutoff).

(** The field the loop body of [fuzzy_match_columns] assigns to a header. *)
Definition fuzzy_target (flat : list (string * string)) (cutoff : Difflib.Ratio)
           (h : string) : option string :=
  match close_alias flat cutoff h with
  | Some a => dict_get a flat
  | None => None
  end.

Definition has_target (flat : list (string * string)) (cutoff : Difflib.Ratio)
           (h : string) : bool :=
  match fuzzy_target flat cutoff h with
  | Some _ => true
  | None => false
  end.

(** A header is in exactly one of the two results of a matcher. *)
Definition sorted_out (h : string) (matched : FileProcessing.Mapping)
           (unmatched : list string) : Prop :=
  (h ∈ dict_keys matched /\ ~ h ∈ unmatched) \/ (~ h ∈ dict_keys matched /\ h ∈ unmatched).

(** The similarity of an alias and a header is at least the cutoff 0.7. *)
Definition similar (alias h : string) : bool :=
  Difflib.ratio_ge (Difflib.ratio (chars alias) (chars (lower h))) (7, 10)%nat.


(** ** Frames built from blocks *)

(** The cell a block gives to a column: its value for the label, or [NaN]
    when the block has no such label. *)
Definition cell_of_block (r : Record_) (k : string) : PyVal :=
  match dict_get k r with
  | Some v => PStr v
  | None => PFloat FNaN
  end.

(** The frame lists the blocks: one row per block, one column per label
    that occurs in some block, no label twice, and in every row the cells
    of that row's block. *)
Definition frame_lists (blocks : list Record_) (df : DataFrame string) : Prop :=
  well_formed df = true
  /\ NoDup (columns df)
  /\ (forall k, k ∈ columns df <-> exists r, r ∈ blocks /\ k ∈ dict_keys r)
  /\ Forall2 (fun r row =>
                forall i k, columns df !! i = Some k ->
                            row !! i = Some (cell_of_block r k))
             blocks (data df).

(** ** Names of uploads *)

(** The number of full stops in a name. *)
Definition dots (s : string) : nat := count_occ Ascii.ascii_dec (chars s) "."%char.

(** The identifiers in the store were issued by it: an upload has one of
    the first identifiers of its table, and a statistics row or a log
    refers to an upload that exists. *)
Definition issued (st : SaveUploads.Store) : Prop :=
  let n := Z.of_nat (length (SaveUploads.file_upload st)) in
  Forall (fun u => (FileModel.upload_id u <= n)%Z) (SaveUploads.file_upload st)
  /\ Forall (fun p => (SaveData.player_file_id p <= n)%Z)
            (SaveData.player (SaveUploads.statistics st))
  /\ forall fid log,
      SaveData.file_processing_log (SaveUploads.statistics st) !! fid = Some log ->
      (fid <= n)%Z.

(** The entries of a listing that are about one file. *)
Definition entries_of (fid : Z) (listing : list FetchData.Metadata) : list FetchData.Metadata :=
  List.filter (fun m => (FetchData.meta_file_id m =? fid)%Z) listing.


(** ** Statistics rows *)

(** The three rows [save_submit_columns_data] builds for one row of the
    file, for a player that gets the identifier [pid], before the store
    has seen them. *)
Definition entities_of (fid pid : Z) (mapped_row : list (string * PyVal))
  : Exc (SaveData.Player * SaveData.Batting * SaveData.Bowling) :=
  m ← SaveData.safe_int (SaveData.row_get "Matches" mapped_row);
  i ← SaveData.safe_int (SaveData.row_get "Innings" mapped_row);
  runs ← SaveData.safe_int (SaveData.row_get "Total Runs" mapped_row);
  avg ← SaveData.safe_float (SaveData.row_get "Average" mapped_row);
  hs ← py_str (py_or (SaveData.row_get "Highest Score" mapped_row) (PStr "0"));
  c ← SaveData.safe_int (SaveData.row_get "Centuries" mapped_row);
  hc ← SaveData.safe_int (SaveData.row_get "Half Centuries" mapped_row);
  w ← SaveData.safe_int (SaveData.row_get "Wickets" mapped_row);
  fw ← SaveData.safe_int (SaveData.row_get "Fifers" mapped_row);
  bb ← py_str (py_or (SaveData.row_get "Best Bowling Figures" mapped_row) (PStr "0/0"));
  Ok (SaveData.mkPlayer pid fid
        (default (PStr "Unknown") (dict_get "Player Name" mapped_row)) m i,
      SaveData.mkBatting pid runs avg hs c hc,
      SaveData.mkBowling pid w fw bb).

(** The store accepts the three rows. *)
Definition rows_ok (db : SaveData.Db)
           (x : SaveData.Player * SaveData.Batting * SaveData.Bowling) : bool :=
  SaveData.player_ok db (fst (fst x))
  && SaveData.batting_ok (snd (fst x)) && SaveData.bowling_ok (snd x).

(** The rows for the records of a file, the first player getting [pid]. *)
Fixpoint entities_from (fid : Z) (targets : list string)
         (records : list (list (Label * PyVal))) (pid : Z)
  : Exc (list (SaveData.Player * SaveData.Batting * SaveData.Bowling)) :=
  match records with
  | [] => Ok []
  | row :: records' =>
      x ← entities_of fid pid (fst (SaveData.map_row targets row));
      xs ← entities_from fid targets records' (pid + 1);
      Ok (x :: xs)
  end.

(** The store with the rows [xs] added. *)
Definition with_entities (db : SaveData.Db)
           (xs : list (SaveData.Player * SaveData.Batting * SaveData.Bowling)) : SaveData.Db :=
  SaveData.mkDb (SaveData.file_upload db) (SaveData.file_processing_log db)
                (SaveData.player db ++ map (fun x => fst (fst x)) xs)
                (SaveData.batting db ++ map (fun x => snd (fst x)) xs)
                (SaveData.bowling db ++ map snd xs).

(** The three rows of one player belong together and to the file. *)
Definition linked (fid : Z) (x : SaveData.Player * SaveData.Batting * SaveData.Bowling)
  : Prop :=
  SaveData.player_file_id (fst (fst x)) = fid
  /\ SaveData.batting_player_id (snd (fst x)) = SaveData.player_id (fst (fst x))
  /\ SaveData.bowling_player_id (snd x) = SaveData.player_id (fst (fst x)).

(** The number of records a correction stores for a frame. *)
Definition stored_count (request : SaveData.ColumnMappingRequest) (df : DataFrame Label)
  : nat :=
  if is_nil (SaveData.user_mapping request) then 0%nat else length (data df).

(** Every batting and bowling row refers to a player identifier that has
    been issued, and no earlier row belongs to the file [fid]. *)
Definition settled (fid : Z) (db : SaveData.Db) : Prop :=
  let n := Z.of_nat (length (SaveData.player db)) in
  Forall (fun b => (SaveData.batting_player_id b <= n)%Z) (SaveData.batting db)
  /\ Forall (fun w => (SaveData.bowling_player_id w <= n)%Z) (SaveData.bowling db)
  /\ Forall (fun p => SaveData.player_file_id p <> fid) (SaveData.player db).

(** What [get_mapped_data] returns for the three rows of one player. *)
Definition stats_of_entities (x : SaveData.Player * SaveData.Batting * SaveData.Bowling)
  : list FetchData.Stat :=
  let '(p, b, w) := x in
  [ FetchData.SText (SaveData.player_name p);
    FetchData.SInt (SaveData.matches p);
    FetchData.SInt (SaveData.innings p);
    FetchData.SInt (SaveData.total_runs b);
    FetchData.SText (SaveData.highest_score b);
    FetchData.SFloat (SaveData.average b);
    FetchData.SInt (SaveData.wickets w);
    FetchData.SInt (SaveData.century b);
    FetchData.SInt (SaveData.half_century b);
    FetchData.SInt (SaveData.five_wickets w);
    FetchData.SText (SaveData.best_bowling w) ].


(** The players of [xs] have the identifiers [pid], [pid + 1], ... and
    their batting and bowling rows refer to them. *)
Fixpoint numbered (pid : Z)
         (xs : list (SaveData.Player * SaveData.Batting * SaveData.Bowling)) : Prop :=
  match xs with
  | [] => True
  | x :: xs' =>
      SaveData.player_id (fst (fst x)) = pid
      /\ SaveData.batting_player_id (snd (fst x)) = pid
      /\ SaveData.bowling_player_id (snd x) = pid
      /\ numbered (pid + 1) xs'
  end.


(** ** When a correction is committed *)

(** The value the row loop reads for a target field. *)
Definition field_of (targets : list string) (row : list (Label * PyVal)) (c : string)
  : PyVal :=
  SaveData.row_get c (fst (SaveData.map_row targets row)).

(** No integer field of the record holds an infinite float, and its
    average is no integer beyond the range of a double. *)
Definition no_overflow (targets : list string) (row : list (Label * PyVal)) : bool :=
  forallb (fun c => negb (int_overflows (field_of targets row c))) int_fields
  && negb (float_overflows (field_of targets row "Average")).

(** ** Stored uploads *)

(** A digit of [uuid4().hex]. *)
Definition is_hex (c : ascii) : bool :=
  let n := nat_of_ascii c in
  ((48 <=? n)%nat && (n <=? 57)%nat) || ((97 <=? n)%nat && (n <=? 102)%nat).

(** The path [upload_file] stores an upload at. *)
Definition stored_path (hex ext : string) : string :=
  Endpoints.path_join "uploaded_files" (hex ++ "." ++ ext)%string.

(** * Properties *)

(** ** Fallible computations *)

Lemma bind_Ok {A B} (c : Exc A) (k : A -> Exc B) (b : B) :
  c ≫= k = Ok b -> exists a, c = Ok a /\ k a = Ok b.
Proof.
  destruct c as [a|e]; simpl; intros Hk.
  - exists a. split; [reflexivity | exact Hk].
  - discriminate Hk.
Qed.

Lemma exc_bind_ok {A B} (a : A) (k : A -> Exc B) : Ok a ≫= k = k a.
Proof. reflexivity. Qed.

Lemma try_except_raise {A} (body handler : Exc A) (e : PyExn) :
  body = Raise e -> try_except body handler = handler.
Proof. intros ->. reflexivity. Qed.

(** ** Dictionaries *)

Section DictFacts.
Context {K V : Type} `{EqDecision K}.
Implicit Types (d : list (K * V)) (k : K) (v : V).

Lemma dict_get_Some_keys k v d : dict_get k d = Some v -> k ∈ dict_keys d.
Proof.
  induction d as [|[k' v'] d IH]; simpl; [discriminate|].
  case_decide as Hk.
  - intros _. subst k'. apply list_elem_of_here.
  - intros Hget. apply list_elem_of_further, IH, Hget.
Qed.

Lemma dict_get_keys k d : k ∈ dict_keys d -> exists v, dict_get k d = Some v.
Proof.
  induction d as [|[k' v'] d IH]; simpl.
  - intros Hin. inversion Hin.
  - intros Hin. case_decide as Hk; [eauto|].
    apply IH. inversion Hin; subst; [congruence | assumption].
Qed.

Lemma dict_get_None_keys k d : dict_get k d = None <-> k ∉ dict_keys d.
Proof.
  split.
  - intros Hnone Hin. apply dict_get_keys in Hin as [v Hv]. congruence.
  - intros Hnot. destruct (dict_get k d) as [v|] eqn:Hget; [|reflexivity].
    exfalso. apply Hnot. eapply dict_get_Some_keys, Hget.
Qed.

Lemma dict_get_In k v d : dict_get k d = Some v -> (k, v) ∈ d.
Proof.
  induction d as [|[k' v'] d IH]; simpl; [discriminate|].
  case_decide as Hk.
  - intros [= ->]. subst. apply list_elem_of_here.
  - intros Hget. apply list_elem_of_further, IH, Hget.
Qed.

Lemma dict_set_keys_fresh k v d :
  k ∉ dict_keys d -> dict_set k v d = d ++ [(k, v)].
Proof.
  induction d as [|[k' v'] d IH]; simpl; [reflexivity|].
  intros Hnot. case_decide as Hk.
  - exfalso. apply Hnot. subst. apply list_elem_of_here.
  - f_equal. apply IH. intros Hin. apply Hnot, list_elem_of_further, Hin.
Qed.

Lemma dict_set_keys k v d x : x ∈ dict_keys (dict_set k v d) <-> x = k \/ x ∈ dict_keys d.
Proof.
  induction d as [|[k' v'] d IH]; simpl.
  - rewrite list_elem_of_singleton. split; [auto|]. intros [?|Hin]; [assumption|inversion Hin].
  - case_decide as Hk; simpl.
    + subst k'. rewrite !elem_of_cons. tauto.
    + rewrite !elem_of_cons, IH. tauto.
Qed.

Lemma dict_set_values k v d x : x ∈ dict_values (dict_set k v d) -> x = v \/ x ∈ dict_values d.
Proof.
  induction d as [|[k' v'] d IH]; simpl.
  - rewrite list_elem_of_singleton. auto.
  - case_decide as Hk; simpl; rewrite !elem_of_cons.
    + intros [?|?]; auto.
    + intros [?|Hin]; [auto|]. apply IH in Hin as [?|?]; auto.
Qed.
End DictFacts.

(** ** The fuzzy matcher always answers *)

Lemma nlargest1_elem (result : list (Difflib.Ratio * string)) p :
  p ∈ Difflib.nlargest1 result -> p ∈ result.
Proof.
  destruct result as [|p0 rest]; simpl; [intros Hin; inversion Hin|].
  rewrite list_elem_of_singleton. intros ->.
  revert p0. induction rest as [|q rest IH]; intros p0; simpl.
  - apply list_elem_of_here.
  - destruct (Difflib.scored_gt q p0).
    + apply list_elem_of_further, IH.
    + specialize (IH p0). rewrite !elem_of_cons in *. tauto.
Qed.

Lemma get_close_matches_elem word possibilities cutoff x :
  x ∈ Difflib.get_close_matches word possibilities cutoff -> x ∈ possibilities.
Proof.
  unfold Difflib.get_close_matches. intros Hin.
  apply list_elem_of_fmap in Hin as [[r y] [-> Hin]].
  apply nlargest1_elem in Hin. apply list_elem_of_In in Hin.
  apply in_flat_map in Hin as [z [Hz Hy]].
  destruct (_ && _); simpl in Hy; [|contradiction].
  destruct Hy as [Hy|[]]. injection Hy as _ <-.
  apply list_elem_of_In, Hz.
Qed.

Lemma fuzzy_step_ok flat cutoff acc col :
  exists acc', FileProcessing.fuzzy_step flat cutoff (Ok acc) col = Ok acc'.
Proof.
  unfold FileProcessing.fuzzy_step. destruct acc as [matched unmatched]. simpl.
  destruct (Difflib.get_close_matches _ _ _) as [|m ms] eqn:Hm; [eauto|].
  assert (m ∈ dict_keys flat) as Hin.
  { eapply get_close_matches_elem. rewrite Hm. apply list_elem_of_here. }
  apply dict_get_keys in Hin as [field Hfield].
  unfold FileProcessing.dict_index. rewrite Hfield. simpl. eauto.
Qed.

Lemma fuzzy_fold_ok flat cutoff headers acc :
  exists r, fold_left (FileProcessing.fuzzy_step flat cutoff) headers (Ok acc) = Ok r.
Proof.
  revert acc. induction headers as [|col headers IH]; intros acc; cbn [fold_left];
    [eauto|].
  destruct (fuzzy_step_ok flat cutoff acc col) as [acc' ->]. apply IH.
Qed.

Lemma fuzzy_match_columns_with_ok flat cutoff headers :
  exists r, FileProcessing.fuzzy_match_columns_with flat cutoff headers = Ok r.
Proof. apply fuzzy_fold_ok. Qed.

Lemma fuzzy_match_columns_ok headers :
  exists matched unmatched,
    FileProcessing.fuzzy_match_columns headers = Ok (matched, unmatched).
Proof.
  destruct (fuzzy_match_columns_with_ok FileProcessing.flat_map (7, 10)%nat headers)
    as [[matched unmatched] Hr].
  exists matched, unmatched. exact Hr.
Qed.

(** ** The generative tier never succeeds *)

Lemma generative_mapping_raises m svc headers :
  exists e, FileProcessing.generative_mapping m svc headers = Raise e.
Proof.
  unfold FileProcessing.generative_mapping.
  destruct m as [name|name]; simpl; [|eauto].
  destruct svc as [e| |body]; simpl; eauto.
Qed.

Lemma resolve_is_fuzzy m svc headers :
  try_except (FileProcessing.generative_mapping m svc headers)
             (FileProcessing.fuzzy_match_columns headers)
  = FileProcessing.fuzzy_match_columns headers.
Proof.
  destruct (generative_mapping_raises m svc headers) as [e He].
  eapply try_except_raise, He.
Qed.

(** ** Frames: selecting columns that exist *)

Lemma forallb_filter {A} (p : A -> bool) (l : list A) :
  forallb p (List.filter p l) = true.
Proof.
  induction l as [|x l IH]; simpl; [reflexivity|].
  destruct (p x) eqn:Hp; simpl; [rewrite Hp|]; exact IH.
Qed.

Lemma frame_select_present {L} `{EqDecision L} (labels : list L) (df : DataFrame L) :
  forallb (fun l => mem l (columns df)) labels = true ->
  exists out, frame_select labels df = Ok out
              /\ length (data out) = length (data df).
Proof.
  intros Hall. unfold frame_select. rewrite Hall.
  eexists. split; [reflexivity|]. simpl. apply length_map.
Qed.

(** ** The summary of a pass *)

Lemma acceptance_numbers (n : Z) (k : nat) :
  (0 <= n)%Z ->
  let accepted := (if (6 <=? Z.of_nat k)%Z then n else 0)%Z in
  accepted = (if (6 <=? k)%nat then n else 0)%Z
  /\ (if (accepted =? 0)%Z then "Rejected" else "Accepted")
     = (if (0 <? accepted)%Z then "Accepted" else "Rejected").
Proof.
  intros Hn accepted. subst accepted. split.
  - destruct (Nat.leb_spec 6 k) as [H6|H6].
    + rewrite (proj2 (Z.leb_le _ _)) by lia. reflexivity.
    + rewrite (proj2 (Z.leb_gt _ _)) by lia. reflexivity.
  - destruct (6 <=? Z.of_nat k)%Z; [|reflexivity].
    destruct (Z.eqb_spec n 0) as [->|Hne]; [reflexivity|].
    rewrite (proj2 (Z.ltb_lt _ _)) by lia. reflexivity.
Qed.

Lemma summarize_ok path df matched unmatched :
  exists result matched_data,
    FileProcessing.summarize path df matched unmatched
    = Ok (FileProcessing.Triple result matched_data matched)
    /\ acceptance_rule (frame_len df) (length matched) result
    /\ FileProcessing.summary_path result = path
    /\ FileProcessing.matched_columns result = FileProcessing.AsDict matched
    /\ FileProcessing.unmatched_columns result = unmatched.
Proof.
  unfold FileProcessing.summarize.
  set (labels := List.filter _ _).
  assert (exists md, match matched with
                     | [] => Ok empty_frame
                     | _ :: _ => frame_select labels df
                     end = Ok md) as [md Hmd].
  { destruct matched as [|kv matched']; [eauto|].
    destruct (frame_select_present labels df) as [out [Hout _]]; [|eauto].
    apply forallb_filter. }
  rewrite Hmd, exc_bind_ok. eexists _, md. split; [reflexivity|].
  assert (0 <= frame_len df)%Z as Hn by (unfold frame_len; lia).
  destruct (acceptance_numbers (frame_len df) (length matched) Hn) as [Hacc Hst].
  unfold acceptance_rule.
  cbn [FileProcessing.total_records FileProcessing.accepted_records
       FileProcessing.rejected_records FileProcessing.status
       FileProcessing.summary_path FileProcessing.matched_columns
       FileProcessing.unmatched_columns].
  rewrite Hst, Hacc. repeat split; reflexivity.
Qed.

(** ** What a pass over a table or a document returns *)

Lemma process_tabular_pass svc f df :
  FileProcessing.read_table f = Ok df ->
  exists result matched_data matched unmatched,
    FileProcessing.fuzzy_match_columns (columns df) = Ok (matched, unmatched)
    /\ FileProcessing.process_tabular svc f
       = FileProcessing.Triple result matched_data matched
    /\ acceptance_rule (frame_len df) (length matched) result
    /\ FileProcessing.matched_columns result = FileProcessing.AsDict matched
    /\ FileProcessing.unmatched_columns result = unmatched.
Proof.
  intros Hread.
  destruct (fuzzy_match_columns_ok (columns df)) as [matched [unmatched Hfuzzy]].
  destruct (summarize_ok (file_path f) df matched unmatched)
    as [result [md [Hsum [Hrule [_ [Hm Hu]]]]]].
  exists result, md, matched, unmatched.
  split; [exact Hfuzzy|]. split; [|auto].
  unfold FileProcessing.process_tabular.
  rewrite Hread, exc_bind_ok, resolve_is_fuzzy, Hfuzzy, exc_bind_ok, Hsum.
  reflexivity.
Qed.

Lemma process_document_pass svc f :
  nonempty (file_path f) = true ->
  frame_empty (FileProcessing.extract_document f) = false ->
  exists result matched_data matched unmatched,
    FileProcessing.fuzzy_match_columns (columns (FileProcessing.extract_document f))
    = Ok (matched, unmatched)
    /\ FileProcessing.process_document svc f
       = FileProcessing.Triple result matched_data matched
    /\ acceptance_rule (frame_len (FileProcessing.extract_document f))
                       (length matched) result
    /\ FileProcessing.matched_columns result = FileProcessing.AsDict matched
    /\ FileProcessing.unmatched_columns result = unmatched.
Proof.
  intros Hpath Hdf.
  set (df := FileProcessing.extract_document f) in *.
  destruct (fuzzy_match_columns_ok (columns df)) as [matched [unmatched Hfuzzy]].
  destruct (summarize_ok (file_path f) df matched unmatched)
    as [result [md [Hsum [Hrule [_ [Hm Hu]]]]]].
  exists result, md, matched, unmatched.
  split; [exact Hfuzzy|]. split; [|auto].
  unfold FileProcessing.process_document.
  rewrite Hpath, exc_bind_ok. fold df. rewrite Hdf.
  rewrite resolve_is_fuzzy, Hfuzzy, exc_bind_ok, Hsum.
  reflexivity.
Qed.

Lemma process_document_empty svc f :
  nonempty (file_path f) = true ->
  frame_empty (FileProcessing.extract_document f) = true ->
  FileProcessing.process_document svc f
  = FileProcessing.Pair (FileProcessing.rejected_summary (file_path f)) empty_frame.
Proof.
  intros Hpath Hdf. unfold FileProcessing.process_document.
  rewrite Hpath, exc_bind_ok, Hdf. reflexivity.
Qed.

(** ** The extractor never emits an empty block *)

Lemma dict_set_nonempty {K V} `{EqDecision K} (k : K) (v : V) d : dict_set k v d <> [].
Proof. destruct d as [|[k' v'] d]; simpl; [|case_decide]; discriminate. Qed.

Lemma kv_init_inv : kv_inv FileParser.kv_init.
Proof. split; [constructor | intros H; contradiction]. Qed.

Lemma kv_pair_inv st key value : kv_inv st -> kv_inv (FileParser.kv_pair st key value).
Proof.
  intros [Hplayers Hopen]. unfold FileParser.kv_pair.
  destruct (nonempty key && nonempty value) eqn:Hkv; simpl.
  - destruct (bool_decide (key ∈ FileParser.duplicate_keys st)) eqn:Hdup; simpl.
    + apply bool_decide_eq_true_1 in Hdup. split.
      * apply Forall_app. split; [exact Hplayers|].
        constructor; [|constructor]. apply Hopen. set_solver.
      * intros _. discriminate.
    + split; [exact Hplayers|]. intros _. apply dict_set_nonempty.
  - split; assumption.
Qed.

Lemma kv_line_inv st line : kv_inv st -> kv_inv (FileParser.kv_line st line).
Proof.
  intros Hinv. unfold FileParser.kv_line.
  destruct (split_first colon (chars line)) as [[k v]|]; [|exact Hinv].
  apply kv_pair_inv, Hinv.
Qed.

Lemma fold_inv {A} (step : FileParser.KvState -> A -> FileParser.KvState) (l : list A) st :
  (forall s x, kv_inv s -> kv_inv (step s x)) ->
  kv_inv st -> kv_inv (fold_left step l st).
Proof.
  intros Hstep. revert st. induction l as [|x l IH]; intros st Hinv; simpl; [exact Hinv|].
  apply IH, Hstep, Hinv.
Qed.

Lemma docx_paragraph_inv st para :
  kv_inv st -> kv_inv (FileParser.docx_paragraph st para).
Proof.
  intros Hinv. unfold FileParser.docx_paragraph.
  destruct (nonempty (strip para)); [apply kv_line_inv|]; exact Hinv.
Qed.

Lemma pdf_page_inv st page : kv_inv st -> kv_inv (FileParser.pdf_page st page).
Proof.
  intros [Hplayers _]. unfold FileParser.pdf_page.
  apply fold_inv; [apply kv_line_inv|].
  split; [exact Hplayers | intros H; contradiction].
Qed.

Lemma kv_finish_nonempty st :
  kv_inv st -> Forall (fun r => r <> []) (FileParser.kv_finish st).
Proof.
  intros [Hplayers _]. unfold FileParser.kv_finish.
  destruct (FileParser.player_data st) as [|kv d] eqn:Hd; [exact Hplayers|].
  apply Forall_app. split; [exact Hplayers|].
  constructor; [discriminate | constructor].
Qed.

Lemma docx_blocks_nonempty paragraphs :
  Forall (fun r => r <> []) (FileParser.docx_blocks paragraphs).
Proof.
  apply kv_finish_nonempty, fold_inv; [apply docx_paragraph_inv | apply kv_init_inv].
Qed.

Lemma pdf_blocks_nonempty pages :
  Forall (fun r => r <> []) (FileParser.pdf_blocks pages).
Proof.
  apply kv_finish_nonempty, fold_inv; [apply pdf_page_inv | apply kv_init_inv].
Qed.

(** ** An empty frame of records has no rows *)

Lemma first_seen_nonempty (keys acc : list string) :
  acc <> [] -> first_seen keys acc <> [].
Proof.
  unfold first_seen.
  revert acc. induction keys as [|k keys IH]; intros acc Hacc; simpl; [exact Hacc|].
  apply IH. destruct (mem k acc); [exact Hacc|].
  destruct acc; discriminate.
Qed.

Lemma add_records_nonempty (rs : list Record_) (acc : list string) :
  acc <> [] ->
  fold_left (fun acc r => first_seen (dict_keys r) acc) rs acc <> [].
Proof.
  revert acc. induction rs as [|r rs IH]; intros acc Hacc; simpl; [exact Hacc|].
  apply IH, first_seen_nonempty, Hacc.
Qed.

Lemma frame_of_records_empty_len (rs : list Record_) :
  Forall (fun r => r <> []) rs ->
  frame_empty (frame_of_records rs) = true ->
  frame_len (frame_of_records rs) = 0%Z.
Proof.
  intros Hall Hempty. destruct rs as [|r rs]; [reflexivity|].
  exfalso. inversion Hall as [|? ? Hr _]; subst.
  unfold frame_empty, frame_of_records in Hempty. cbn [columns data map] in Hempty.
  match type of Hempty with
  | match ?c with _ => _ end = _ => assert (c <> []) as Hc; [|destruct c; congruence]
  end.
  cbn [fold_left]. apply add_records_nonempty.
  destruct r as [|[k v] r]; [congruence|].
  unfold first_seen at 1. cbn [dict_keys map fst fold_left].
  apply first_seen_nonempty.
  unfold mem. rewrite bool_decide_eq_false_2; [discriminate|].
  intros Hin. inversion Hin.
Qed.

Lemma extract_document_empty_len f :
  frame_empty (FileProcessing.extract_document f) = true ->
  frame_len (FileProcessing.extract_document f) = 0%Z.
Proof.
  unfold FileProcessing.extract_document, FileParser.extract_key_value_from_docx,
    FileParser.extract_key_value_from_pdf.
  destruct (ends_with ".docx" (file_path f)).
  - destruct (docx_paragraphs f) as [ps|e]; [|reflexivity].
    apply frame_of_records_empty_len, docx_blocks_nonempty.
  - destruct (pdf_pages f) as [ps|e]; [|reflexivity].
    apply frame_of_records_empty_len, pdf_blocks_nonempty.
Qed.

(** ** Acceptance *)

(** C1, as amended.  For a table that loads with [n] rows, and for a
    document whose extraction gives [n] rows, the summary reports
    [accepted_records = n] when the resolved mapping has at least six
    entries, that is six mapped source headers whether or not their
    canonical fields are distinct, and [0] otherwise; [rejected_records] is
    [n - accepted_records]; the status is "Accepted" when
    [accepted_records > 0] and "Rejected" otherwise. *)
Theorem acceptance_counts_mapped_headers svc f df r :
  (FileProcessing.read_table f = Ok df /\ r = FileProcessing.process_tabular svc f)
  \/ (nonempty (file_path f) = true
      /\ df = FileProcessing.extract_document f
      /\ r = FileProcessing.process_document svc f) ->
  acceptance_rule (frame_len df) (length (mapping_of r)) (summary_of r).
Proof.
  intros [[Hread ->] | [Hpath [-> ->]]].
  - destruct (process_tabular_pass svc f df Hread)
      as [result [md [matched [unmatched [_ [-> [Hrule _]]]]]]].
    exact Hrule.
  - destruct (frame_empty (FileProcessing.extract_document f)) eqn:Hempty.
    + rewrite (process_document_empty svc f Hpath Hempty).
      rewrite (extract_document_empty_len f Hempty).
      repeat split.
    + destruct (process_document_pass svc f Hpath Hempty)
        as [result [md [matched [unmatched [_ [-> [Hrule _]]]]]]].
      exact Hrule.
Qed.

Lemma acceptance_counts_mapped_headers_witness :
  FileProcessing.read_table six_headers_csv
  = Ok (mkFrame ["runs"; "total_runs"; "mat"; "inns"; "hs"; "avg"]
                [[PInt 8676; PInt 8676; PInt 111; PInt 187; PStr "254*"; PStr "49.3"]])
  /\ acceptance_rule
       (frame_len (mkFrame ["runs"; "total_runs"; "mat"; "inns"; "hs"; "avg"]
                           [[PInt 8676; PInt 8676; PInt 111; PInt 187; PStr "254*";
                             PStr "49.3"]]))
       (length (mapping_of (FileProcessing.process_tabular FileProcessing.EmptyResponse six_headers_csv)))
       (summary_of (FileProcessing.process_tabular FileProcessing.EmptyResponse six_headers_csv)).
Proof.
  split; [reflexivity|].
  apply (acceptance_counts_mapped_headers FileProcessing.EmptyResponse six_headers_csv).
  left. split; reflexivity.
Defined.

(** C1 as stated fails: six headers resolved onto five distinct canonical
    fields are accepted, where the count of distinct fields would reject
    them. *)
Lemma six_headers_five_fields_accepted :
  distinct_fields (mapping_of (FileProcessing.process_tabular FileProcessing.EmptyResponse six_headers_csv))
  = 5%nat
  /\ FileProcessing.accepted_records
       (summary_of (FileProcessing.process_tabular FileProcessing.EmptyResponse six_headers_csv)) = 1%Z
  /\ ~ acceptance_rule
         1
         (distinct_fields
            (mapping_of (FileProcessing.process_tabular FileProcessing.EmptyResponse six_headers_csv)))
         (summary_of (FileProcessing.process_tabular FileProcessing.EmptyResponse six_headers_csv)).
Proof.
  split; [vm_compute; reflexivity|].
  split; [vm_compute; reflexivity|].
  intros [_ [Hacc _]]. vm_compute in Hacc. discriminate Hacc.
Qed.

(** ** The tiers *)

(** C3, at the failing input.  The service answers [batting_csv] with a
    reply that follows the contract and maps both headers.  Reading
    [response.text["matched_columns"]] raises whichever object [model] is
    bound to, so the pass resolves with the fuzzy matcher: only "runs" is
    mapped and "batsman" is reported unmatched. *)
Theorem conforming_reply_is_discarded :
  FileProcessing.generative_mapping (FileProcessing.GenerativeModel "gemini-2.0-flash-exp")
    (FileProcessing.Reply conforming_reply) ["batsman"; "runs"] = Raise TypeError
  /\ FileProcessing.generative_mapping FileProcessing.model
       (FileProcessing.Reply conforming_reply) ["batsman"; "runs"] = Raise AttributeError
  /\ FileProcessing.fuzzy_match_columns ["batsman"; "runs"]
     = Ok ([("runs", "Total Runs")], ["batsman"])
  /\ mapping_of (FileProcessing.process_tabular (FileProcessing.Reply conforming_reply)
                                                batting_csv)
     = [("runs", "Total Runs")]
  /\ FileProcessing.unmatched_columns
       (summary_of (FileProcessing.process_tabular (FileProcessing.Reply conforming_reply)
                                                   batting_csv))
     = ["batsman"]
  /\ mapping_of (FileProcessing.process_tabular (FileProcessing.Reply conforming_reply)
                                                batting_csv)
     <> conforming_matched.
Proof.
  repeat split; try (vm_compute; reflexivity).
  vm_compute. discriminate.
Qed.

(** C4.  When the generative tier raises, whatever the exception, the pass
    returns normally with three values, and the mapping and the unmatched
    list of its summary are those of the fuzzy matcher on the headers. *)
Theorem generative_failure_falls_back svc f df r e :
  (FileProcessing.read_table f = Ok df /\ r = FileProcessing.process_tabular svc f)
  \/ (nonempty (file_path f) = true
      /\ df = FileProcessing.extract_document f
      /\ frame_empty df = false
      /\ r = FileProcessing.process_document svc f) ->
  FileProcessing.generative_mapping FileProcessing.model svc (columns df) = Raise e ->
  exists result matched_data matched unmatched,
    FileProcessing.fuzzy_match_columns (columns df) = Ok (matched, unmatched)
    /\ r = FileProcessing.Triple result matched_data matched
    /\ FileProcessing.matched_columns result = FileProcessing.AsDict matched
    /\ FileProcessing.unmatched_columns result = unmatched.
Proof.
  intros [[Hread ->] | [Hpath [-> [Hfull ->]]]] _.
  - destruct (process_tabular_pass svc f df Hread)
      as [result [md [matched [unmatched [Hfuzzy [Hr [_ [Hm Hu]]]]]]]].
    exists result, md, matched, unmatched. auto.
  - destruct (process_document_pass svc f Hpath Hfull)
      as [result [md [matched [unmatched [Hfuzzy [Hr [_ [Hm Hu]]]]]]]].
    exists result, md, matched, unmatched. auto.
Qed.

(** ** The key-value block extractor *)

(** C2, at the failing input.  The four lines of the design's example give
    two records when they are the paragraphs of a DOCX document, as the
    design states.  Laid out two per page in a PDF they give one record:
    the set of seen labels is emptied at the top of the second page while
    the open record is kept, so "Name: B" overwrites "Name: A". *)
Theorem pdf_page_break_merges_blocks :
  key_value_blocks ["Name: A"; "Runs: 1"; "Name: B"; "Runs: 2"]
  = [[("Name", "A"); ("Runs", "1")]; [("Name", "B"); ("Runs", "2")]]
  /\ FileParser.docx_blocks ["Name: A"; "Runs: 1"; "Name: B"; "Runs: 2"]
     = [[("Name", "A"); ("Runs", "1")]; [("Name", "B"); ("Runs", "2")]]
  /\ concat (map split_lines [two_lines "Name: A" "Runs: 1"; two_lines "Name: B" "Runs: 2"])
     = ["Name: A"; "Runs: 1"; "Name: B"; "Runs: 2"]
  /\ FileParser.pdf_blocks [two_lines "Name: A" "Runs: 1"; two_lines "Name: B" "Runs: 2"]
     = [[("Name", "B"); ("Runs", "2")]]
  /\ FileParser.extract_key_value_from_pdf two_page_pdf
     = mkFrame ["Name"; "Runs"] [[PStr "B"; PStr "2"]].
Proof. repeat split; vm_compute; reflexivity. Qed.

(** ** Documents without a separator *)

(** C8, at the failing input.  A DOCX document with no ':' in any
    paragraph gives the empty frame, and [process_document] returns the
    zero summary with status "Rejected" as a return of two values.
    [analyze_file] unpacks three, so the caller gets a [RuntimeError]
    instead of the summary. *)
Theorem separator_free_document_raises svc :
  FileParser.extract_key_value_from_docx plain_docx = empty_frame
  /\ FileProcessing.process_document svc plain_docx
     = FileProcessing.Pair
         (FileProcessing.mkSummary "uploaded_files/notes.docx" 0 0 0
                                   (FileProcessing.AsList []) [] "Rejected")
         empty_frame
  /\ FileAnalyzer.analyze_file svc plain_docx
     = Raise (RuntimeError (RuntimeError ValueError)).
Proof. repeat split; vm_compute; reflexivity. Qed.

(** ** Rows as lists of (label, cell) pairs *)

Section Pairs.
Context {A B : Type}.

Lemma combine_app_same (l1 l2 : list A) (k1 k2 : list B) :
  length l1 = length k1 ->
  combine (l1 ++ l2) (k1 ++ k2) = combine l1 k1 ++ combine l2 k2.
Proof.
  revert k1. induction l1 as [|x l1 IH]; intros [|y k1] Hlen; simpl in *;
    try discriminate; [reflexivity|].
  f_equal. apply IH. lia.
Qed.

Lemma map_fst_combine (l : list A) (k : list B) :
  length l = length k -> map fst (combine l k) = l.
Proof.
  revert k. induction l as [|x l IH]; intros [|y k] Hlen; simpl in *;
    try discriminate; [reflexivity|].
  f_equal. apply IH. lia.
Qed.

Lemma combine_map_l {A'} (f : A -> A') (l : list A) (k : list B) :
  combine (map f l) k = map (fun p => (f (fst p), snd p)) (combine l k).
Proof.
  revert k. induction l as [|x l IH]; intros [|y k]; simpl; try reflexivity.
  f_equal. apply IH.
Qed.

Lemma combine_map_r {B'} (g : B -> B') (l : list A) (k : list B) :
  combine l (map g k) = map (fun p => (fst p, g (snd p))) (combine l k).
Proof.
  revert k. induction l as [|x l IH]; intros [|y k]; simpl; try reflexivity.
  f_equal. apply IH.
Qed.

Lemma combine_nth (cols : list A) (row : list B) (p : nat) (l : A) (d : B) :
  length row = length cols ->
  nth_error cols p = Some l ->
  (l, nth p row d) ∈ combine cols row.
Proof.
  revert row p. induction cols as [|c cols IH]; intros [|x row] [|p] Hlen Hnth;
    simpl in *; try discriminate.
  - injection Hnth as ->. apply list_elem_of_here.
  - apply list_elem_of_further, IH; [lia | exact Hnth].
Qed.

Lemma elem_of_combine_fst (cols : list A) (row : list B) (x : A * B) :
  x ∈ combine cols row -> fst x ∈ cols.
Proof.
  intros Hin. destruct x as [a b]. apply list_elem_of_In in Hin.
  apply in_combine_l in Hin. apply list_elem_of_In, Hin.
Qed.
End Pairs.

Section Selecting.
Context {L : Type} `{EqDecision L}.
Implicit Types (cols labels : list L) (row : list PyVal).

Lemma positions_from_nth (l : L) cols i p :
  p ∈ positions_from l cols i ->
  exists q, p = (i + q)%nat /\ nth_error cols q = Some l.
Proof.
  revert i. induction cols as [|c cols IH]; intros i; simpl.
  - intros Hin. inversion Hin.
  - case_decide as Hc.
    + rewrite elem_of_cons. intros [-> | Hin].
      * exists 0%nat. subst c. split; [lia | reflexivity].
      * apply IH in Hin as [q [-> Hq]]. exists (S q). split; [lia | exact Hq].
    + intros Hin. apply IH in Hin as [q [-> Hq]]. exists (S q). split; [lia | exact Hq].
Qed.

Lemma positions_from_present (l : L) cols i :
  l ∈ cols -> positions_from l cols i <> [].
Proof.
  revert i. induction cols as [|c cols IH]; intros i Hin; simpl.
  - inversion Hin.
  - case_decide as Hc; [discriminate|].
    apply IH. inversion Hin; subst; [congruence | assumption].
Qed.

Lemma selected_length labels cols row :
  length (take_cells (selected_positions labels cols) row)
  = length (selected_columns labels cols).
Proof.
  unfold take_cells, selected_positions, selected_columns.
  rewrite length_map. induction labels as [|l labels IH]; simpl; [reflexivity|].
  rewrite !length_app, length_map, IH. reflexivity.
Qed.

Lemma selected_pairs labels cols row x :
  length row = length cols ->
  x ∈ combine (selected_columns labels cols)
               (take_cells (selected_positions labels cols) row) ->
  x ∈ combine cols row /\ fst x ∈ labels.
Proof.
  intros Hlen. unfold selected_columns, selected_positions, take_cells.
  induction labels as [|l labels IH]; simpl.
  - intros Hin. inversion Hin.
  - rewrite map_app, combine_app_same by (rewrite !length_map; reflexivity).
    rewrite elem_of_app. intros [Hin | Hin].
    + rewrite combine_map_l, combine_map_r in Hin.
      apply list_elem_of_fmap in Hin as [y [-> Hin]].
      apply list_elem_of_fmap in Hin as [[u p] [-> Hin]]. simpl.
      assert (p ∈ positions_from l cols 0) as Hp.
      { apply list_elem_of_In in Hin. apply in_combine_r in Hin.
        apply list_elem_of_In, Hin. }
      apply positions_from_nth in Hp as [q [-> Hq]]. simpl. split.
      * apply combine_nth; assumption.
      * apply list_elem_of_here.
    + apply IH in Hin as [H1 H2]. split; [exact H1 | apply list_elem_of_further, H2].
Qed.

End Selecting.

(** ** Keys and values of a dictionary built from pairs *)

Section BuildingDicts.
Context {K V : Type} `{EqDecision K}.
Implicit Types (d : list (K * V)) (k : K) (v : V).

Lemma first_seen_app (keys1 keys2 acc : list K) :
  first_seen (keys1 ++ keys2) acc = first_seen keys2 (first_seen keys1 acc).
Proof. unfold first_seen. apply fold_left_app. Qed.

Lemma first_seen_known (k : K) (n : list nat) (acc : list K) :
  k ∈ acc -> first_seen (map (fun _ => k) n) acc = acc.
Proof.
  intros Hin. unfold first_seen.
  induction n as [|x n IH]; simpl; [reflexivity|].
  unfold mem at 2. rewrite bool_decide_eq_true_2 by exact Hin. exact IH.
Qed.

Lemma first_seen_new (k : K) (n : list nat) (acc : list K) :
  n <> [] -> k ∉ acc -> first_seen (map (fun _ => k) n) acc = acc ++ [k].
Proof.
  intros Hn Hnot. destruct n as [|x n]; [congruence|].
  unfold first_seen. simpl. unfold mem at 2.
  rewrite bool_decide_eq_false_2 by exact Hnot.
  apply first_seen_known. apply elem_of_app. right. apply list_elem_of_here.
Qed.

Lemma first_seen_selected (labels cols acc : list K) :
  NoDup labels ->
  (forall l, l ∈ labels -> l ∈ cols /\ l ∉ acc) ->
  first_seen (selected_columns labels cols) acc = acc ++ labels.
Proof.
  unfold selected_columns. revert acc.
  induction labels as [|l labels IH]; intros acc Hnd Hall; simpl.
  - rewrite app_nil_r. reflexivity.
  - inversion Hnd as [|? ? Hl Hnd']; subst.
    destruct (Hall l) as [Hcols Hacc]; [apply list_elem_of_here|].
    rewrite first_seen_app, first_seen_new; [| |exact Hacc].
    + rewrite IH; [rewrite <- app_assoc; reflexivity | exact Hnd' |].
      intros l' Hl'. destruct (Hall l') as [H1 H2]; [apply list_elem_of_further, Hl'|].
      split; [exact H1|]. rewrite elem_of_app, list_elem_of_singleton.
      intros [?| ->]; [contradiction | contradiction].
    + apply positions_from_present, Hcols.
Qed.

Lemma dict_set_keys_eq k v d :
  dict_keys (dict_set k v d)
  = if mem k (dict_keys d) then dict_keys d else dict_keys d ++ [k].
Proof.
  unfold mem. induction d as [|[k' v'] d IH]; cbn [dict_set dict_keys map fst].
  - rewrite bool_decide_eq_false_2; [reflexivity | intros Hin; inversion Hin].
  - destruct (decide (k = k')) as [<-|Hk].
    + rewrite bool_decide_eq_true_2 by apply list_elem_of_here. reflexivity.
    + cbn [dict_keys map fst]. fold (dict_keys (dict_set k v d)). rewrite IH.
      fold (dict_keys d).
      destruct (bool_decide (k ∈ dict_keys d)) eqn:Hb.
      * apply bool_decide_eq_true_1 in Hb.
        rewrite bool_decide_eq_true_2 by (apply list_elem_of_further, Hb). reflexivity.
      * apply bool_decide_eq_false_1 in Hb.
        rewrite bool_decide_eq_false_2; [reflexivity|].
        rewrite elem_of_cons. intros [?|?]; [congruence | contradiction].
Qed.

Lemma dict_get_set k k' v d :
  dict_get k (dict_set k' v d) = if decide (k = k') then Some v else dict_get k d.
Proof.
  induction d as [|[k0 v0] d IH]; simpl.
  - destruct (decide (k = k')); reflexivity.
  - destruct (decide (k' = k0)) as [->|Hne]; simpl.
    + destruct (decide (k = k0)); reflexivity.
    + destruct (decide (k = k0)) as [->|Hne'].
      * rewrite decide_False by congruence. reflexivity.
      * exact IH.
Qed.

Lemma dict_fold_keys (l : list (K * V)) d :
  dict_keys (fold_left (fun d kv => dict_set (fst kv) (snd kv) d) l d)
  = first_seen (map fst l) (dict_keys d).
Proof.
  unfold first_seen. revert d. induction l as [|[k v] l IH]; intros d; simpl;
    [reflexivity|].
  rewrite IH, dict_set_keys_eq. reflexivity.
Qed.

Lemma dict_fold_get (l : list (K * V)) d k v :
  dict_get k (fold_left (fun d kv => dict_set (fst kv) (snd kv) d) l d) = Some v ->
  (k, v) ∈ l \/ dict_get k d = Some v.
Proof.
  revert d. induction l as [|[k' v'] l IH]; intros d; simpl; [auto|].
  intros Hget. apply IH in Hget as [Hin | Hget].
  - left. apply list_elem_of_further, Hin.
  - rewrite dict_get_set in Hget. destruct (decide (k = k')) as [->|Hne].
    + injection Hget as ->. left. apply list_elem_of_here.
    + right. exact Hget.
Qed.

Lemma dict_of_pairs_keys (l : list (K * V)) :
  dict_keys (dict_of_pairs l) = first_seen (map fst l) [].
Proof. apply dict_fold_keys. Qed.

Lemma dict_of_pairs_get (l : list (K * V)) k v :
  dict_get k (dict_of_pairs l) = Some v -> (k, v) ∈ l.
Proof.
  intros Hget. apply dict_fold_get in Hget as [Hin | Hget]; [exact Hin | discriminate].
Qed.
End BuildingDicts.

(** ** The normaliser, row by row *)

Lemma schema_fields_NoDup : NoDup FileParser.schema_fields.
Proof. apply (bool_decide_unpack _). vm_compute. exact I. Qed.

Lemma well_formed_rows {L} (df : DataFrame L) row :
  well_formed df = true -> row ∈ data df -> length row = length (columns df).
Proof.
  unfold well_formed. intros Hwf Hin.
  rewrite forallb_forall in Hwf. apply Nat.eqb_eq, Hwf, list_elem_of_In, Hin.
Qed.

Lemma fill_placeholder : fill placeholder = placeholder.
Proof. reflexivity. Qed.

Section Normalizing.
Context {L : Type} `{EqDecision L}.
Variable label : string -> L.
Hypothesis label_inj : forall a b, label a = label b -> a = b.

Lemma added_fields_sound fields cols c :
  c ∈ added_fields label fields cols -> c ∈ fields /\ label c ∉ cols.
Proof.
  revert cols. induction fields as [|f fields IH]; intros cols; simpl.
  - intros Hin. inversion Hin.
  - unfold mem. destruct (bool_decide (label f ∈ cols)) eqn:Hf.
    + intros Hin. apply IH in Hin as [H1 H2]. split; [apply list_elem_of_further, H1 | exact H2].
    + apply bool_decide_eq_false_1 in Hf. rewrite elem_of_cons. intros [-> | Hin].
      * split; [apply list_elem_of_here | exact Hf].
      * apply IH in Hin as [H1 H2]. split; [apply list_elem_of_further, H1|].
        intros Hc. apply H2, elem_of_app. left. exact Hc.
Qed.

Lemma added_fields_complete fields cols c :
  c ∈ fields -> label c ∈ cols ++ map label (added_fields label fields cols).
Proof.
  revert cols. induction fields as [|f fields IH]; intros cols Hin; simpl.
  - inversion Hin.
  - unfold mem. destruct (bool_decide (label f ∈ cols)) eqn:Hf.
    + apply bool_decide_eq_true_1 in Hf.
      apply elem_of_cons in Hin as [-> | Hin]; [|apply IH, Hin].
      apply elem_of_app. left. exact Hf.
    + simpl. apply elem_of_cons in Hin as [-> | Hin].
      * apply elem_of_app. right. apply list_elem_of_here.
      * specialize (IH (cols ++ [label f]) Hin).
        rewrite <- app_assoc in IH. exact IH.
Qed.

Lemma add_placeholders_frame fields (df : DataFrame L) :
  add_placeholders label fields df
  = mkFrame (columns df ++ map label (added_fields label fields (columns df)))
            (map (fun row => row ++ map (fun _ => placeholder)
                                        (added_fields label fields (columns df)))
                 (data df)).
Proof.
  unfold add_placeholders. revert df.
  induction fields as [|f fields IH]; intros [cols rows]; simpl.
  - rewrite app_nil_r. f_equal. rewrite <- (map_id rows) at 1.
    apply map_ext. intros row. rewrite app_nil_r. reflexivity.
  - destruct (mem (label f) cols).
    + apply IH.
    + rewrite IH. unfold frame_add_column. simpl. f_equal.
      * rewrite <- app_assoc. reflexivity.
      * rewrite map_map. apply map_ext. intros row. rewrite <- app_assoc. reflexivity.
Qed.

Lemma normalize_rows renames (md : DataFrame L) :
  let cols0 := map (renamed renames) (columns md) in
  let extra := added_fields label FileParser.schema_fields cols0 in
  let wanted := map label FileParser.schema_fields in
  normalize label renames md
  = Ok (map (fun row =>
               dict_of_pairs
                 (combine (selected_columns wanted (cols0 ++ map label extra))
                          (map (fun c => if isna c then PStr "" else c)
                               (take_cells
                                  (selected_positions wanted (cols0 ++ map label extra))
                                  (row ++ map (fun _ => placeholder) extra)))))
            (data md)).
Proof.
  intros cols0 extra wanted. unfold normalize.
  rewrite add_placeholders_frame. unfold frame_rename. cbn [columns data].
  fold (renamed renames). fold cols0. fold extra. fold wanted.
  unfold frame_select. cbn [columns data].
  assert (forallb (fun l => mem l (cols0 ++ map label extra)) wanted = true) as ->.
  { apply forallb_forall. intros l Hl. apply in_map_iff in Hl as [c [<- Hc]].
    apply bool_decide_eq_true_2, added_fields_complete, list_elem_of_In, Hc. }
  rewrite exc_bind_ok. unfold to_dict_records, frame_fillna. cbn [columns data].
  rewrite !map_map. reflexivity.
Qed.

Lemma normalize_record renames cols row :
  length row = length cols ->
  let cols0 := map (renamed renames) cols in
  let extra := added_fields label FileParser.schema_fields cols0 in
  let wanted := map label FileParser.schema_fields in
  canonical_record label (renamed renames) cols row
    (dict_of_pairs
       (combine (selected_columns wanted (cols0 ++ map label extra))
                (map (fun c => if isna c then PStr "" else c)
                     (take_cells (selected_positions wanted (cols0 ++ map label extra))
                                 (row ++ map (fun _ => placeholder) extra))))).
Proof.
  intros Hlen cols0 extra wanted.
  set (cols1 := cols0 ++ map label extra).
  set (row1 := row ++ map (fun _ => placeholder) extra).
  assert (length row1 = length cols1) as Hlen1.
  { unfold row1, cols1, cols0. rewrite !length_app, !length_map. lia. }
  set (pairs := combine _ _).
  assert (dict_keys (dict_of_pairs pairs) = wanted) as Hkeys.
  { rewrite dict_of_pairs_keys. unfold pairs.
    rewrite map_fst_combine
      by (rewrite length_map; symmetry; apply selected_length).
    rewrite first_seen_selected; [reflexivity | |].
    - unfold wanted. apply NoDup_fmap_2; [|apply schema_fields_NoDup].
      intros a b. apply label_inj.
    - intros l Hl. split; [|intros Hin; inversion Hin].
      apply list_elem_of_fmap in Hl as [c [-> Hc]].
      apply added_fields_complete, Hc. }
  split; [exact Hkeys|].
  intros c Hc.
  assert (exists v, dict_get (label c) (dict_of_pairs pairs) = Some v) as [v Hv].
  { apply dict_get_keys. rewrite Hkeys. apply list_elem_of_fmap. eauto. }
  pose proof (dict_of_pairs_get _ _ _ Hv) as Hin. unfold pairs in Hin.
  rewrite combine_map_r in Hin.
  apply list_elem_of_fmap in Hin as [[l v0] [Heq Hin]]. simpl in Heq.
  injection Heq as <- ->.
  apply selected_pairs in Hin as [Hin _]; [|exact Hlen1].
  unfold cols1, row1 in Hin.
  rewrite combine_app_same in Hin by (unfold cols0; rewrite length_map; symmetry; exact Hlen).
  apply elem_of_app in Hin. fold (fill v0) in Hv.
  split.
  - intros Hnot. destruct Hin as [Hin | Hin].
    + exfalso. apply Hnot. apply elem_of_combine_fst in Hin. exact Hin.
    + rewrite combine_map_l, combine_map_r in Hin.
      apply list_elem_of_fmap in Hin as [y [Heq Hin]].
      apply list_elem_of_fmap in Hin as [z [-> _]]. simpl in Heq.
      injection Heq as _ ->. exact Hv.
  - intros Hyes. destruct Hin as [Hin | Hin].
    + unfold cols0 in Hin. rewrite combine_map_l in Hin.
      apply list_elem_of_fmap in Hin as [[h w] [Heq Hin]]. simpl in Heq.
      injection Heq as Hrho Hw. subst w. exists h, v0. auto.
    + exfalso. apply elem_of_combine_fst in Hin. simpl in Hin.
      apply list_elem_of_fmap in Hin as [a [Ha Hin]].
      apply label_inj in Ha. subst a.
      apply added_fields_sound in Hin as [_ Hnot]. contradiction.
Qed.

(** The records of a well-formed frame are produced without error, one per
    row, and each is canonical. *)
Lemma normalize_spec renames (md : DataFrame L) :
  well_formed md = true ->
  exists records,
    normalize label renames md = Ok records
    /\ Forall2 (canonical_record label (renamed renames) (columns md)) (data md) records.
Proof.
  intros Hwf. eexists. split; [apply normalize_rows|].
  apply Forall2_fmap_r, Forall_Forall2_diag, Forall_forall.
  intros row Hrow. apply normalize_record.
  apply (well_formed_rows md), Hrow. exact Hwf.
Qed.
End Normalizing.

(** ** From the raw rows to the canonical records *)


Lemma dict_get_values {K V} `{EqDecision K} (k : K) (v : V) (d : list (K * V)) :
  dict_get k d = Some v -> v ∈ dict_values d.
Proof.
  intros Hget. apply dict_get_In in Hget.
  apply list_elem_of_fmap. exists (k, v). split; [reflexivity | exact Hget].
Qed.


Lemma frame_select_inv {L} `{EqDecision L} (labels : list L) (df out : DataFrame L) :
  frame_select labels df = Ok out ->
  out = mkFrame (selected_columns labels (columns df))
                (map (take_cells (selected_positions labels (columns df))) (data df)).
Proof.
  unfold frame_select. destruct (forallb _ _); [|discriminate].
  intros [= <-]. reflexivity.
Qed.

Lemma frame_select_well_formed {L} `{EqDecision L} (labels : list L) (df out : DataFrame L) :
  frame_select labels df = Ok out -> well_formed out = true.
Proof.
  intros Hsel. apply frame_select_inv in Hsel as ->.
  unfold well_formed. cbn [columns data]. apply forallb_forall.
  intros row Hrow. apply in_map_iff in Hrow as [row0 [<- _]].
  apply Nat.eqb_eq, selected_length.
Qed.



Section Projecting.
Context {L : Type} `{EqDecision L}.
Variable label : string -> L.
Hypothesis label_inj : forall a b, label a = label b -> a = b.

End Projecting.








(** ** The normaliser *)



Example squad_records :
  SaveData.canonical_records squad_mapping (SaveData.text_labels squad_frame)
  = Ok [ [ (LStr "Player Name", PStr "A Sharma"); (LStr "Matches", PStr "-");
           (LStr "Innings", PStr "-"); (LStr "Total Runs", PStr "");
           (LStr "Highest Score", PStr "-"); (LStr "Average", PStr "-");
           (LStr "Wickets", PStr "-"); (LStr "Centuries", PStr "-");
           (LStr "Half Centuries", PStr "-"); (LStr "Fifers", PStr "-");
           (LStr "Best Bowling Figures", PStr "-") ];
         [ (LStr "Player Name", PStr "B Rao"); (LStr "Matches", PStr "-");
           (LStr "Innings", PStr "-"); (LStr "Total Runs", PInt 412);
           (LStr "Highest Score", PStr "-"); (LStr "Average", PStr "-");
           (LStr "Wickets", PStr "-"); (LStr "Centuries", PStr "-");
           (LStr "Half Centuries", PStr "-"); (LStr "Fifers", PStr "-");
           (LStr "Best Bowling Figures", PStr "-") ] ].
Proof. vm_compute. reflexivity. Qed.

Lemma generative_failure_falls_back_witness :
  FileProcessing.read_table batting_csv
  = Ok (mkFrame ["batsman"; "runs"] [[PStr "V Kohli"; PInt 8676]])
  /\ FileProcessing.generative_mapping FileProcessing.model
       (FileProcessing.ServiceRaises (ServiceFailure "deadline exceeded"))
       ["batsman"; "runs"] = Raise AttributeError
  /\ exists result matched_data matched unmatched,
      FileProcessing.fuzzy_match_columns ["batsman"; "runs"] = Ok (matched, unmatched)
      /\ FileProcessing.process_tabular
           (FileProcessing.ServiceRaises (ServiceFailure "deadline exceeded")) batting_csv
         = FileProcessing.Triple result matched_data matched
      /\ FileProcessing.matched_columns result = FileProcessing.AsDict matched
      /\ FileProcessing.unmatched_columns result = unmatched.
Proof.
  split; [reflexivity|]. split; [reflexivity|].
  apply (generative_failure_falls_back
           (FileProcessing.ServiceRaises (ServiceFailure "deadline exceeded"))
           batting_csv
           (mkFrame ["batsman"; "runs"] [[PStr "V Kohli"; PInt 8676]])
           _ AttributeError).
  - left. split; reflexivity.
  - reflexivity.
Defined.

(** ** Determinism of the fuzzy matcher *)

Lemma run_bind_fst {A B} (c : Runs.Run A) (k : A -> Runs.Run B) w :
  fst (Runs.bind c k w) = fst (k (fst (c w)) w).
Proof.
  unfold Runs.bind. destruct (c w) as [a asked]. cbn [fst].
  destruct (k a w) as [b asked']. reflexivity.
Qed.

Lemma run_bind_snd {A B} (c : Runs.Run A) (k : A -> Runs.Run B) w :
  snd (Runs.bind c k w) = snd (c w) ++ snd (k (fst (c w)) w).
Proof.
  unfold Runs.bind. destruct (c w) as [a asked]. cbn [fst snd].
  destruct (k a w) as [b asked']. reflexivity.
Qed.

Lemma dict_set_NoDup {K V} `{EqDecision K} (k : K) (v : V) d :
  NoDup (dict_keys d) -> NoDup (dict_keys (dict_set k v d)).
Proof.
  intros Hd. rewrite dict_set_keys_eq. unfold mem.
  destruct (bool_decide (k ∈ dict_keys d)) eqn:Hin; [exact Hd|].
  apply bool_decide_eq_false_1 in Hin.
  apply NoDup_app. split; [exact Hd|]. split.
  - intros x Hx Hx'. apply list_elem_of_singleton in Hx'. subst. contradiction.
  - apply NoDup_singleton.
Qed.

(** An entry of a dictionary is what a lookup of its key finds. *)
Lemma dict_entry_get {K V} `{EqDecision K} (k : K) (v : V) d :
  NoDup (dict_keys d) -> (k, v) ∈ d -> dict_get k d = Some v.
Proof.
  induction d as [|[k' v'] d IH]; cbn [dict_keys map fst dict_get]; intros Hd Hin.
  - inversion Hin.
  - apply NoDup_cons in Hd as [Hk' Hd]. apply elem_of_cons in Hin as [[= -> ->] | Hin].
    + rewrite decide_True by reflexivity. reflexivity.
    + case_decide as Hk.
      * subst k'. exfalso. apply Hk'. apply list_elem_of_fmap. exists (k, v). auto.
      * apply IH; assumption.
Qed.

Section IndexAll.
Implicit Types (b : list ascii) (d : list (ascii * list nat)) (c : ascii).

Let step := fun d (ie : nat * ascii) =>
              dict_set (snd ie) (default [] (dict_get (snd ie) d) ++ [fst ie]) d.

Lemma index_fold_get b d j c :
  dict_get c (fold_left step (combine (seq j (length b)) b) d)
  = match Difflib.indices_from c b j with
    | [] => dict_get c d
    | js => Some (default [] (dict_get c d) ++ js)
    end.
Proof.
  revert d j. induction b as [|x b IH]; intros d j; [reflexivity|].
  cbn [length seq combine fold_left Difflib.indices_from]. rewrite IH.
  unfold step. cbn [fst snd]. rewrite dict_get_set.
  destruct (Ascii.eqb_spec x c) as [->|Hne].
  - rewrite decide_True by reflexivity.
    destruct (Difflib.indices_from c b (S j)) as [|j' js]; cbn [default]; [reflexivity|].
    unfold id. rewrite <- app_assoc. reflexivity.
  - rewrite decide_False by congruence. reflexivity.
Qed.

Lemma index_fold_NoDup b d j :
  NoDup (dict_keys d) ->
  NoDup (dict_keys (fold_left step (combine (seq j (length b)) b) d)).
Proof.
  revert d j. induction b as [|x b IH]; intros d j Hd; [exact Hd|].
  cbn [length seq combine fold_left]. apply IH. apply dict_set_NoDup, Hd.
Qed.

Lemma index_all_get b c :
  default [] (dict_get c (Runs.index_all b)) = Difflib.indices_from c b 0.
Proof.
  unfold Runs.index_all. fold step. rewrite index_fold_get.
  destruct (Difflib.indices_from c b 0); reflexivity.
Qed.

Lemma index_all_NoDup b : NoDup (dict_keys (Runs.index_all b)).
Proof. apply index_fold_NoDup. constructor. Qed.

End IndexAll.

Section Deleting.
Context {K V : Type} `{EqDecision K}.
Implicit Types (d : list (K * V)) (elts : list K).

(** The dictionary without the keys [elts]. *)
Let without elts d := List.filter (fun kv : K * V => negb (mem (fst kv) elts)) d.

Lemma without_keys elts d k : k ∈ dict_keys (without elts d) <-> k ∈ dict_keys d /\ k ∉ elts.
Proof.
  unfold without, dict_keys, mem. rewrite !list_elem_of_fmap. split.
  - intros [[k' v] [-> Hin]]. apply list_elem_of_In, List.filter_In in Hin as [Hin Hk].
    apply negb_true_iff, bool_decide_eq_false_1 in Hk. split; [|exact Hk].
    exists (k', v). split; [reflexivity | apply list_elem_of_In, Hin].
  - intros [[[k' v] [-> Hin]] Hk]. exists (k', v). split; [reflexivity|].
    apply list_elem_of_In, List.filter_In. split; [apply list_elem_of_In, Hin|].
    apply negb_true_iff, bool_decide_eq_false_2, Hk.
Qed.

Lemma without_get elts d k :
  dict_get k (without elts d) = if mem k elts then None else dict_get k d.
Proof.
  unfold without, mem. induction d as [|[k' v'] d IH]; cbn [List.filter fst dict_get].
  - destruct (bool_decide (k ∈ elts)); reflexivity.
  - destruct (bool_decide (k' ∈ elts)) eqn:Hk'; cbn [negb dict_get].
    + rewrite IH. destruct (decide (k = k')) as [->|Hne]; [rewrite Hk'|]; reflexivity.
    + destruct (decide (k = k')) as [->|Hne]; [rewrite Hk'; reflexivity | exact IH].
Qed.

Lemma without_cons k elts d :
  without elts (List.filter (fun kv : K * V => negb (bool_decide (fst kv = k))) d)
  = without (k :: elts) d.
Proof.
  unfold without, mem. induction d as [|[k' v'] d IH]; cbn [List.filter fst]; [reflexivity|].
  destruct (decide (k' = k)) as [->|Hne].
  - rewrite bool_decide_eq_true_2 by reflexivity. cbn [negb].
    rewrite (bool_decide_eq_true_2 (k ∈ k :: elts)) by apply list_elem_of_here.
    cbn [negb]. exact IH.
  - rewrite bool_decide_eq_false_2 by exact Hne. cbn [negb List.filter fst].
    rewrite IH.
    assert (bool_decide (k' ∈ k :: elts) = bool_decide (k' ∈ elts)) as ->; [|reflexivity].
    apply bool_decide_ext. rewrite elem_of_cons. tauto.
Qed.

(** Deleting distinct keys of a dictionary one by one never fails, and
    leaves the same dictionary in whatever order they are taken. *)
Lemma delete_fold elts d :
  NoDup elts -> (forall k, k ∈ elts -> k ∈ dict_keys d) ->
  fold_left (fun (acc : Exc (list (K * V))) elt => d' ← acc; Runs.dict_delete elt d')
            elts (Ok d)
  = Ok (without elts d).
Proof.
  revert d. induction elts as [|k elts IH]; intros d Hnd Hkeys; cbn [fold_left].
  - unfold without, mem. f_equal. symmetry. apply forallb_filter_id.
    apply forallb_forall. intros kv _.
    apply negb_true_iff, bool_decide_eq_false_2. intros Hin. inversion Hin.
  - apply NoDup_cons in Hnd as [Hk Hnd]. rewrite exc_bind_ok.
    unfold Runs.dict_delete at 2. unfold mem.
    rewrite bool_decide_eq_true_2 by (apply Hkeys, list_elem_of_here).
    rewrite IH; [rewrite without_cons; reflexivity | exact Hnd |].
    intros k' Hk'.
    assert (k' ∈ dict_keys (without [k] d)) as Hin.
    { apply without_keys. split; [apply Hkeys, list_elem_of_further, Hk'|].
      intros Hin. apply list_elem_of_singleton in Hin. subst k'. contradiction. }
    unfold without, mem in Hin.
    erewrite List.filter_ext; [exact Hin|].
    intros [k0 v0]. cbn [fst]. f_equal. apply bool_decide_ext.
    rewrite list_elem_of_singleton. reflexivity.
Qed.

End Deleting.

(** [__chain_b] returns, and [b2j] then answers as the index of [b]
    without its popular elements, whatever the seed; the service is not
    called. *)
Lemma chain_b_spec (b : list ascii) (w : Runs.World) :
  exists b2j,
    fst (Runs.chain_b b w) = Ok b2j
    /\ (forall c, Runs.b2j_get b2j c = Difflib.b2j b c)
    /\ (Runs.ServiceCalled ∉ snd (Runs.chain_b b w)).
Proof.
  unfold Runs.chain_b, Runs.b2j_get, Difflib.b2j, Difflib.popular.
  destruct (200 <=? length b)%nat eqn:Hlong; cbn [andb].
  - set (ntest := (length b / 100 + 1)%nat).
    set (popular := map fst (List.filter (fun kv : ascii * list nat =>
                                            (ntest <? length (snd kv))%nat)
                                         (Runs.index_all b))).
    rewrite run_bind_fst, run_bind_snd. cbn [Runs.list_set Runs.ret fst snd].
    set (elts := list_of_set (Runs.hash_seed w) popular).
    assert (NoDup elts) as Hnd by apply listing_NoDup.
    assert (forall c, c ∈ elts <-> c ∈ popular) as Helts by (intros c; apply listing_elem).
    assert (forall c, c ∈ popular
                      <-> (ntest <? length (Difflib.indices_from c b 0))%nat = true) as Hpop.
    { intros c. unfold popular. rewrite list_elem_of_fmap. split.
      - intros [[c' l] [-> Hin]]. apply list_elem_of_In, List.filter_In in Hin as [Hin Hl].
        cbn [fst snd] in *.
        apply list_elem_of_In, (dict_entry_get _ _ _ (index_all_NoDup b)) in Hin.
        rewrite <- index_all_get, Hin. exact Hl.
      - intros Hl. rewrite <- index_all_get in Hl.
        destruct (dict_get c (Runs.index_all b)) as [l|] eqn:Hget; [|discriminate Hl].
        exists (c, l). split; [reflexivity|].
        apply list_elem_of_In, List.filter_In. split; [|exact Hl].
        apply list_elem_of_In, dict_get_In, Hget. }
    rewrite delete_fold; [|exact Hnd|].
    + eexists. split; [reflexivity|]. split.
      * intros c. rewrite without_get. unfold mem.
        destruct (ntest <? length (Difflib.indices_from c b 0))%nat eqn:Hc.
        -- rewrite bool_decide_eq_true_2 by (apply Helts, Hpop, Hc). reflexivity.
        -- rewrite bool_decide_eq_false_2; [apply index_all_get|].
           rewrite Helts, Hpop, Hc. discriminate.
      * rewrite app_nil_r. intros Hin. apply list_elem_of_singleton in Hin.
        discriminate Hin.
    + intros c Hc. apply Helts in Hc. unfold popular in Hc.
      apply list_elem_of_fmap in Hc as [[c' l] [-> Hin]].
      apply list_elem_of_In, List.filter_In in Hin as [Hin _].
      apply list_elem_of_fmap. exists (c', l). split; [reflexivity|].
      apply list_elem_of_In, Hin.
  - cbn [Runs.ret fst snd]. eexists. split; [reflexivity|]. split.
    + intros c. apply index_all_get.
    + intros Hin. inversion Hin.
Qed.

Section SameIndex.
Variable b2j : list (ascii * list nat).
Variable b : list ascii.
Hypothesis b2j_same : forall c, Runs.b2j_get b2j c = Difflib.b2j b c.

Lemma scan_is_same a alo ahi blo bhi :
  Runs.scan_is b2j a alo ahi blo bhi = Difflib.scan_is a b alo ahi blo bhi.
Proof.
  unfold Runs.scan_is, Difflib.scan_is. f_equal.
  generalize (@nil (nat * nat), (alo, blo, 0%nat)).
  induction (seq alo (ahi - alo)) as [|i l IH]; intros st; cbn [fold_left]; [reflexivity|].
  rewrite IH. destruct (nth_error a i) as [c|]; [rewrite b2j_same|]; reflexivity.
Qed.

Lemma find_longest_match_same a alo ahi blo bhi :
  Runs.find_longest_match b2j a b alo ahi blo bhi
  = Difflib.find_longest_match a b alo ahi blo bhi.
Proof.
  unfold Runs.find_longest_match, Difflib.find_longest_match.
  rewrite scan_is_same. reflexivity.
Qed.

Lemma matching_loop_same fuel a queue blocks :
  Runs.matching_loop b2j fuel a b queue blocks = Difflib.matching_loop fuel a b queue blocks.
Proof.
  revert queue blocks. induction fuel as [|fuel IH]; intros queue blocks;
    cbn [Runs.matching_loop Difflib.matching_loop]; [reflexivity|].
  destruct queue as [|[[[alo ahi] blo] bhi] queue]; [reflexivity|].
  rewrite find_longest_match_same.
  destruct (Difflib.find_longest_match a b alo ahi blo bhi) as [[i j] k].
  destruct k as [|k]; apply IH.
Qed.

Lemma ratio_same a : Runs.ratio b2j a b = Difflib.ratio a b.
Proof.
  unfold Runs.ratio, Difflib.ratio, Runs.matching_blocks, Difflib.matching_blocks.
  rewrite matching_loop_same. reflexivity.
Qed.

End SameIndex.

Lemma close_matches_same b2j word possibilities cutoff :
  (forall c, Runs.b2j_get b2j c = Difflib.b2j (chars word) c) ->
  Runs.close_matches b2j word possibilities cutoff
  = Difflib.get_close_matches word possibilities cutoff.
Proof.
  intros Hsame. unfold Runs.close_matches, Difflib.get_close_matches. do 2 f_equal.
  apply List.flat_map_ext. intros x. rewrite (ratio_same _ _ Hsame). reflexivity.
Qed.

(** [get_close_matches] within a run returns what the routine computes
    from the word and the possibilities alone, or refuses the cutoff, and
    calls no service. *)
Lemma get_close_matches_run word possibilities cutoff (w : Runs.World) :
  fst (Runs.get_close_matches word possibilities cutoff w)
  = (if Runs.cutoff_in_range cutoff
     then Ok (Difflib.get_close_matches word possibilities cutoff)
     else Raise ValueError)
  /\ (Runs.ServiceCalled ∉ snd (Runs.get_close_matches word possibilities cutoff w)).
Proof.
  unfold Runs.get_close_matches. destruct (Runs.cutoff_in_range cutoff).
  - rewrite run_bind_fst, run_bind_snd.
    destruct (chain_b_spec (chars word) w) as [b2j [Hbuilt [Hsame Hquiet]]].
    rewrite Hbuilt. cbn [Runs.ret fst snd]. rewrite exc_bind_ok, app_nil_r.
    rewrite (close_matches_same _ _ _ _ Hsame). auto.
  - cbn [Runs.ret fst snd]. split; [reflexivity|]. intros Hin. inversion Hin.
Qed.

Lemma fuzzy_step_run flat cutoff acc col (w : Runs.World) :
  fst (Runs.fuzzy_step flat cutoff acc col w)
  = (if Runs.cutoff_in_range cutoff
     then FileProcessing.fuzzy_step flat cutoff (fst (acc w)) col
     else _ ← fst (acc w); Raise ValueError)
  /\ (Runs.ServiceCalled ∉ snd (acc w) ->
      Runs.ServiceCalled ∉ snd (Runs.fuzzy_step flat cutoff acc col w)).
Proof.
  unfold Runs.fuzzy_step, FileProcessing.fuzzy_step.
  rewrite run_bind_fst, run_bind_snd.
  destruct (fst (acc w)) as [[matched unmatched]|e].
  - rewrite run_bind_fst, run_bind_snd.
    destruct (get_close_matches_run (lower col) (dict_keys flat) cutoff w) as [-> Hquiet].
    cbn [Runs.ret fst snd]. rewrite app_nil_r. split.
    + destruct (Runs.cutoff_in_range cutoff); rewrite ?exc_bind_ok; reflexivity.
    + intros Hacc. apply not_elem_of_app. auto.
  - cbn [Runs.ret fst snd]. rewrite app_nil_r.
    destruct (Runs.cutoff_in_range cutoff); auto.
Qed.

Lemma fuzzy_fold_quiet flat cutoff headers acc (w : Runs.World) :
  Runs.ServiceCalled ∉ snd (acc w) ->
  Runs.ServiceCalled ∉ snd (fold_left (Runs.fuzzy_step flat cutoff) headers acc w).
Proof.
  revert acc. induction headers as [|col headers IH]; intros acc; cbn [fold_left]; [auto|].
  intros Hacc. apply IH, fuzzy_step_run, Hacc.
Qed.

(** With a cutoff in range, the matcher within a run computes what the
    matcher of the passes computes. *)
Lemma fuzzy_fold_run flat cutoff headers acc (w : Runs.World) :
  Runs.cutoff_in_range cutoff = true ->
  fst (fold_left (Runs.fuzzy_step flat cutoff) headers acc w)
  = fold_left (FileProcessing.fuzzy_step flat cutoff) headers (fst (acc w)).
Proof.
  intros Hrange. revert acc.
  induction headers as [|col headers IH]; intros acc; cbn [fold_left]; [auto|].
  rewrite IH. destruct (fuzzy_step_run flat cutoff acc col w) as [-> _].
  rewrite Hrange. reflexivity.
Qed.

(** With a cutoff out of range, the first header ends the run. *)
Lemma fuzzy_fold_refused flat cutoff headers acc (w : Runs.World) :
  Runs.cutoff_in_range cutoff = false ->
  fst (fold_left (Runs.fuzzy_step flat cutoff) headers acc w)
  = if is_nil headers then fst (acc w) else _ ← fst (acc w); Raise ValueError.
Proof.
  intros Hrange. revert acc.
  induction headers as [|col headers IH]; intros acc; cbn [fold_left is_nil]; [auto|].
  rewrite IH. destruct (fuzzy_step_run flat cutoff acc col w) as [-> _].
  rewrite Hrange. destruct headers, (fst (acc w)); reflexivity.
Qed.

Lemma fuzzy_run_result flat cutoff headers (w : Runs.World) :
  Runs.cutoff_in_range cutoff = true ->
  fst (Runs.fuzzy_match_columns_with flat cutoff headers w)
  = FileProcessing.fuzzy_match_columns_with flat cutoff headers.
Proof. intros Hrange. apply fuzzy_fold_run, Hrange. Qed.

(** C9.  Take two runs of the fuzzy matcher on the same headers, with the
    same alias table and the same cutoff, in any two surroundings: whatever
    the completion service would answer in each, and whatever hash seed
    the interpreter has drawn for each.  The two runs end in the same way:
    with a cutoff between 0 and 1, as the 0.7 of the source is, both
    return, with the same mapping and the same unmatched list; with
    another cutoff both return two empty results for no header, and raise
    the ValueError of get_close_matches otherwise.  Neither run calls the
    service.  The one thing a run draws at random is the hash seed, which
    the matcher consults, for a header of 200 characters or more, when it
    goes through the set of popular elements; the result does not depend
    on it. *)
Theorem fuzzy_matcher_is_deterministic
        (flat : list (string * string)) (cutoff : Difflib.Ratio) (headers : list string)
        (w1 w2 : Runs.World) :
  exists matched unmatched,
    fst (Runs.fuzzy_match_columns_with flat cutoff headers w1)
    = (if Runs.cutoff_in_range cutoff || is_nil headers
       then Ok (matched, unmatched) else Raise ValueError)
    /\ fst (Runs.fuzzy_match_columns_with flat cutoff headers w2)
       = (if Runs.cutoff_in_range cutoff || is_nil headers
          then Ok (matched, unmatched) else Raise ValueError)
    /\ Runs.cutoff_in_range (7%nat, 10%nat) = true
    /\ (Runs.ServiceCalled ∉ snd (Runs.fuzzy_match_columns_with flat cutoff headers w1))
    /\ (Runs.ServiceCalled ∉ snd (Runs.fuzzy_match_columns_with flat cutoff headers w2)).
Proof.
  assert (forall w, Runs.ServiceCalled
                    ∉ snd (Runs.fuzzy_match_columns_with flat cutoff headers w)) as Hquiet
      by (intros w; apply fuzzy_fold_quiet; intros Hin; inversion Hin).
  destruct (Runs.cutoff_in_range cutoff) eqn:Hrange; cbn [orb].
  - destruct (fuzzy_match_columns_with_ok flat cutoff headers) as [[matched unmatched] Hr].
    exists matched, unmatched. rewrite !(fuzzy_run_result _ _ _ _ Hrange).
    repeat split; auto.
  - exists [], []. pose proof (Hquiet w1) as Hquiet1. pose proof (Hquiet w2) as Hquiet2.
    unfold Runs.fuzzy_match_columns_with in *.
    rewrite !(fuzzy_fold_refused _ _ _ _ _ Hrange).
    destruct headers; repeat split; auto.
Qed.

(** A generative client does call the service, and its answer is that of
    the service; the encoder the module binds to [model] raises before any
    call. *)
Lemma generative_client_calls_service name (w : Runs.World) :
  Runs.ServiceCalled ∈ snd (Runs.generate_content (FileProcessing.GenerativeModel name) w)
  /\ fst (Runs.generate_content (FileProcessing.GenerativeModel name) w)
     = FileProcessing.generate_content (FileProcessing.GenerativeModel name)
                                       (Runs.service w)
  /\ Runs.generate_content FileProcessing.model w = (Raise AttributeError, []).
Proof.
  split; [apply list_elem_of_here|]. split; [|reflexivity].
  cbn. destruct (Runs.service w); reflexivity.
Qed.

(** A header of 200 letters, two of them popular: the matcher goes
    through a set of two elements once, in one order under the first seed
    and in the other under the second, and returns the same. *)
Example fuzzy_long_header :
  let header := text (repeat "a"%char 100 ++ repeat "b"%char 100) in
  let w1 := Runs.mkWorld FileProcessing.EmptyResponse first_seed in
  let w2 := Runs.mkWorld (FileProcessing.Reply conforming_reply) reverse_seed in
  Runs.fuzzy_match_columns [header] w1 = (Ok ([], [header]), [Runs.SetListed])
  /\ Runs.fuzzy_match_columns [header] w2 = (Ok ([], [header]), [Runs.SetListed]).
Proof. vm_compute. split; reflexivity. Qed.

(** ** Numbers that do not parse *)

Lemma span_digits_all (l : list ascii) :
  forallb is_digit l = true -> span_digits l = (l, []).
Proof.
  induction l as [|c l IH]; simpl; [reflexivity|].
  intros Hall. apply andb_true_iff in Hall as [Hc Hl].
  rewrite Hc, (IH Hl). reflexivity.
Qed.

(** Whatever [int()] accepts, [float()] accepts. *)
Lemma int_literal_is_float_literal (s : string) (z : Z) :
  int_of_str s = Some z -> float_literal s = true.
Proof.
  unfold int_of_str, float_literal.
  destruct (remove_underscores _ _) as [body|]; simpl; [|discriminate].
  destruct (split_sign body) as [negative digits]. simpl.
  destruct digits as [|d digits]; [discriminate|].
  destruct (forallb is_digit (d :: digits)) eqn:Hall; [|discriminate].
  intros _. unfold decimal_literal. rewrite (span_digits_all _ Hall). simpl.
  apply orb_true_r.
Qed.

Lemma safe_int_non_numeric v : numeric v = false -> SaveData.safe_int v = Ok 0%Z.
Proof.
  destruct v as [|s|z|b|f|]; simpl; try discriminate; try reflexivity.
  intros Hs. unfold SaveData.safe_int. simpl.
  destruct (int_of_str s) as [z|] eqn:Hz; [|reflexivity].
  apply int_literal_is_float_literal in Hz. congruence.
Qed.

Lemma safe_float_non_numeric v : numeric v = false -> SaveData.safe_float v = Ok float_zero.
Proof.
  destruct v as [|s|z|b|f|]; simpl; try discriminate; try reflexivity.
  intros Hs. unfold SaveData.safe_float. simpl. rewrite Hs. reflexivity.
Qed.

Lemma safe_int_returns v : int_overflows v = false -> exists z, SaveData.safe_int v = Ok z.
Proof.
  unfold SaveData.safe_int.
  destruct v as [|s|z|b|[|neg|m e]|]; simpl; try discriminate; eauto.
  destruct (int_of_str s); eauto.
Qed.

Lemma safe_float_returns v :
  float_overflows v = false -> exists x, SaveData.safe_float v = Ok x.
Proof.
  unfold SaveData.safe_float.
  destruct v as [|s|z|b|f|]; simpl; eauto.
  - destruct (float_literal s); eauto.
  - intros Hz. apply negb_false_iff in Hz. rewrite Hz. eauto.
Qed.

Lemma map_row_fst targets row acc :
  fst (fold_left
         (fun (acc : list (string * PyVal) * list string) mapped_key =>
            let value := default PNone (dict_get (LStr mapped_key) row) in
            (dict_set mapped_key value (fst acc),
             if bool_decide (value = PNone) then snd acc ++ [mapped_key] else snd acc))
         targets acc)
  = fold_left (fun d k => dict_set k (cell k row) d) targets (fst acc).
Proof.
  revert acc. induction targets as [|t targets IH]; intros acc; simpl; [reflexivity|].
  rewrite IH. reflexivity.
Qed.

Lemma dict_get_fold_set (targets : list string) (f : string -> PyVal) d c :
  dict_get c (fold_left (fun d k => dict_set k (f k) d) targets d)
  = if mem c targets then Some (f c) else dict_get c d.
Proof.
  unfold mem. revert d. induction targets as [|t targets IH]; intros d; simpl.
  - reflexivity.
  - rewrite IH, dict_get_set.
    destruct (decide (c = t)) as [->|Hne].
    + rewrite (bool_decide_eq_true_2 (t ∈ t :: targets)) by apply list_elem_of_here.
      destruct (bool_decide (t ∈ targets)); reflexivity.
    + destruct (bool_decide (c ∈ targets)) eqn:Hb.
      * apply bool_decide_eq_true_1 in Hb.
        rewrite bool_decide_eq_true_2 by (apply list_elem_of_further, Hb). reflexivity.
      * apply bool_decide_eq_false_1 in Hb.
        rewrite bool_decide_eq_false_2; [reflexivity|].
        rewrite elem_of_cons. intros [?|?]; [congruence | contradiction].
Qed.

(** A field of the restricted row is the cell of the record when the user
    names the field, and [None] otherwise. *)
Lemma map_row_get targets row c :
  SaveData.row_get c (fst (SaveData.map_row targets row))
  = if mem c targets then cell c row else PNone.
Proof.
  unfold SaveData.row_get, SaveData.map_row.
  rewrite map_row_fst, dict_get_fold_set. simpl.
  destruct (mem c targets); reflexivity.
Qed.

Lemma stored_int_field targets row c :
  int_overflows (cell c row) = false ->
  exists z, SaveData.safe_int (SaveData.row_get c (fst (SaveData.map_row targets row))) = Ok z
            /\ (numeric (cell c row) = false -> z = 0%Z).
Proof.
  intros Hover. rewrite map_row_get. destruct (mem c targets).
  - destruct (safe_int_returns _ Hover) as [z Hz]. exists z. split; [exact Hz|].
    intros Hnum. rewrite (safe_int_non_numeric _ Hnum) in Hz. congruence.
  - exists 0%Z. split; [reflexivity | auto].
Qed.

Lemma stored_float_field targets row c :
  float_overflows (cell c row) = false ->
  exists x, SaveData.safe_float (SaveData.row_get c (fst (SaveData.map_row targets row))) = Ok x
            /\ (numeric (cell c row) = false -> x = float_zero).
Proof.
  intros Hover. rewrite map_row_get. destruct (mem c targets).
  - destruct (safe_float_returns _ Hover) as [x Hx]. exists x. split; [exact Hx|].
    intros Hnum. rewrite (safe_float_non_numeric _ Hnum) in Hx. congruence.
  - exists float_zero. split; [reflexivity | auto].
Qed.


(** ** Sets of one element *)

Lemma list_of_set_NoDup {A} `{EqDecision A} (seed : HashSeed) (l : list A) :
  NoDup (list_of_set seed l).
Proof. apply listing_NoDup. Qed.

Lemma list_of_set_elem {A} `{EqDecision A} (seed : HashSeed) (l : list A) x :
  x ∈ list_of_set seed l <-> x ∈ l.
Proof. apply listing_elem. Qed.

(** Whatever the seed, an empty set is listed as the empty list and a set
    of one element as that element. *)
Lemma list_of_set_nil {A} `{EqDecision A} (seed : HashSeed) :
  list_of_set seed (@nil A) = [].
Proof.
  destruct (list_of_set seed (@nil A)) as [|x l] eqn:Hl; [reflexivity|].
  assert (x ∈ @nil A) as Hin by (apply (list_of_set_elem seed); rewrite Hl; left).
  inversion Hin.
Qed.

Lemma list_of_set_one {A} `{EqDecision A} (seed : HashSeed) (x : A) (l : list A) :
  (forall y, y ∈ l <-> y = x) -> list_of_set seed l = [x].
Proof.
  intros Hl.
  pose proof (list_of_set_NoDup seed l) as Hnd.
  assert (forall y, y ∈ list_of_set seed l <-> y = x) as Hin.
  { intros y. rewrite list_of_set_elem. apply Hl. }
  destruct (list_of_set seed l) as [|y [|z k]].
  - exfalso. assert (x ∈ @nil A) as H0 by (apply Hin; reflexivity). inversion H0.
  - f_equal. apply Hin. left.
  - exfalso. apply NoDup_cons in Hnd as [Hy _]. apply Hy.
    assert (y = x) as -> by (apply Hin; left).
    assert (z = x) as -> by (apply Hin; right; left). left.
Qed.

(** ** The correction merger *)

Lemma merge_fold (keys header prior : list Label) :
  fold_left (fun (acc : Exc (option (list Label))) col =>
               t ← acc;
               if mem col keys then Ok t else SaveData.append_to t col)
            header (Ok (Some prior))
  = Ok (Some (prior ++ List.filter (fun col => negb (mem col keys)) header)).
Proof.
  revert prior. induction header as [|col header IH]; intros prior; cbn [fold_left List.filter].
  - rewrite app_nil_r. reflexivity.
  - rewrite exc_bind_ok. destruct (mem col keys); cbn [negb].
    + apply IH.
    + cbn [SaveData.append_to]. rewrite IH, <- app_assoc. reflexivity.
Qed.

(** What the merge leaves in the log of a file that lists unmatched
    headers. *)
Lemma merge_log_spec seed file_log header new_mapped total prior :
  SaveData.log_unmatched_columns file_log = Some prior ->
  SaveData.merge_log seed file_log header new_mapped total
  = Ok (SaveData.mkLog
          (SaveData.log_file_id file_log)
          (Some (dict_keys new_mapped))
          (Some (merged_unmatched seed prior header (dict_keys new_mapped)))
          (SaveData.log_missing_columns file_log)
          (Some total)
          (Some (if is_nil (dict_keys new_mapped) then "partial" else "accepted"))).
Proof.
  intros Hprior. unfold SaveData.merge_log. rewrite Hprior, merge_fold.
  rewrite exc_bind_ok. cbn [SaveData.set_of]. rewrite exc_bind_ok. unfold merged_unmatched.
  fold (extended prior header (dict_keys new_mapped)).
  destruct (decide (list_of_set seed (extended prior header (dict_keys new_mapped))
                    = extended prior header (dict_keys new_mapped))) as [Heq|Hne].
  - rewrite (bool_decide_eq_true_2 _ Heq).
    rewrite bool_decide_eq_true_2 by (rewrite Heq; reflexivity). reflexivity.
  - rewrite (bool_decide_eq_false_2 _ Hne).
    rewrite bool_decide_eq_false_2 by (intros [= H]; apply Hne; symmetry; exact H).
    reflexivity.
Qed.

(** Whatever the seed and whether or not the list is written, the merge
    leaves every header the log listed. *)
Lemma merged_unmatched_prior seed prior header keys x :
  x ∈ prior -> x ∈ merged_unmatched seed prior header keys.
Proof.
  intros Hx. unfold merged_unmatched. case_bool_decide; [exact Hx|].
  apply list_of_set_elem. unfold extended. apply elem_of_app. auto.
Qed.

Lemma insert_entities_log fid mapped_row db db' :
  SaveData.insert_entities fid mapped_row db = Ok db' ->
  SaveData.file_processing_log db' = SaveData.file_processing_log db
  /\ SaveData.file_upload db' = SaveData.file_upload db.
Proof.
  unfold SaveData.insert_entities. intros H.
  repeat (apply bind_Ok in H as [? [_ H]]).
  injection H as <-. auto.
Qed.

Lemma insert_rows_step_log fid targets row acc acc' :
  SaveData.insert_step fid targets (Ok acc) row = Ok acc' ->
  SaveData.file_processing_log (fst (fst acc'))
  = SaveData.file_processing_log (fst (fst acc))
  /\ SaveData.file_upload (fst (fst acc')) = SaveData.file_upload (fst (fst acc)).
Proof.
  unfold SaveData.insert_step. rewrite exc_bind_ok.
  destruct acc as [[db1 total] unmatched].
  destruct (SaveData.map_row targets row) as [mapped_row missing].
  intros H. apply bind_Ok in H as [db2 [Hent H]]. injection H as <-.
  apply (insert_entities_log _ _ _ _ Hent).
Qed.

Lemma insert_rows_raise fid targets rows e :
  fold_left (SaveData.insert_step fid targets) rows (Raise e) = Raise e.
Proof. induction rows as [|row rows IH]; simpl; [reflexivity | exact IH]. Qed.

Lemma insert_rows_fold_log fid targets rows acc acc' :
  fold_left (SaveData.insert_step fid targets) rows (Ok acc) = Ok acc' ->
  SaveData.file_processing_log (fst (fst acc'))
  = SaveData.file_processing_log (fst (fst acc))
  /\ SaveData.file_upload (fst (fst acc')) = SaveData.file_upload (fst (fst acc)).
Proof.
  revert acc. induction rows as [|row rows IH]; intros acc; cbn [fold_left].
  - intros [= <-]. auto.
  - destruct (SaveData.insert_step fid targets (Ok acc) row) as [acc1|e] eqn:Hstep.
    + intros H. destruct (IH _ H) as [-> ->].
      apply (insert_rows_step_log _ _ _ _ _ Hstep).
    + rewrite insert_rows_raise. discriminate.
Qed.

Lemma insert_rows_log fid targets rows db db' total unmatched :
  SaveData.insert_rows fid targets rows db = Ok (db', total, unmatched) ->
  SaveData.file_processing_log db' = SaveData.file_processing_log db
  /\ SaveData.file_upload db' = SaveData.file_upload db.
Proof. intros H. apply (insert_rows_fold_log _ _ _ _ _ H). Qed.

Lemma accepted_Ok (ok : bool) (u : unit) : FileModel.accepted ok = Ok u -> ok = true.
Proof. destruct ok; [reflexivity | discriminate]. Qed.

(** A correction that is committed has read the file and stored its
    rows. *)
Lemma save_submit_inv seed request f db db' :
  SaveData.save_submit_columns_data seed request f db = Ok db' ->
  exists df db1 total missing,
    SaveData.read_source request f = Ok df
    /\ rows_stored request df db = Ok (db1, total, missing).
Proof.
  unfold SaveData.save_submit_columns_data, rows_stored. cbv zeta.
  destruct (SaveData.read_source request f) as [df|e]; [|discriminate].
  rewrite exc_bind_ok.
  destruct (SaveData.select_mapped _ _) as [mtc nm].
  destruct (SaveData.canonical_records _ df) as [records|e] eqn:Hrec; [|discriminate].
  rewrite !exc_bind_ok.
  destruct (SaveData.insert_rows _ _ records db) as [[[db1 total] missing]|e] eqn:Hins;
    [|discriminate].
  intros _. exists df, db1, total, missing. split; [reflexivity|].
  rewrite Hrec, exc_bind_ok. exact Hins.
Qed.

(** What a correction leaves in the log of a file that had one with a
    list of unmatched headers, when the rows are stored and their number
    fits the column. *)
Lemma save_submit_merge seed request f db df db1 total missing file_log prior :
  SaveData.read_source request f = Ok df ->
  rows_stored request df db = Ok (db1, total, missing) ->
  FileModel.int4_ok total = true ->
  SaveData.file_processing_log db !! SaveData.file_id request = Some file_log ->
  SaveData.log_unmatched_columns file_log = Some prior ->
  log_after seed request f db
  = Ok (Some (SaveData.mkLog
                (SaveData.log_file_id file_log)
                (Some (mapped_headers request df))
                (Some (merged_unmatched seed prior (columns df)
                                        (mapped_headers request df)))
                (SaveData.log_missing_columns file_log)
                (Some total)
                (Some (if is_nil (mapped_headers request df)
                       then "partial" else "accepted")))).
Proof.
  intros Hread Hrows Htotal Hlog Hprior.
  unfold rows_stored in Hrows. apply bind_Ok in Hrows as [records [Hrec Hins]].
  unfold log_after, SaveData.save_submit_columns_data.
  rewrite Hread, exc_bind_ok. unfold mapped_headers.
  destruct (SaveData.select_mapped _ _) as [mtc nm]. cbn [snd].
  rewrite Hrec, exc_bind_ok, Hins, exc_bind_ok.
  destruct (insert_rows_log _ _ _ _ _ _ _ Hins) as [-> _]. rewrite Hlog.
  rewrite (merge_log_spec _ _ _ _ _ _ Hprior), exc_bind_ok, Htotal.
  cbn [FileModel.accepted]. rewrite !exc_bind_ok.
  cbn [SaveData.file_processing_log]. rewrite lookup_insert_eq. reflexivity.
Qed.

(** The number of rows a committed correction has stored fits its
    column. *)
Lemma save_submit_total seed request f db db' df db1 total missing :
  SaveData.save_submit_columns_data seed request f db = Ok db' ->
  SaveData.read_source request f = Ok df ->
  rows_stored request df db = Ok (db1, total, missing) ->
  FileModel.int4_ok total = true.
Proof.
  intros Hsave Hread Hrows. revert Hsave.
  unfold rows_stored in Hrows. apply bind_Ok in Hrows as [records [Hrec Hins]].
  unfold SaveData.save_submit_columns_data. cbv zeta. rewrite Hread, exc_bind_ok.
  destruct (SaveData.select_mapped _ _) as [mtc nm].
  rewrite Hrec, exc_bind_ok, Hins, exc_bind_ok.
  destruct (SaveData.file_processing_log db1 !! SaveData.file_id request) as [file_log|].
  - destruct (SaveData.merge_log _ _ _ _ _) as [log'|e]; [|discriminate].
    rewrite exc_bind_ok. destruct (FileModel.int4_ok total); [reflexivity | discriminate].
  - destruct (SaveData.uploaded _ _); cbn [andb]; [|discriminate].
    destruct (FileModel.int4_ok total); [reflexivity | discriminate].
Qed.

(** What a correction leaves as the log of a file that had none. *)
Lemma save_submit_create seed request f db df db1 total missing :
  SaveData.read_source request f = Ok df ->
  rows_stored request df db = Ok (db1, total, missing) ->
  FileModel.int4_ok total = true ->
  SaveData.uploaded (SaveData.file_id request) db = true ->
  SaveData.file_processing_log db !! SaveData.file_id request = None ->
  log_after seed request f db
  = Ok (Some (SaveData.create_log seed (SaveData.file_id request)
                                  (dict_values (SaveData.user_mapping request))
                                  missing total)).
Proof.
  intros Hread Hrows Htotal Hup Hlog.
  unfold rows_stored in Hrows. apply bind_Ok in Hrows as [records [Hrec Hins]].
  unfold log_after, SaveData.save_submit_columns_data.
  rewrite Hread, exc_bind_ok.
  destruct (SaveData.select_mapped _ _) as [mtc nm].
  rewrite Hrec, exc_bind_ok, Hins, exc_bind_ok.
  destruct (insert_rows_log _ _ _ _ _ _ _ Hins) as [Hlog1 Hup1].
  rewrite Hlog1, Hlog. unfold SaveData.uploaded in *. rewrite Hup1, Hup, Htotal.
  cbn [andb FileModel.accepted]. rewrite !exc_bind_ok.
  cbn [SaveData.file_processing_log]. rewrite lookup_insert_eq. reflexivity.
Qed.

Lemma elem_of_unmapped (keys header : list Label) x :
  x ∈ List.filter (fun col => negb (mem col keys)) header <-> x ∈ header /\ x ∉ keys.
Proof.
  unfold mem. split.
  - intros Hin. apply list_elem_of_In in Hin. apply List.filter_In in Hin as [Hh Hk].
    split; [apply list_elem_of_In, Hh|].
    apply negb_true_iff in Hk. exact (bool_decide_eq_false_1 _ Hk).
  - intros [Hh Hk]. apply list_elem_of_In. apply List.filter_In.
    split; [apply list_elem_of_In, Hh|].
    apply negb_true_iff, bool_decide_eq_false_2, Hk.
Qed.

Lemma select_step_snd header acc key value :
  snd (SaveData.select_step header acc (key, value))
  = match header_of header key with
    | Some h => dict_set h value (snd acc)
    | None => snd acc
    end.
Proof.
  unfold SaveData.select_step, header_of. destruct acc as [mtc nm].
  destruct (SaveData.convert_string_to_int key) as [z|].
  - destruct (mem (LInt z) header); [reflexivity|].
    destruct (mem (LStr key) header); reflexivity.
  - destruct (mem (LStr key) header); reflexivity.
Qed.

Lemma select_fold_keys header mapped acc h :
  h ∈ dict_keys (snd (fold_left (SaveData.select_step header) mapped acc))
  <-> h ∈ dict_keys (snd acc)
      \/ exists key, key ∈ dict_keys mapped /\ header_of header key = Some h.
Proof.
  revert acc. induction mapped as [|[key value] mapped IH]; intros acc; cbn [fold_left].
  - split; [auto|]. intros [?|[key [Hin _]]]; [assumption | inversion Hin].
  - rewrite IH, select_step_snd. cbn [dict_keys map fst]. split.
    + intros [Hin | [k [Hk Hh]]].
      * destruct (header_of header key) as [h'|] eqn:Hkey; [|auto].
        apply dict_set_keys in Hin as [-> | Hin]; [|auto].
        right. exists key. split; [apply list_elem_of_here | exact Hkey].
      * right. exists k. split; [apply list_elem_of_further, Hk | exact Hh].
    + intros [Hin | [k [Hk Hh]]].
      * left. destruct (header_of header key); [|exact Hin].
        apply dict_set_keys. auto.
      * apply elem_of_cons in Hk as [-> | Hk].
        -- left. rewrite Hh. apply dict_set_keys. auto.
        -- right. exists k. auto.
Qed.

Lemma mapped_headers_spec request df h :
  h ∈ mapped_headers request df
  <-> exists key, key ∈ dict_keys (SaveData.user_mapping request)
                  /\ header_of (columns df) key = Some h.
Proof.
  unfold mapped_headers, SaveData.select_mapped. rewrite select_fold_keys.
  split; [|auto]. intros [Hin | H]; [inversion Hin | exact H].
Qed.

(** C5.  The log of file 1 lists no unmatched header; the file has the
    headers "runs" and "shirt" and two rows, and the user maps "runs" to
    "Total Runs".  Whatever the seed, the correction is committed and
    leaves in the log: the header "runs" as matched, where the canonical
    field of the mapping is "Total Runs"; and no unmatched header at all,
    although "shirt" is a header of the file that the mapping does not
    map.  The list with "shirt" is built and assigned, but it equals the
    loaded list that the appends have extended, so nothing is written.
    The same request for the same file without a log stores the canonical
    field as matched. *)
Theorem merge_keeps_headers_and_loses_unmatched (seed : HashSeed) :
  log_after seed runs_request runs_csv clean_db
  = Ok (Some (SaveData.mkLog 1 (Some [LStr "runs"]) (Some []) (Some [])
                             (Some 2%Z) (Some "accepted")))
  /\ map LStr (dict_values (SaveData.user_mapping runs_request)) = [LStr "Total Runs"]
  /\ extended [] [LStr "runs"; LStr "shirt"] [LStr "runs"] = [LStr "shirt"]
  /\ log_after seed runs_request runs_csv upload_db
     = Ok (Some (SaveData.mkLog 1 (Some [LStr "Total Runs"]) (Some []) None
                                (Some 2%Z) (Some "accepted"))).
Proof.
  split; [|split; [reflexivity|split; [reflexivity|]]].
  - rewrite (save_submit_merge seed runs_request runs_csv clean_db
               (mkFrame [LStr "runs"; LStr "shirt"] [[PInt 412; PInt 9]; [PStr "-"; PInt 7]])
               (with_entities clean_db
                  [(SaveData.mkPlayer 1 1 (PStr "Unknown") 0 0,
                    SaveData.mkBatting 1 412 float_zero (PStr "0") 0 0,
                    SaveData.mkBowling 1 0 0 (PStr "0/0"));
                   (SaveData.mkPlayer 2 1 (PStr "Unknown") 0 0,
                    SaveData.mkBatting 2 0 float_zero (PStr "0") 0 0,
                    SaveData.mkBowling 2 0 0 (PStr "0/0"))])
               2%Z []
               (SaveData.mkLog 1 (Some []) (Some []) (Some []) (Some 2%Z) (Some "Rejected"))
               []);
      [|reflexivity|vm_compute; reflexivity|reflexivity|reflexivity|reflexivity].
    do 3 f_equal. unfold merged_unmatched.
    assert (extended [] (columns (mkFrame [LStr "runs"; LStr "shirt"]
                                          [[PInt 412; PInt 9]; [PStr "-"; PInt 7]]))
                     (mapped_headers runs_request
                        (mkFrame [LStr "runs"; LStr "shirt"]
                                 [[PInt 412; PInt 9]; [PStr "-"; PInt 7]]))
            = [LStr "shirt"]) as -> by reflexivity.
    rewrite (list_of_set_one seed (LStr "shirt")).
    + rewrite bool_decide_eq_true_2 by reflexivity. reflexivity.
    + intros y. apply list_elem_of_singleton.
  - rewrite (save_submit_create seed runs_request runs_csv upload_db
               (mkFrame [LStr "runs"; LStr "shirt"] [[PInt 412; PInt 9]; [PStr "-"; PInt 7]])
               (with_entities upload_db
                  [(SaveData.mkPlayer 1 1 (PStr "Unknown") 0 0,
                    SaveData.mkBatting 1 412 float_zero (PStr "0") 0 0,
                    SaveData.mkBowling 1 0 0 (PStr "0/0"));
                   (SaveData.mkPlayer 2 1 (PStr "Unknown") 0 0,
                    SaveData.mkBatting 2 0 float_zero (PStr "0") 0 0,
                    SaveData.mkBowling 2 0 0 (PStr "0/0"))])
               2%Z []);
      [|reflexivity|vm_compute; reflexivity|reflexivity|reflexivity|reflexivity].
    unfold SaveData.create_log. cbn [map is_nil].
    rewrite (list_of_set_nil seed). reflexivity.
Qed.

(** C6.  After a correction against a file identifier that has a log,
    whether the request was committed or failed and was rolled back, every
    header the log listed as unmatched is still listed, including a header
    that the new mapping maps. *)
Theorem correction_keeps_prior_unmatched seed request f db file_log x :
  SaveData.file_processing_log db !! SaveData.file_id request = Some file_log ->
  x ∈ unmatched_of file_log ->
  exists log',
    SaveData.file_processing_log (db_after seed request f db) !! SaveData.file_id request
    = Some log'
    /\ x ∈ unmatched_of log'.
Proof.
  intros Hlog Hx. unfold db_after.
  destruct (SaveData.save_submit_columns_data seed request f db) as [db'|e] eqn:Hsave;
    [|exists file_log; auto].
  destruct (SaveData.log_unmatched_columns file_log) as [prior|] eqn:Hprior.
  - destruct (save_submit_inv _ _ _ _ _ Hsave) as [df [db1 [total [missing [Hread Hrows]]]]].
    pose proof (save_submit_total _ _ _ _ _ _ _ _ _ Hsave Hread Hrows) as Htotal.
    pose proof (save_submit_merge seed _ _ _ _ _ _ _ _ _ Hread Hrows Htotal Hlog Hprior)
      as Hafter.
    unfold log_after in Hafter. rewrite Hsave, exc_bind_ok in Hafter.
    injection Hafter as Hafter. eexists. split; [exact Hafter|].
    unfold unmatched_of in *. rewrite Hprior in Hx. cbn [SaveData.log_unmatched_columns].
    cbn [default]. apply merged_unmatched_prior, Hx.
  - unfold unmatched_of in Hx. rewrite Hprior in Hx. inversion Hx.
Qed.

Lemma correction_keeps_prior_unmatched_witness :
  SaveData.save_submit_columns_data first_seed runs_request runs_csv runs_db
  = Ok (db_after first_seed runs_request runs_csv runs_db)
  /\ LStr "runs" ∈ mapped_headers runs_request
                     (mkFrame [LStr "runs"; LStr "shirt"]
                              [[PInt 412; PInt 9]; [PStr "-"; PInt 7]])
  /\ exists log',
      SaveData.file_processing_log (db_after first_seed runs_request runs_csv runs_db) !! 1%Z
      = Some log'
      /\ LStr "runs" ∈ unmatched_of log'.
Proof.
  split; [vm_compute; reflexivity|].
  split; [vm_compute; apply list_elem_of_here|].
  apply (correction_keeps_prior_unmatched first_seed runs_request runs_csv runs_db runs_log
           (LStr "runs")).
  - reflexivity.
  - apply list_elem_of_here.
Defined.

(** ** The rows of a correction *)

Lemma rows_ok_with_entities db xs x : rows_ok (with_entities db xs) x = rows_ok db x.
Proof. reflexivity. Qed.

(** The three inserts for one row, when they go through. *)
Lemma insert_entities_inv fid mapped_row db db' :
  SaveData.insert_entities fid mapped_row db = Ok db' ->
  exists x,
    entities_of fid (Z.of_nat (length (SaveData.player db)) + 1) mapped_row = Ok x
    /\ rows_ok db x = true
    /\ db' = with_entities db [x].
Proof.
  unfold SaveData.insert_entities. intros H.
  apply bind_Ok in H as [m [Hm H]]. apply bind_Ok in H as [i [Hi H]].
  apply bind_Ok in H as [u1 [Hp H]]. apply bind_Ok in H as [runs [Hruns H]].
  apply bind_Ok in H as [avg [Havg H]]. apply bind_Ok in H as [hs [Hhs H]].
  apply bind_Ok in H as [c [Hc H]]. apply bind_Ok in H as [hc [Hhc H]].
  apply bind_Ok in H as [w [Hw H]]. apply bind_Ok in H as [fw [Hfw H]].
  apply bind_Ok in H as [bb [Hbb H]]. apply bind_Ok in H as [u2 [Hbw H]].
  injection H as <-. apply accepted_Ok in Hp, Hbw.
  eexists. split; [|split].
  - unfold entities_of.
    rewrite Hm, exc_bind_ok, Hi, exc_bind_ok, Hruns, exc_bind_ok, Havg, exc_bind_ok,
      Hhs, exc_bind_ok, Hc, exc_bind_ok, Hhc, exc_bind_ok, Hw, exc_bind_ok,
      Hfw, exc_bind_ok, Hbb, exc_bind_ok.
    reflexivity.
  - unfold rows_ok. cbn [fst snd]. rewrite Hp. exact Hbw.
  - reflexivity.
Qed.

Lemma with_entities_app db x xs :
  with_entities (with_entities db [x]) xs = with_entities db (x :: xs).
Proof.
  unfold with_entities.
  cbn [SaveData.file_upload SaveData.file_processing_log SaveData.player SaveData.batting
       SaveData.bowling map].
  rewrite <- !app_assoc. reflexivity.
Qed.

Lemma with_entities_nil db : with_entities db [] = db.
Proof. destruct db. unfold with_entities. cbn. rewrite !app_nil_r. reflexivity. Qed.

(** The row loop, when it goes through, as the rows it adds. *)
Lemma insert_fold_inv fid targets records db total missing db1 total1 missing1 :
  fold_left (SaveData.insert_step fid targets) records (Ok (db, total, missing))
  = Ok (db1, total1, missing1) ->
  exists xs,
    entities_from fid targets records (Z.of_nat (length (SaveData.player db)) + 1) = Ok xs
    /\ forallb (rows_ok db) xs = true
    /\ db1 = with_entities db xs
    /\ total1 = (total + Z.of_nat (length records))%Z
    /\ missing1
       = missing ++ concat (map (fun row => snd (SaveData.map_row targets row)) records).
Proof.
  revert db total missing.
  induction records as [|row records IH]; intros db total missing; cbn [fold_left].
  - intros [= <- <- <-]. exists []. cbn.
    rewrite with_entities_nil, Z.add_0_r, app_nil_r. auto.
  - destruct (SaveData.insert_step fid targets (Ok (db, total, missing)) row)
      as [[[db2 total2] missing2]|e] eqn:Hstep;
      [|rewrite insert_rows_raise; discriminate].
    unfold SaveData.insert_step in Hstep. rewrite exc_bind_ok in Hstep.
    destruct (SaveData.map_row targets row) as [mapped_row miss] eqn:Hrow.
    apply bind_Ok in Hstep as [db2' [Hent Hstep]]. injection Hstep as <- <- <-.
    apply insert_entities_inv in Hent as [x [Hx [Hok ->]]].
    intros Hfold. apply IH in Hfold as [xs [Hxs [Hoks [-> [-> ->]]]]].
    exists (x :: xs). cbn [entities_from]. rewrite Hrow. cbn [fst snd].
    rewrite Hx, exc_bind_ok.
    replace (Z.of_nat (length (SaveData.player db)) + 1 + 1)%Z
      with (Z.of_nat (length (SaveData.player (with_entities db [x]))) + 1)%Z
      by (cbn; rewrite length_app; cbn; lia).
    rewrite Hxs, exc_bind_ok. split; [reflexivity|]. split.
    + cbn [forallb]. rewrite Hok. exact Hoks.
    + split; [apply with_entities_app|]. split.
      * cbn [length]. lia.
      * cbn [map concat]. rewrite Hrow. cbn [snd]. rewrite <- app_assoc. reflexivity.
Qed.

(** A correction that is committed, as the rows and the log it adds. *)
Lemma save_submit_rows seed request f db db' :
  SaveData.save_submit_columns_data seed request f db = Ok db' ->
  exists df records xs log',
    SaveData.read_source request f = Ok df
    /\ SaveData.canonical_records (SaveData.user_mapping request) df = Ok records
    /\ entities_from (SaveData.file_id request)
                     (dict_values (SaveData.user_mapping request)) records
                     (Z.of_nat (length (SaveData.player db)) + 1) = Ok xs
    /\ forallb (rows_ok db) xs = true
    /\ db' = SaveData.mkDb (SaveData.file_upload db)
                           (<[SaveData.file_id request := log']>
                              (SaveData.file_processing_log db))
                           (SaveData.player db ++ map (fun x => fst (fst x)) xs)
                           (SaveData.batting db ++ map (fun x => snd (fst x)) xs)
                           (SaveData.bowling db ++ map snd xs)
    /\ SaveData.log_total_records log' = Some (Z.of_nat (length records))
    /\ match SaveData.file_processing_log db !! SaveData.file_id request with
       | None =>
           SaveData.uploaded (SaveData.file_id request) db = true
           /\ log' = SaveData.create_log
                       seed (SaveData.file_id request)
                       (dict_values (SaveData.user_mapping request))
                       (concat (map (fun row =>
                                       snd (SaveData.map_row
                                              (dict_values (SaveData.user_mapping request))
                                              row))
                                    records))
                       (Z.of_nat (length records))
       | Some file_log =>
           SaveData.merge_log seed file_log (columns df)
                              (snd (SaveData.select_mapped (SaveData.user_mapping request)
                                                           (columns df)))
                              (Z.of_nat (length records))
           = Ok log'
       end.
Proof.
  unfold SaveData.save_submit_columns_data. cbv zeta.
  destruct (SaveData.read_source request f) as [df|e]; [|discriminate].
  rewrite exc_bind_ok.
  destruct (SaveData.select_mapped (SaveData.user_mapping request) (columns df))
    as [mtc nm] eqn:Hsel.
  destruct (SaveData.canonical_records _ df) as [records|e] eqn:Hrec; [|discriminate].
  rewrite exc_bind_ok. unfold SaveData.insert_rows.
  destruct (fold_left _ records _) as [[[db1 total] missing]|e] eqn:Hfold; [|discriminate].
  apply insert_fold_inv in Hfold as [xs [Hxs [Hoks [-> [-> ->]]]]].
  rewrite exc_bind_ok. cbn [with_entities SaveData.file_processing_log].
  rewrite Z.add_0_l, app_nil_l.
  destruct (SaveData.file_processing_log db !! SaveData.file_id request) as [file_log|].
  - destruct (SaveData.merge_log seed file_log (columns df) nm _) as [log'|e] eqn:Hmerge;
      [|discriminate].
    rewrite exc_bind_ok. destruct (FileModel.accepted _) as [[]|e]; [|discriminate].
    rewrite exc_bind_ok. intros [= <-]. exists df, records, xs, log'.
    split; [reflexivity|]. split; [exact Hrec|]. split; [exact Hxs|]. split; [exact Hoks|].
    split; [reflexivity|]. split; [|rewrite Hsel; exact Hmerge].
    unfold SaveData.merge_log in Hmerge.
    apply bind_Ok in Hmerge as [temp [_ Hmerge]].
    apply bind_Ok in Hmerge as [un [_ Hmerge]]. injection Hmerge as <-. reflexivity.
  - destruct (FileModel.accepted _) as [[]|e] eqn:Hacc; [|discriminate].
    apply accepted_Ok, andb_true_iff in Hacc as [Hup _].
    rewrite exc_bind_ok. intros [= <-]. eexists df, records, xs, _.
    split; [reflexivity|]. split; [exact Hrec|]. split; [exact Hxs|]. split; [exact Hoks|].
    split; [reflexivity|]. split; [reflexivity|]. split; [exact Hup | reflexivity].
Qed.







(** The second row of the file has the text "-" in the column mapped to
    "Total Runs": its batting row holds 0 runs. *)
Example dash_is_stored_as_zero :
  SaveData.batting (db_after first_seed runs_request runs_csv upload_db)
  = [SaveData.mkBatting 1 412 float_zero (PStr "0") 0 0;
     SaveData.mkBatting 2 0 float_zero (PStr "0") 0 0].
Proof. vm_compute. reflexivity. Qed.

(** ** Trimming and cutting lines *)

Section Trimming.
Variable space : ascii -> bool.
Implicit Types (l k v : list ascii) (c : ascii).

Lemma lstrip_elem l c : c ∈ lstrip_chars space l -> c ∈ l.
Proof.
  induction l as [|a l IH]; simpl; [auto|].
  destruct (space a); [|auto]. intros Hin. apply list_elem_of_further, IH, Hin.
Qed.

Lemma rstrip_elem l c : c ∈ rstrip_chars space l -> c ∈ l.
Proof.
  unfold rstrip_chars. intros Hin.
  apply list_elem_of_In, in_rev, list_elem_of_In, lstrip_elem in Hin.
  apply list_elem_of_In, in_rev, list_elem_of_In, Hin.
Qed.

Lemma lstrip_spaces l : forallb space l = true -> lstrip_chars space l = [].
Proof.
  induction l as [|a l IH]; simpl; [reflexivity|].
  intros Hall. apply andb_true_iff in Hall as [Ha Hl]. rewrite Ha. exact (IH Hl).
Qed.

Lemma lstrip_app k c v :
  space c = false -> lstrip_chars space (k ++ c :: v) = lstrip_chars space k ++ c :: v.
Proof.
  intros Hc. induction k as [|a k IH]; simpl.
  - rewrite Hc. reflexivity.
  - destruct (space a); [exact IH | reflexivity].
Qed.

Lemma rstrip_app k c v :
  space c = false -> rstrip_chars space (k ++ c :: v) = k ++ c :: rstrip_chars space v.
Proof.
  intros Hc. unfold rstrip_chars.
  rewrite rev_app_distr. simpl. rewrite <- app_assoc. simpl.
  rewrite (lstrip_app _ _ _ Hc), rev_app_distr. simpl.
  rewrite rev_involutive, <- app_assoc. reflexivity.
Qed.

Lemma rstrip_spaces l : forallb space l = true -> rstrip_chars space l = [].
Proof.
  intros Hall. unfold rstrip_chars. rewrite lstrip_spaces; [reflexivity|].
  rewrite forallb_forall in *. intros x Hx. apply Hall, in_rev, Hx.
Qed.

(** A text is blank, or has a first character that is not a blank. *)
Lemma first_non_space l :
  forallb space l = true
  \/ exists a c b, l = a ++ c :: b /\ forallb space a = true /\ space c = false.
Proof.
  induction l as [|x l IH]; [left; reflexivity|].
  destruct (space x) eqn:Hx.
  - destruct IH as [Hall | [a [c [b [-> [Ha Hc]]]]]].
    + left. simpl. rewrite Hx. exact Hall.
    + right. exists (x :: a), c, b. simpl. rewrite Hx. auto.
  - right. exists [], x, l. auto.
Qed.

Lemma lstrip_idem l :
  lstrip_chars space (lstrip_chars space l) = lstrip_chars space l.
Proof.
  destruct (first_non_space l) as [Hall | [a [c [b [-> [Ha Hc]]]]]].
  - rewrite (lstrip_spaces _ Hall). reflexivity.
  - rewrite (lstrip_app _ _ _ Hc), (lstrip_spaces _ Ha). simpl. rewrite Hc. reflexivity.
Qed.

Lemma rstrip_idem l :
  rstrip_chars space (rstrip_chars space l) = rstrip_chars space l.
Proof. unfold rstrip_chars. rewrite rev_involutive, lstrip_idem. reflexivity. Qed.

Lemma lstrip_rstrip l :
  lstrip_chars space (rstrip_chars space l) = rstrip_chars space (lstrip_chars space l).
Proof.
  destruct (first_non_space l) as [Hall | [a [c [b [-> [Ha Hc]]]]]].
  - rewrite (lstrip_spaces _ Hall), (rstrip_spaces _ Hall). reflexivity.
  - rewrite (rstrip_app _ _ _ Hc), !(lstrip_app _ _ _ Hc), (lstrip_spaces _ Ha).
    rewrite (rstrip_app [] _ _ Hc). reflexivity.
Qed.

Lemma strip_lstrip l :
  strip_chars space (lstrip_chars space l) = strip_chars space l.
Proof. unfold strip_chars. rewrite lstrip_idem. reflexivity. Qed.

Lemma strip_rstrip l :
  strip_chars space (rstrip_chars space l) = strip_chars space l.
Proof. unfold strip_chars. rewrite lstrip_rstrip, rstrip_idem. reflexivity. Qed.
End Trimming.

Lemma split_first_None c l : split_first c l = None <-> c ∉ l.
Proof.
  induction l as [|x l IH]; simpl.
  - split; [intros _ Hin; inversion Hin | reflexivity].
  - destruct (Ascii.eqb_spec x c) as [->|Hne].
    + split; [discriminate|]. intros Hnot. exfalso. apply Hnot, list_elem_of_here.
    + destruct (split_first c l) as [[a b]|].
      * split; [discriminate|]. intros Hnot. exfalso.
        assert (c ∉ l) as Hl by (intros Hin; apply Hnot, list_elem_of_further, Hin).
        apply IH in Hl. discriminate.
      * split; [|reflexivity]. intros _. rewrite elem_of_cons.
        intros [?|Hin]; [congruence|]. destruct IH as [IH _]. exact (IH eq_refl Hin).
Qed.

Lemma split_first_Some c l k v :
  split_first c l = Some (k, v) -> l = k ++ c :: v /\ c ∉ k.
Proof.
  revert k. induction l as [|x l IH]; intros k; simpl; [discriminate|].
  destruct (Ascii.eqb_spec x c) as [->|Hne].
  - intros [= <- <-]. split; [reflexivity | intros Hin; inversion Hin].
  - destruct (split_first c l) as [[a b]|]; [|discriminate].
    intros [= <- <-]. destruct (IH a eq_refl) as [-> Hnot]. split; [reflexivity|].
    rewrite elem_of_cons. intros [?|?]; [congruence | contradiction].
Qed.

Lemma split_first_app c k v : c ∉ k -> split_first c (k ++ c :: v) = Some (k, v).
Proof.
  induction k as [|x k IH]; simpl; intros Hnot.
  - rewrite Ascii.eqb_refl. reflexivity.
  - destruct (Ascii.eqb_spec x c) as [->|Hne].
    + exfalso. apply Hnot, list_elem_of_here.
    + rewrite IH; [reflexivity|]. intros Hin. apply Hnot, list_elem_of_further, Hin.
Qed.

Lemma chars_text l : chars (text l) = l.
Proof. apply list_ascii_of_string_of_list_ascii. Qed.

Lemma colon_not_space : is_space colon = false.
Proof. reflexivity. Qed.

(** Trimming a line before cutting it at the first ':' changes neither
    the trimmed label nor the trimmed value. *)
Lemma kv_line_strip st line :
  FileParser.kv_line st (strip line) = FileParser.kv_line st line.
Proof.
  unfold FileParser.kv_line, strip. rewrite chars_text.
  destruct (split_first colon (chars line)) as [[k v]|] eqn:Hcut.
  - apply split_first_Some in Hcut as [-> Hk].
    unfold strip_chars at 1.
    rewrite (lstrip_app _ _ _ _ colon_not_space), (rstrip_app _ _ _ _ colon_not_space).
    rewrite split_first_app by (intros Hin; apply Hk; eapply lstrip_elem, Hin).
    rewrite !chars_text, strip_lstrip, strip_rstrip. reflexivity.
  - apply split_first_None in Hcut.
    assert (split_first colon (strip_chars is_space (chars line)) = None) as ->;
      [|reflexivity].
    apply split_first_None. intros Hin. apply Hcut.
    unfold strip_chars in Hin. eapply lstrip_elem, rstrip_elem, Hin.
Qed.

Lemma nonempty_strip_false st line :
  nonempty (strip line) = false -> FileParser.kv_line st line = st.
Proof.
  intros Hblank. rewrite <- kv_line_strip.
  destruct (strip line); [reflexivity | discriminate].
Qed.

Lemma docx_paragraph_is_kv_line st para :
  FileParser.docx_paragraph st para = FileParser.kv_line st para.
Proof.
  unfold FileParser.docx_paragraph.
  destruct (nonempty (strip para)) eqn:Hne.
  - apply kv_line_strip.
  - symmetry. apply nonempty_strip_false, Hne.
Qed.

(** ** The extractor against the design *)

Lemma kv_line_agrees st sp line :
  blocks_agree st sp ->
  blocks_agree (FileParser.kv_line st line) (block_line sp line).
Proof.
  intros [Hplayers [Hopen Hseen]].
  unfold FileParser.kv_line, block_line.
  destruct (split_first colon (chars line)) as [[k v]|]; [|repeat split; auto; apply Hseen].
  set (label := strip (text k)). set (value := strip (text v)).
  unfold FileParser.kv_pair.
  destruct (nonempty label && nonempty value); [|repeat split; auto; apply Hseen].
  cbn [andb]. unfold mem.
  destruct (bool_decide (label ∈ seen sp)) eqn:Hdup.
  - apply bool_decide_eq_true_1 in Hdup.
    rewrite bool_decide_eq_true_2 by (apply Hseen, Hdup).
    split; [|split]; cbn.
    + rewrite Hplayers, Hopen. reflexivity.
    + reflexivity.
    + intros x. rewrite list_elem_of_singleton, (right_id_L ∅ (∪)), elem_of_singleton.
      reflexivity.
  - apply bool_decide_eq_false_1 in Hdup.
    rewrite bool_decide_eq_false_2 by (rewrite Hseen; exact Hdup).
    split; [|split]; cbn.
    + exact Hplayers.
    + rewrite Hopen. reflexivity.
    + intros x. rewrite elem_of_cons, elem_of_union, elem_of_singleton, Hseen.
      reflexivity.
Qed.

Lemma kv_fold_agrees lines st sp :
  blocks_agree st sp ->
  blocks_agree (fold_left FileParser.kv_line lines st) (fold_left block_line lines sp).
Proof.
  revert st sp. induction lines as [|line lines IH]; intros st sp Hagree; simpl;
    [exact Hagree|].
  apply IH, kv_line_agrees, Hagree.
Qed.

Lemma kv_init_agrees : blocks_agree FileParser.kv_init (mkBlocks [] [] []).
Proof. split; [|split]; try reflexivity. intros k. set_solver. Qed.

Lemma kv_finish_agrees st sp :
  blocks_agree st sp ->
  FileParser.kv_finish st
  = match open_record sp with
    | [] => emitted sp
    | _ :: _ => emitted sp ++ [open_record sp]
    end.
Proof.
  intros [Hplayers [Hopen _]]. unfold FileParser.kv_finish.
  rewrite Hplayers, Hopen. reflexivity.
Qed.

Lemma docx_fold_is_kv_fold paragraphs st :
  fold_left FileParser.docx_paragraph paragraphs st
  = fold_left FileParser.kv_line paragraphs st.
Proof.
  revert st. induction paragraphs as [|para paragraphs IH]; intros st; simpl;
    [reflexivity|].
  rewrite docx_paragraph_is_kv_line. apply IH.
Qed.

(** The DOCX extractor is the extractor of the design, over the
    paragraphs of the document. *)
Lemma docx_blocks_follow_design paragraphs :
  FileParser.docx_blocks paragraphs = key_value_blocks paragraphs.
Proof.
  unfold FileParser.docx_blocks, key_value_blocks.
  rewrite docx_fold_is_kv_fold.
  apply kv_finish_agrees, kv_fold_agrees, kv_init_agrees.
Qed.

(** So is the PDF extractor on a document of one page, over its lines. *)
Lemma pdf_single_page_follows_design page :
  FileParser.pdf_blocks [page] = key_value_blocks (split_lines page).
Proof.
  unfold FileParser.pdf_blocks, key_value_blocks. cbn [fold_left].
  apply kv_finish_agrees. unfold FileParser.pdf_page.
  apply kv_fold_agrees, kv_init_agrees.
Qed.

(** Without a separator in any line there is no block. *)
Lemma no_separator_no_block lines :
  Forall (fun line => split_first colon (chars line) = None) lines ->
  key_value_blocks lines = [].
Proof.
  intros Hall. unfold key_value_blocks.
  assert (fold_left block_line lines (mkBlocks [] [] []) = mkBlocks [] [] []) as ->;
    [|reflexivity].
  generalize (mkBlocks [] [] []).
  induction Hall as [|line lines Hline _ IH]; intros sp; simpl; [reflexivity|].
  unfold block_line at 2. rewrite Hline. apply IH.
Qed.

(** ** Further facts about the passes *)

(** The answer of the completion service has no influence on a pass. *)
Lemma process_tabular_ignores_service svc1 svc2 f :
  FileProcessing.process_tabular svc1 f = FileProcessing.process_tabular svc2 f.
Proof.
  unfold FileProcessing.process_tabular.
  destruct (FileProcessing.read_table f) as [df|e]; [|reflexivity].
  rewrite !exc_bind_ok, !resolve_is_fuzzy. reflexivity.
Qed.

Lemma process_document_ignores_service svc1 svc2 f :
  FileProcessing.process_document svc1 f = FileProcessing.process_document svc2 f.
Proof.
  unfold FileProcessing.process_document.
  destruct (nonempty (file_path f)); [|reflexivity].
  rewrite !exc_bind_ok.
  destruct (frame_empty (FileProcessing.extract_document f)); [reflexivity|].
  rewrite !resolve_is_fuzzy. reflexivity.
Qed.

(** Whenever a document that loads gives no row, the analysis raises. *)
Lemma empty_document_raises svc f :
  nonempty (file_path f) = true ->
  load_file f = Ok () ->
  frame_empty (FileProcessing.extract_document f) = true ->
  FileAnalyzer.as_document svc f = Raise ValueError.
Proof.
  intros Hpath Hload Hempty. unfold FileAnalyzer.as_document.
  rewrite Hload, exc_bind_ok, (process_document_empty svc f Hpath Hempty).
  reflexivity.
Qed.

(** A DOCX document without a separator gives no row. *)
Lemma separator_free_docx_is_empty f paragraphs :
  docx_paragraphs f = Ok paragraphs ->
  Forall (fun line => split_first colon (chars line) = None) paragraphs ->
  FileParser.extract_key_value_from_docx f = empty_frame.
Proof.
  intros Hdoc Hall. unfold FileParser.extract_key_value_from_docx.
  rewrite Hdoc, docx_blocks_follow_design, (no_separator_no_block _ Hall).
  reflexivity.
Qed.


(** The end-to-end scenario of the design: three mapped headers are fewer
    than six, so the three rows are rejected. *)
Example three_headers_rejected :
  summary_of (FileProcessing.process_tabular
                (FileProcessing.ServiceRaises (ServiceFailure "unavailable"))
                three_headers_csv)
  = FileProcessing.mkSummary
      "uploaded_files/three.csv" 3 0 3
      (FileProcessing.AsDict
         [("p_name", "Player Name"); ("runs", "Total Runs"); ("mat", "Matches")])
      [] "Rejected".
Proof. vm_compute. reflexivity. Qed.

(** ** The work list of [get_matching_blocks] empties within its fuel *)

Section MatchingBlocks.
Variables a b : list ascii.

Lemma dict_get_bounded (d : list (nat * nat)) (bound j : nat) :
  Forall (fun v => (v <= bound)%nat) (dict_values d) ->
  (default 0%nat (dict_get j d) <= bound)%nat.
Proof.
  intros Hall. destruct (dict_get j d) as [v|] eqn:Hget; simpl; [|lia].
  apply dict_get_values in Hget. rewrite Forall_forall in Hall. apply Hall, Hget.
Qed.

Lemma dict_set_bounded (d : list (nat * nat)) (bound j k : nat) :
  (k <= bound)%nat ->
  Forall (fun v => (v <= bound)%nat) (dict_values d) ->
  Forall (fun v => (v <= bound)%nat) (dict_values (dict_set j k d)).
Proof.
  intros Hk Hall. rewrite Forall_forall in *. intros v Hv.
  apply dict_set_values in Hv as [-> | Hv]; [exact Hk | apply Hall, Hv].
Qed.

Lemma scan_js_within js i alo ahi blo bhi j2len newj2len best :
  (alo <= i)%nat -> (i < ahi)%nat ->
  Forall (fun v => (v <= i - alo)%nat) (dict_values j2len) ->
  Forall (fun v => (v <= i - alo + 1)%nat) (dict_values newj2len) ->
  block_within alo ahi best ->
  Forall (fun v => (v <= i - alo + 1)%nat)
         (dict_values (fst (Difflib.scan_js js i blo bhi j2len newj2len best)))
  /\ block_within alo ahi (snd (Difflib.scan_js js i blo bhi j2len newj2len best)).
Proof.
  intros Hlo Hhi Hold. revert newj2len best.
  induction js as [|j js IH]; intros newj2len best Hnew Hbest; simpl; [auto|].
  destruct (j <? blo)%nat; [apply IH; assumption|].
  destruct (bhi <=? j)%nat; [auto|].
  set (prev := match j with O => 0%nat | S j' => default 0%nat (dict_get j' j2len) end).
  assert (prev <= i - alo)%nat as Hprev.
  { unfold prev. destruct j as [|j']; [lia | apply dict_get_bounded, Hold]. }
  destruct best as [[bi bj] bk].
  apply IH.
  - apply dict_set_bounded; [lia | exact Hnew].
  - destruct (bk <? prev + 1)%nat; [|exact Hbest].
    unfold block_within. lia.
Qed.

Lemma scan_is_fold_within n i alo ahi blo bhi (st : list (nat * nat) * Difflib.Match) :
  (alo <= i)%nat -> (i + n <= ahi)%nat ->
  Forall (fun v => (v <= i - alo)%nat) (dict_values (fst st)) ->
  block_within alo ahi (snd st) ->
  block_within alo ahi
    (snd (fold_left
            (fun (st : list (nat * nat) * Difflib.Match) (i : nat) =>
               match nth_error a i with
               | Some c => Difflib.scan_js (Difflib.b2j b c) i blo bhi (fst st) [] (snd st)
               | None => ([], snd st)
               end)
            (seq i n) st)).
Proof.
  revert i st. induction n as [|n IH]; intros i st Hlo Hhi Hvals Hbest; simpl;
    [exact Hbest|].
  apply IH; try lia.
  - destruct (nth_error a i) as [c|]; [|constructor].
    destruct (scan_js_within (Difflib.b2j b c) i alo ahi blo bhi (fst st) [] (snd st))
      as [Hv _]; try assumption; try lia; [constructor|].
    eapply Forall_impl; [exact Hv|]. intros v Hle. simpl in Hle. lia.
  - destruct (nth_error a i) as [c|]; [|exact Hbest].
    apply scan_js_within; try assumption; try lia. constructor.
Qed.

Lemma extend_left_within fuel alo ahi blo m :
  block_within alo ahi m ->
  block_within alo ahi (Difflib.extend_left fuel a b alo blo m).
Proof.
  revert m. induction fuel as [|fuel IH]; intros [[bi bj] bk] Hm; simpl; [exact Hm|].
  destruct ((alo <? bi) && (blo <? bj))%nat eqn:Hcond; [|exact Hm].
  apply andb_true_iff in Hcond as [Hbi _]. apply Nat.ltb_lt in Hbi.
  destruct (nth_error a (bi - 1)) as [x|]; [|exact Hm].
  destruct (nth_error b (bj - 1)) as [y|]; [|exact Hm].
  destruct (Ascii.eqb x y); [|exact Hm].
  apply IH. unfold block_within in *. lia.
Qed.

Lemma extend_right_within fuel alo ahi bhi m :
  block_within alo ahi m ->
  block_within alo ahi (Difflib.extend_right fuel a b ahi bhi m).
Proof.
  revert m. induction fuel as [|fuel IH]; intros [[bi bj] bk] Hm; simpl; [exact Hm|].
  destruct ((bi + bk <? ahi) && (bj + bk <? bhi))%nat eqn:Hcond; [|exact Hm].
  apply andb_true_iff in Hcond as [Hbi _]. apply Nat.ltb_lt in Hbi.
  destruct (nth_error a (bi + bk)) as [x|]; [|exact Hm].
  destruct (nth_error b (bj + bk)) as [y|]; [|exact Hm].
  destruct (Ascii.eqb x y); [|exact Hm].
  apply IH. unfold block_within in *. lia.
Qed.

(** The longest block found in a range lies within the range. *)
Lemma find_longest_match_within alo ahi blo bhi :
  (alo <= ahi)%nat ->
  block_within alo ahi (Difflib.find_longest_match a b alo ahi blo bhi).
Proof.
  intros Hrange. unfold Difflib.find_longest_match.
  apply extend_right_within, extend_left_within.
  unfold Difflib.scan_is. apply scan_is_fold_within; simpl; try lia.
  constructor.
Qed.

Lemma queue_rounds_cons alo ahi blo bhi queue :
  queue_rounds ((alo, ahi, blo, bhi) :: queue)
  = (2 * (ahi - alo) + 1 + queue_rounds queue)%nat.
Proof. reflexivity. Qed.

(** With enough fuel for the ranges in the list, more fuel changes
    nothing: the loop has emptied the list. *)
Lemma matching_loop_fuel fuel fuel' queue blocks :
  Forall range_ok queue ->
  (queue_rounds queue <= fuel)%nat ->
  (queue_rounds queue <= fuel')%nat ->
  Difflib.matching_loop fuel a b queue blocks
  = Difflib.matching_loop fuel' a b queue blocks.
Proof.
  revert fuel' queue blocks.
  induction fuel as [|fuel IH]; intros fuel' queue blocks Hok Hfuel Hfuel'.
  - destruct queue as [|[[[alo ahi] blo] bhi] queue];
      [destruct fuel'; reflexivity|].
    rewrite queue_rounds_cons in Hfuel. lia.
  - destruct queue as [|[[[alo ahi] blo] bhi] queue];
      [destruct fuel'; reflexivity|].
    rewrite queue_rounds_cons in Hfuel, Hfuel'.
    destruct fuel' as [|fuel']; [lia|].
    inversion Hok as [|? ? Hrange Hrest]; subst.
    cbn [Difflib.matching_loop].
    pose proof (find_longest_match_within alo ahi blo bhi Hrange) as Hin.
    destruct (Difflib.find_longest_match a b alo ahi blo bhi) as [[i j] k].
    unfold block_within in Hin. destruct Hin as [Hi Hk].
    destruct k as [|k'].
    + apply IH; [exact Hrest | lia | lia].
    + set (k := S k') in *.
      set (q1 := if ((alo <? i) && (blo <? j))%nat then (alo, i, blo, j) :: queue
                 else queue).
      set (q2 := if ((i + k <? ahi) && (j + k <? bhi))%nat
                 then ((i + k)%nat, ahi, (j + k)%nat, bhi) :: q1 else q1).
      assert (Forall range_ok q1
              /\ (queue_rounds q1 <= 2 * (i - alo) + 1 + queue_rounds queue)%nat)
        as [Hok1 Hr1].
      { unfold q1. destruct ((alo <? i) && (blo <? j))%nat.
        - split; [constructor; [exact Hi | exact Hrest]|].
          rewrite queue_rounds_cons. lia.
        - split; [exact Hrest | lia]. }
      assert (Forall range_ok q2
              /\ (queue_rounds q2 + 1 <= 2 * (ahi - alo) + 1 + queue_rounds queue)%nat)
        as [Hok2 Hrounds].
      { unfold q2. destruct ((i + k <? ahi) && (j + k <? bhi))%nat.
        - split; [constructor; [exact Hk | exact Hok1]|].
          rewrite queue_rounds_cons. subst k. lia.
        - split; [exact Hok1|]. subst k. lia. }
      apply IH; [exact Hok2 | lia | lia].
Qed.

(** The fuel given by [matching_blocks] is enough. *)
Lemma matching_blocks_fuel extra :
  Difflib.matching_loop (2 * length a + 1 + extra) a b
                        [(0%nat, length a, 0%nat, length b)] []
  = Difflib.matching_blocks a b.
Proof.
  unfold Difflib.matching_blocks. apply matching_loop_fuel.
  - constructor; [simpl; lia | constructor].
  - rewrite queue_rounds_cons. unfold queue_rounds. simpl. lia.
  - rewrite queue_rounds_cons. unfold queue_rounds. simpl. lia.
Qed.
End MatchingBlocks.

(** * Further properties of the code *)

(** ** Key-value documents: what comes out, and what goes in and comes out *)

Lemma text_chars s : text (chars s) = s.
Proof. apply string_of_list_ascii_of_string. Qed.

Lemma chars_app s t : chars (s ++ t) = chars s ++ chars t.
Proof.
  unfold chars. induction s as [|c s IH]; simpl; [reflexivity|].
  rewrite IH. reflexivity.
Qed.

Lemma strip_chars_idem space l :
  strip_chars space (strip_chars space l) = strip_chars space l.
Proof. unfold strip_chars at 2. rewrite strip_rstrip, strip_lstrip. reflexivity. Qed.

Lemma strip_idem s : strip (strip s) = strip s.
Proof. unfold strip. rewrite chars_text, strip_chars_idem. reflexivity. Qed.

Lemma strip_elem c s : c ∈ chars (strip s) -> c ∈ chars s.
Proof.
  unfold strip. rewrite chars_text. unfold strip_chars. intros Hin.
  eapply lstrip_elem, rstrip_elem, Hin.
Qed.

Lemma contains_char_spec c s : contains_char c s = true <-> c ∈ chars s.
Proof.
  unfold contains_char. rewrite existsb_exists. split.
  - intros [x [Hin Heq]]. apply Ascii.eqb_eq in Heq. subst. apply list_elem_of_In, Hin.
  - intros Hin. exists c. split; [apply list_elem_of_In, Hin | apply Ascii.eqb_refl].
Qed.

Lemma nonempty_chars s : nonempty s = true <-> chars s <> [].
Proof. destruct s; simpl; split; congruence. Qed.

(** The label and the value cut out of a line are well formed as soon as
    neither is empty. *)
Lemma cut_pair_ok k v :
  colon ∉ k ->
  nonempty (strip (text k)) && nonempty (strip (text v)) = true ->
  pair_ok (strip (text k), strip (text v)) = true.
Proof.
  intros Hk Hne. apply andb_true_iff in Hne as [Hnk Hnv].
  unfold pair_ok, label_ok, trimmed. cbn [fst snd].
  rewrite Hnk, Hnv, !strip_idem, !bool_decide_eq_true_2 by reflexivity. cbn [andb].
  rewrite andb_true_r. apply negb_true_iff, not_true_is_false. rewrite contains_char_spec.
  intros Hin. apply strip_elem in Hin. rewrite chars_text in Hin. exact (Hk Hin).
Qed.

Lemma dict_set_Forall {K V} `{EqDecision K} (P : K * V -> bool) (k : K) (v : V) d :
  P (k, v) = true -> forallb P d = true -> forallb P (dict_set k v d) = true.
Proof.
  intros Hkv. induction d as [|[k' v'] d IH]; simpl; [rewrite Hkv; reflexivity|].
  intros Hall. apply andb_true_iff in Hall as [Hhd Htl].
  destruct (decide (k = k')); simpl.
  - rewrite Hkv, Htl. reflexivity.
  - rewrite Hhd, (IH Htl). reflexivity.
Qed.

Lemma forallb_snoc {A} (P : A -> bool) l x :
  forallb P (l ++ [x]) = forallb P l && P x.
Proof. rewrite forallb_app. simpl. rewrite andb_true_r. reflexivity. Qed.

Lemma kv_wf_init : kv_wf FileParser.kv_init.
Proof.
  split; [reflexivity|]. split; [constructor|]. split; [reflexivity|].
  intros H. contradiction.
Qed.

Lemma kv_pair_wf st key value :
  (nonempty key && nonempty value = true -> pair_ok (key, value) = true) ->
  kv_wf st -> kv_wf (FileParser.kv_pair st key value).
Proof.
  intros Hok [Hplayers [Hnodup [Hpairs Hopen]]]. unfold FileParser.kv_pair.
  destruct (nonempty key && nonempty value) eqn:Hne; cbn [andb];
    [|split; [|split; [|split]]; assumption].
  specialize (Hok eq_refl).
  destruct (bool_decide (key ∈ FileParser.duplicate_keys st)) eqn:Hdup;
    unfold kv_wf;
    cbn [FileParser.players FileParser.player_data FileParser.duplicate_keys].
  - apply bool_decide_eq_true_1 in Hdup.
    assert (FileParser.player_data st <> []) as Hdata
        by (apply Hopen; intros Hempty; rewrite Hempty in Hdup; set_solver).
    split; [|split; [|split]].
    + rewrite forallb_snoc, Hplayers. cbn [andb]. unfold record_ok.
      rewrite Hpairs, (bool_decide_eq_true_2 _ Hnodup).
      destruct (FileParser.player_data st); [contradiction | reflexivity].
    + apply NoDup_singleton.
    + cbn. rewrite Hok. reflexivity.
    + intros _. discriminate.
  - split; [|split; [|split]].
    + exact Hplayers.
    + apply dict_set_NoDup, Hnodup.
    + apply dict_set_Forall; assumption.
    + intros _. apply dict_set_nonempty.
Qed.

Lemma kv_line_wf st line : kv_wf st -> kv_wf (FileParser.kv_line st line).
Proof.
  intros Hst. unfold FileParser.kv_line.
  destruct (split_first colon (chars line)) as [[k v]|] eqn:Hcut; [|exact Hst].
  apply split_first_Some in Hcut as [_ Hk].
  apply kv_pair_wf; [|exact Hst]. apply cut_pair_ok, Hk.
Qed.

Lemma kv_fold_wf {A} (step : FileParser.KvState -> A -> FileParser.KvState) l st :
  (forall s x, kv_wf s -> kv_wf (step s x)) ->
  kv_wf st -> kv_wf (fold_left step l st).
Proof.
  intros Hstep. revert st. induction l as [|x l IH]; intros st Hst; simpl; [exact Hst|].
  apply IH, Hstep, Hst.
Qed.

Lemma pdf_page_wf st page : kv_wf st -> kv_wf (FileParser.pdf_page st page).
Proof.
  intros [Hplayers [Hnodup [Hpairs Hopen]]]. unfold FileParser.pdf_page.
  apply kv_fold_wf; [apply kv_line_wf|].
  split; [|split; [|split]]; cbn; try assumption. intros H. contradiction.
Qed.

Lemma kv_finish_wf st : kv_wf st -> forallb record_ok (FileParser.kv_finish st) = true.
Proof.
  intros [Hplayers [Hnodup [Hpairs _]]]. unfold FileParser.kv_finish.
  destruct (FileParser.player_data st) as [|kv r] eqn:Hdata; [exact Hplayers|].
  rewrite forallb_snoc, Hplayers. cbn [andb]. unfold record_ok.
  rewrite Hpairs, (bool_decide_eq_true_2 _ Hnodup). reflexivity.
Qed.

(** X1.  Every block either extractor emits is well formed: it is not
    empty, no label occurs twice in it, and every label and value is
    non-empty and stripped, the label holding no colon. *)
Theorem extracted_blocks_are_well_formed (paragraphs pages : list string) :
  forallb record_ok (FileParser.docx_blocks paragraphs) = true
  /\ forallb record_ok (FileParser.pdf_blocks pages) = true.
Proof.
  split.
  - unfold FileParser.docx_blocks. rewrite docx_fold_is_kv_fold.
    apply kv_finish_wf, kv_fold_wf; [apply kv_line_wf | apply kv_wf_init].
  - unfold FileParser.pdf_blocks.
    apply kv_finish_wf, kv_fold_wf; [apply pdf_page_wf | apply kv_wf_init].
Qed.


(** X2.  A PDF of one page is read as the DOCX document whose paragraphs
    are the lines of that page: the two extractors cut the same blocks and
    return the same frame. *)
Theorem one_page_pdf_reads_as_docx (pdf_path docx_path page : string) :
  FileParser.pdf_blocks [page] = FileParser.docx_blocks (split_lines page)
  /\ FileParser.extract_key_value_from_pdf (pdf_file pdf_path [page])
     = FileParser.extract_key_value_from_docx (docx_file docx_path (split_lines page)).
Proof.
  assert (FileParser.pdf_blocks [page] = FileParser.docx_blocks (split_lines page)) as Heq.
  { unfold FileParser.pdf_blocks, FileParser.docx_blocks.
    rewrite docx_fold_is_kv_fold. reflexivity. }
  split; [exact Heq|].
  unfold FileParser.extract_key_value_from_pdf, FileParser.extract_key_value_from_docx.
  cbn [pdf_pages docx_paragraphs pdf_file docx_file]. rewrite Heq. reflexivity.
Qed.

(** *** Reading back a document that lists well-formed blocks *)

Lemma trimmed_spec s : trimmed s = true -> nonempty s = true /\ strip s = s.
Proof.
  unfold trimmed. intros H. apply andb_true_iff in H as [Hne Hs].
  split; [exact Hne | exact (bool_decide_eq_true_1 _ Hs)].
Qed.

Lemma kv_line_render st k v :
  pair_ok (k, v) = true ->
  FileParser.kv_line st (render_pair (k, v)) = FileParser.kv_pair st k v.
Proof.
  unfold pair_ok, label_ok. cbn [fst snd]. intros Hok.
  apply andb_true_iff in Hok as [Hk Hv]. apply andb_true_iff in Hk as [Hk Hcolon].
  apply trimmed_spec in Hk as [_ Hk]. apply trimmed_spec in Hv as [_ Hv].
  apply negb_true_iff in Hcolon.
  assert (colon ∉ chars k) as Hnot
      by (rewrite <- contains_char_spec, Hcolon; discriminate).
  unfold FileParser.kv_line, render_pair. cbn [fst snd].
  rewrite !chars_app. change (chars ": ") with [colon; " "%char]. cbn [app].
  rewrite (split_first_app _ _ _ Hnot), text_chars, Hk.
  assert (strip (text (" "%char :: chars v)) = strip v) as ->.
  { unfold strip. rewrite chars_text. reflexivity. }
  rewrite Hv. reflexivity.
Qed.

Lemma pair_ok_nonempty k v :
  pair_ok (k, v) = true -> nonempty k && nonempty v = true.
Proof.
  unfold pair_ok, label_ok. cbn [fst snd]. intros Hok.
  apply andb_true_iff in Hok as [Hk Hv]. apply andb_true_iff in Hk as [Hk _].
  apply trimmed_spec in Hk as [-> _]. apply trimmed_spec in Hv as [-> _]. reflexivity.
Qed.

(** What the state is after a pair whose label is new to the open block,
    and after one whose label the open block has. *)
Lemma kv_pair_new st k v :
  pair_ok (k, v) = true ->
  k ∉ FileParser.duplicate_keys st ->
  k ∉ dict_keys (FileParser.player_data st) ->
  FileParser.players (FileParser.kv_pair st k v) = FileParser.players st
  /\ FileParser.player_data (FileParser.kv_pair st k v)
     = FileParser.player_data st ++ [(k, v)]
  /\ FileParser.duplicate_keys (FileParser.kv_pair st k v)
     = {[ k ]} ∪ FileParser.duplicate_keys st.
Proof.
  intros Hok Hdup Hkeys. unfold FileParser.kv_pair.
  rewrite (pair_ok_nonempty _ _ Hok), (bool_decide_eq_false_2 _ Hdup). cbn.
  rewrite (dict_set_keys_fresh _ _ _ Hkeys). auto.
Qed.

Lemma kv_pair_again st k v :
  pair_ok (k, v) = true ->
  k ∈ FileParser.duplicate_keys st ->
  FileParser.players (FileParser.kv_pair st k v)
  = FileParser.players st ++ [FileParser.player_data st]
  /\ FileParser.player_data (FileParser.kv_pair st k v) = [(k, v)]
  /\ FileParser.duplicate_keys (FileParser.kv_pair st k v) = {[ k ]} ∪ ∅.
Proof.
  intros Hok Hdup. unfold FileParser.kv_pair.
  rewrite (pair_ok_nonempty _ _ Hok), (bool_decide_eq_true_2 _ Hdup). cbn. auto.
Qed.

(** The pairs of one block, none of whose labels the open block has, are
    added to the open block in order. *)
Lemma kv_fill r st :
  NoDup (dict_keys r) ->
  forallb pair_ok r = true ->
  (forall k, k ∈ dict_keys r -> k ∉ dict_keys (FileParser.player_data st)) ->
  (forall k, k ∈ FileParser.duplicate_keys st
             <-> k ∈ dict_keys (FileParser.player_data st)) ->
  let st' := fold_left FileParser.kv_line (map render_pair r) st in
  FileParser.players st' = FileParser.players st
  /\ FileParser.player_data st' = FileParser.player_data st ++ r
  /\ (forall k, k ∈ FileParser.duplicate_keys st'
                <-> k ∈ dict_keys (FileParser.player_data st')).
Proof.
  revert st. induction r as [|[k v] r IH]; intros st Hnodup Hpairs Hfresh Hagree; cbn zeta.
  - simpl. rewrite app_nil_r. auto.
  - cbn [map fold_left]. cbn [forallb] in Hpairs.
    apply andb_true_iff in Hpairs as [Hkv Hpairs].
    cbn [dict_keys map fst] in Hnodup. apply NoDup_cons in Hnodup as [Hk Hnodup].
    rewrite (kv_line_render _ _ _ Hkv).
    assert (k ∉ dict_keys (FileParser.player_data st)) as Hknew
        by (apply Hfresh; cbn; apply list_elem_of_here).
    assert (k ∉ FileParser.duplicate_keys st) as Hkdup by (rewrite Hagree; exact Hknew).
    destruct (kv_pair_new st k v Hkv Hkdup Hknew) as [Hp [Hd Hs]].
    destruct (IH (FileParser.kv_pair st k v) Hnodup Hpairs) as [Hp' [Hd' Hs']].
    + intros x Hx. rewrite Hd. unfold dict_keys. rewrite map_app, elem_of_app. cbn.
      intros [Hin | Hin].
      * apply (Hfresh x); [cbn; apply list_elem_of_further, Hx | exact Hin].
      * apply list_elem_of_singleton in Hin. subst x. exact (Hk Hx).
    + intros x. rewrite Hs, Hd. unfold dict_keys. rewrite map_app, elem_of_app. cbn.
      rewrite elem_of_union, elem_of_singleton, list_elem_of_singleton, Hagree.
      unfold dict_keys. tauto.
    + rewrite Hp', Hd', Hp, Hd, <- app_assoc. cbn [app].
      split; [reflexivity|]. split; [reflexivity|].
      intros x. rewrite Hs', Hd', Hd, <- app_assoc. reflexivity.
Qed.

Lemma record_ok_spec r :
  record_ok r = true -> r <> [] /\ NoDup (dict_keys r) /\ forallb pair_ok r = true.
Proof.
  unfold record_ok. intros H. apply andb_true_iff in H as [H Hpairs].
  apply andb_true_iff in H as [Hne Hnodup].
  split; [destruct r; [discriminate | discriminate]|].
  split; [exact (bool_decide_eq_true_1 _ Hnodup) | exact Hpairs].
Qed.

(** With block [r] open, the blocks [rs] that follow are cut where they
    were joined. *)
Lemma kv_records rs : forall st r,
  FileParser.player_data st = r ->
  (forall k, k ∈ FileParser.duplicate_keys st <-> k ∈ dict_keys r) ->
  record_ok r = true ->
  forallb record_ok rs = true ->
  separable (r :: rs) = true ->
  FileParser.kv_finish (fold_left FileParser.kv_line (render_records rs) st)
  = FileParser.players st ++ r :: rs.
Proof.
  induction rs as [|r2 rs IH]; intros st r Hdata Hagree Hr Hrs Hsep.
  - cbn. unfold FileParser.kv_finish. rewrite Hdata.
    apply record_ok_spec in Hr as [Hne _]. destruct r; [contradiction | reflexivity].
  - cbn [forallb] in Hrs. apply andb_true_iff in Hrs as [Hr2 Hrs].
    pose proof (record_ok_spec _ Hr2) as [Hne2 [Hnodup2 Hpairs2]].
    destruct r2 as [|[k v] r2']; [contradiction|].
    cbn [separable] in Hsep. apply andb_true_iff in Hsep as [Hk Hsep].
    unfold mem in Hk. apply bool_decide_eq_true_1 in Hk.
    unfold render_records. cbn [map concat]. rewrite fold_left_app. cbn [map fold_left].
    cbn [forallb] in Hpairs2. apply andb_true_iff in Hpairs2 as [Hkv Hpairs2].
    cbn [dict_keys map fst] in Hnodup2. apply NoDup_cons in Hnodup2 as [Hknew Hnodup2].
    rewrite (kv_line_render _ _ _ Hkv).
    assert (k ∈ FileParser.duplicate_keys st) as Hkdup by (rewrite Hagree; exact Hk).
    destruct (kv_pair_again st k v Hkv Hkdup) as [Hp [Hd Hs]].
    destruct (kv_fill r2' (FileParser.kv_pair st k v) Hnodup2 Hpairs2) as [Hp' [Hd' Hs']].
    + intros x Hx. rewrite Hd. cbn. rewrite list_elem_of_singleton.
      intros ->. exact (Hknew Hx).
    + intros x. rewrite Hs, Hd. cbn.
      rewrite elem_of_union, elem_of_singleton, list_elem_of_singleton, elem_of_empty.
      tauto.
    + fold (render_records rs).
      rewrite (IH _ ((k, v) :: r2')).
      * rewrite Hp', Hp, Hdata, <- app_assoc. reflexivity.
      * rewrite Hd', Hd. reflexivity.
      * intros x. rewrite Hs', Hd', Hd. reflexivity.
      * exact Hr2.
      * exact Hrs.
      * exact Hsep.
Qed.

(** X3.  Round trip of the DOCX extractor: a document that lists
    well-formed blocks as label: value paragraphs, every block after the
    first opening with a label the block before it holds, is read back as
    exactly those blocks, and the frame returned is the frame of those
    blocks. *)
Theorem listed_blocks_are_read_back (path : string) (rs : list Record_) :
  forallb record_ok rs = true ->
  separable rs = true ->
  FileParser.docx_blocks (render_records rs) = rs
  /\ FileParser.extract_key_value_from_docx (docx_file path (render_records rs))
     = frame_of_records rs.
Proof.
  intros Hrs Hsep.
  assert (FileParser.docx_blocks (render_records rs) = rs) as Heq.
  { unfold FileParser.docx_blocks. rewrite docx_fold_is_kv_fold.
    destruct rs as [|r rs]; [reflexivity|].
    cbn [forallb] in Hrs. apply andb_true_iff in Hrs as [Hr Hrs].
    pose proof (record_ok_spec _ Hr) as [_ [Hnodup Hpairs]].
    unfold render_records. cbn [map concat]. rewrite fold_left_app.
    destruct (kv_fill r FileParser.kv_init Hnodup Hpairs) as [Hp [Hd Hs]].
    - intros x _ Hin. inversion Hin.
    - intros x. cbn. rewrite elem_of_empty, elem_of_nil. reflexivity.
    - fold (render_records rs). rewrite (kv_records rs _ r).
      + rewrite Hp. reflexivity.
      + exact Hd.
      + intros x. rewrite Hs, Hd. reflexivity.
      + exact Hr.
      + exact Hrs.
      + exact Hsep. }
  split; [exact Heq|].
  unfold FileParser.extract_key_value_from_docx. cbn [docx_paragraphs docx_file].
  rewrite Heq. reflexivity.
Qed.

Lemma listed_blocks_are_read_back_witness :
  FileParser.docx_blocks
    (render_records [[("Name", "A Sharma"); ("Time", "10:30")];
                     [("Name", "B Rao"); ("Runs", "412")]])
  = [[("Name", "A Sharma"); ("Time", "10:30")]; [("Name", "B Rao"); ("Runs", "412")]]
  /\ FileParser.extract_key_value_from_docx
       (docx_file "uploaded_files/squad.docx"
          (render_records [[("Name", "A Sharma"); ("Time", "10:30")];
                           [("Name", "B Rao"); ("Runs", "412")]]))
     = frame_of_records [[("Name", "A Sharma"); ("Time", "10:30")];
                         [("Name", "B Rao"); ("Runs", "412")]].
Proof.
  apply (listed_blocks_are_read_back "uploaded_files/squad.docx"
           [[("Name", "A Sharma"); ("Time", "10:30")]; [("Name", "B Rao"); ("Runs", "412")]]);
    vm_compute; reflexivity.
Defined.


(** ** The fuzzy matcher, header by header *)

Lemma fuzzy_step_target flat cutoff matched unmatched col :
  FileProcessing.fuzzy_step flat cutoff (Ok (matched, unmatched)) col
  = Ok (match fuzzy_target flat cutoff col with
        | Some c => (dict_set col c matched, unmatched)
        | None => (matched, unmatched ++ [col])
        end).
Proof.
  unfold FileProcessing.fuzzy_step, fuzzy_target, close_alias. simpl.
  destruct (Difflib.get_close_matches _ _ _) as [|m ms] eqn:Hm; [reflexivity|].
  assert (m ∈ dict_keys flat) as Hin.
  { eapply get_close_matches_elem. rewrite Hm. apply list_elem_of_here. }
  apply dict_get_keys in Hin as [field Hfield].
  unfold FileProcessing.dict_index. cbn [head]. rewrite Hfield. reflexivity.
Qed.

(** The two results of the loop, each as a function of the headers. *)
Lemma fuzzy_fold_spec flat cutoff headers matched unmatched :
  fold_left (FileProcessing.fuzzy_step flat cutoff) headers (Ok (matched, unmatched))
  = Ok (fold_left (fun d h => match fuzzy_target flat cutoff h with
                              | Some c => dict_set h c d
                              | None => d
                              end) headers matched,
        unmatched ++ List.filter (fun h => negb (has_target flat cutoff h)) headers).
Proof.
  revert matched unmatched.
  induction headers as [|h headers IH]; intros matched unmatched; cbn [fold_left List.filter].
  - rewrite app_nil_r. reflexivity.
  - rewrite fuzzy_step_target. unfold has_target.
    destruct (fuzzy_target flat cutoff h) as [c|]; cbn [negb]; rewrite IH.
    + reflexivity.
    + rewrite <- app_assoc. reflexivity.
Qed.

Lemma target_fold_get flat cutoff headers matched x :
  dict_get x (fold_left (fun d h => match fuzzy_target flat cutoff h with
                                    | Some c => dict_set h c d
                                    | None => d
                                    end) headers matched)
  = if mem x headers && has_target flat cutoff x
    then fuzzy_target flat cutoff x else dict_get x matched.
Proof.
  revert matched. induction headers as [|h headers IH]; intros matched; cbn [fold_left].
  - reflexivity.
  - rewrite IH. unfold mem, has_target.
    destruct (decide (x = h)) as [->|Hne].
    + rewrite (bool_decide_eq_true_2 (h ∈ h :: headers)) by apply list_elem_of_here.
      destruct (fuzzy_target flat cutoff h) as [c|] eqn:Hc.
      * rewrite andb_true_r, dict_get_set. destruct (decide (h = h)); [|congruence].
        destruct (bool_decide (h ∈ headers)); reflexivity.
      * rewrite !andb_false_r. reflexivity.
    + assert (bool_decide (x ∈ h :: headers) = bool_decide (x ∈ headers)) as ->.
      { apply bool_decide_ext. rewrite elem_of_cons. tauto. }
      destruct (bool_decide (x ∈ headers) && _); [reflexivity|].
      destruct (fuzzy_target flat cutoff h) as [c|]; [|reflexivity].
      rewrite dict_get_set. destruct (decide (x = h)); [congruence | reflexivity].
Qed.

Lemma target_fold_NoDup flat cutoff headers matched :
  NoDup (dict_keys matched) ->
  NoDup (dict_keys (fold_left (fun d h => match fuzzy_target flat cutoff h with
                                          | Some c => dict_set h c d
                                          | None => d
                                          end) headers matched)).
Proof.
  revert matched. induction headers as [|h headers IH]; intros matched Hm; cbn [fold_left];
    [exact Hm|].
  apply IH. destruct (fuzzy_target flat cutoff h); [apply dict_set_NoDup|]; exact Hm.
Qed.

(** What [fuzzy_match_columns] returns, header by header. *)
Lemma fuzzy_match_columns_spec flat cutoff headers :
  exists matched,
    FileProcessing.fuzzy_match_columns_with flat cutoff headers
    = Ok (matched, List.filter (fun h => negb (has_target flat cutoff h)) headers)
    /\ NoDup (dict_keys matched)
    /\ forall h, dict_get h matched
                 = if mem h headers then fuzzy_target flat cutoff h else None.
Proof.
  unfold FileProcessing.fuzzy_match_columns_with. rewrite fuzzy_fold_spec.
  eexists. split; [reflexivity|]. split.
  - apply target_fold_NoDup. constructor.
  - intros h. rewrite target_fold_get. unfold has_target.
    destruct (mem h headers); cbn [andb]; [|reflexivity].
    destruct (fuzzy_target flat cutoff h); reflexivity.
Qed.

Lemma has_target_keys flat cutoff headers matched h :
  (forall x, dict_get x matched
             = if mem x headers then fuzzy_target flat cutoff x else None) ->
  h ∈ dict_keys matched <-> h ∈ headers /\ has_target flat cutoff h = true.
Proof.
  intros Hget. unfold has_target. split.
  - intros Hin. apply dict_get_keys in Hin as [c Hc]. rewrite Hget in Hc.
    unfold mem in Hc. destruct (bool_decide (h ∈ headers)) eqn:Hh; [|discriminate].
    apply bool_decide_eq_true_1 in Hh. rewrite Hc. auto.
  - intros [Hin Hc]. destruct (fuzzy_target flat cutoff h) as [c|] eqn:Ht; [|discriminate].
    apply (dict_get_Some_keys _ c). rewrite Hget. unfold mem.
    rewrite (bool_decide_eq_true_2 _ Hin). exact Ht.
Qed.

Lemma elem_of_filter_bool {A} (p : A -> bool) (l : list A) x :
  x ∈ List.filter p l <-> x ∈ l /\ p x = true.
Proof. rewrite !list_elem_of_In. apply filter_In. Qed.

Lemma fuzzy_sorts_out flat cutoff headers :
  exists matched unmatched,
    FileProcessing.fuzzy_match_columns_with flat cutoff headers = Ok (matched, unmatched)
    /\ NoDup (dict_keys matched)
    /\ (forall h, h ∈ headers -> sorted_out h matched unmatched)
    /\ (forall h, h ∈ dict_keys matched \/ h ∈ unmatched -> h ∈ headers).
Proof.
  destruct (fuzzy_match_columns_spec flat cutoff headers) as [matched [Hrun [Hnodup Hget]]].
  exists matched, (List.filter (fun h => negb (has_target flat cutoff h)) headers).
  split; [exact Hrun|]. split; [exact Hnodup|]. split.
  - intros h Hin. unfold sorted_out.
    rewrite (has_target_keys _ _ _ _ h Hget), elem_of_filter_bool, negb_true_iff.
    destruct (has_target flat cutoff h); [left | right]; intuition congruence.
  - intros h. rewrite (has_target_keys _ _ _ _ h Hget), elem_of_filter_bool. tauto.
Qed.

(** X4.  The fuzzy matcher returns for every list of headers, puts every
    header in exactly one of its two results (matched or unmatched), puts
    nothing else there, and has no header twice among the matched keys. *)
Theorem fuzzy_matcher_sorts_every_header (headers : list string) :
  exists matched unmatched,
    FileProcessing.fuzzy_match_columns headers = Ok (matched, unmatched)
    /\ NoDup (dict_keys matched)
    /\ (forall h, h ∈ headers -> sorted_out h matched unmatched)
    /\ (forall h, h ∈ dict_keys matched \/ h ∈ unmatched -> h ∈ headers).
Proof. apply fuzzy_sorts_out. Qed.

Lemma get_close_matches_ratio word possibilities cutoff x :
  x ∈ Difflib.get_close_matches word possibilities cutoff ->
  Difflib.ratio_ge (Difflib.ratio (chars x) (chars word)) cutoff = true.
Proof.
  unfold Difflib.get_close_matches. intros Hin.
  apply list_elem_of_fmap in Hin as [[r y] [-> Hin]].
  apply nlargest1_elem in Hin. apply list_elem_of_In in Hin.
  apply in_flat_map in Hin as [z [Hz Hy]].
  destruct (_ && _) eqn:Htests; simpl in Hy; [|contradiction].
  destruct Hy as [Hy|[]]. injection Hy as _ <-.
  apply andb_true_iff in Htests as [_ Hratio]. exact Hratio.
Qed.

Lemma fuzzy_target_sound flat cutoff h c :
  fuzzy_target flat cutoff h = Some c ->
  exists alias,
    dict_get alias flat = Some c
    /\ Difflib.ratio_ge (Difflib.ratio (chars alias) (chars (lower h))) cutoff = true.
Proof.
  unfold fuzzy_target, close_alias.
  destruct (Difflib.get_close_matches _ _ _) as [|a l] eqn:Hclose; [discriminate|].
  cbn [head]. intros Ha. exists a. split; [exact Ha|].
  eapply get_close_matches_ratio. rewrite Hclose. apply list_elem_of_here.
Qed.

Lemma flat_map_fields alias c :
  dict_get alias FileProcessing.flat_map = Some c -> c ∈ FileParser.schema_fields.
Proof.
  intros Hget. apply dict_get_In in Hget.
  assert (forallb (fun kv : string * string => mem (snd kv) FileParser.schema_fields)
                  FileProcessing.flat_map = true) as Hall by (vm_compute; reflexivity).
  rewrite forallb_forall in Hall. apply list_elem_of_In, Hall in Hget.
  exact (bool_decide_eq_true_1 _ Hget).
Qed.

(** X5.  The fuzzy matcher maps a header only to a canonical field of the
    schema, and only when an alias of that field has a similarity ratio of
    at least 0.7 with the lower-cased header. *)
Theorem matched_header_resembles_alias
        (headers : list string) (matched : FileProcessing.Mapping)
        (unmatched : list string) (h c : string) :
  FileProcessing.fuzzy_match_columns headers = Ok (matched, unmatched) ->
  dict_get h matched = Some c ->
  h ∈ headers
  /\ c ∈ FileParser.schema_fields
  /\ exists alias,
      dict_get alias FileProcessing.flat_map = Some c /\ similar alias h = true.
Proof.
  intros Hrun Hget.
  destruct (fuzzy_match_columns_spec FileProcessing.flat_map (7, 10)%nat headers)
    as [matched' [Hrun' [_ Hspec]]].
  unfold FileProcessing.fuzzy_match_columns in Hrun. rewrite Hrun' in Hrun.
  injection Hrun as <- _. rewrite Hspec in Hget. unfold mem in Hget.
  destruct (bool_decide (h ∈ headers)) eqn:Hin; [|discriminate].
  apply bool_decide_eq_true_1 in Hin. split; [exact Hin|].
  destruct (fuzzy_target_sound _ _ _ _ Hget) as [alias [Halias Hratio]].
  split; [exact (flat_map_fields _ _ Halias)|].
  exists alias. split; [exact Halias | exact Hratio].
Qed.

Lemma matched_header_resembles_alias_witness :
  "Total_Run" ∈ ["Total_Run"; "shirt"]
  /\ "Total Runs" ∈ FileParser.schema_fields
  /\ exists alias,
      dict_get alias FileProcessing.flat_map = Some "Total Runs"
      /\ similar alias "Total_Run" = true.
Proof.
  apply (matched_header_resembles_alias ["Total_Run"; "shirt"]
           [("Total_Run", "Total Runs")] ["shirt"] "Total_Run" "Total Runs");
    vm_compute; reflexivity.
Defined.

Lemma aliases_match_themselves :
  forallb (fun a => bool_decide
                      (head (Difflib.get_close_matches a (dict_keys FileProcessing.flat_map)
                                                       (7, 10)%nat) = Some a))
          (dict_keys FileProcessing.flat_map) = true.
Proof. vm_compute. reflexivity. Qed.

(** X6.  A header that is, in any letter case, an alias of the schema is
    matched by the fuzzy matcher to the field of that alias and is not
    reported as unmatched. *)
Theorem alias_header_gets_its_field
        (headers : list string) (matched : FileProcessing.Mapping)
        (unmatched : list string) (h : string) :
  FileProcessing.fuzzy_match_columns headers = Ok (matched, unmatched) ->
  h ∈ headers ->
  lower h ∈ dict_keys FileProcessing.flat_map ->
  exists c, dict_get (lower h) FileProcessing.flat_map = Some c
            /\ dict_get h matched = Some c
            /\ h ∉ unmatched.
Proof.
  intros Hrun Hin Halias.
  destruct (fuzzy_match_columns_spec FileProcessing.flat_map (7, 10)%nat headers)
    as [matched' [Hrun' [_ Hspec]]].
  unfold FileProcessing.fuzzy_match_columns in Hrun. rewrite Hrun' in Hrun.
  injection Hrun as <- <-.
  pose proof aliases_match_themselves as Hself. rewrite forallb_forall in Hself.
  specialize (Hself (lower h) (proj1 (list_elem_of_In _ _) Halias)).
  apply bool_decide_eq_true_1 in Hself.
  destruct (dict_get_keys _ _ Halias) as [c Hc].
  assert (fuzzy_target FileProcessing.flat_map (7, 10)%nat h = Some c) as Ht.
  { unfold fuzzy_target, close_alias. rewrite Hself. exact Hc. }
  exists c. split; [exact Hc|]. split.
  - rewrite Hspec. unfold mem. rewrite (bool_decide_eq_true_2 _ Hin). exact Ht.
  - rewrite elem_of_filter_bool. unfold has_target. rewrite Ht.
    intros [_ Habs]. discriminate Habs.
Qed.

Lemma alias_header_gets_its_field_witness :
  exists c, dict_get (lower "P_Name") FileProcessing.flat_map = Some c
            /\ dict_get "P_Name" [("P_Name", "Player Name"); ("HS", "Highest Score")] = Some c
            /\ "P_Name" ∉ ["shirt"].
Proof.
  apply (alias_header_gets_its_field ["P_Name"; "shirt"; "HS"]
           [("P_Name", "Player Name"); ("HS", "Highest Score")] ["shirt"] "P_Name").
  - vm_compute. reflexivity.
  - apply list_elem_of_here.
  - apply (bool_decide_unpack _). vm_compute. exact I.
Defined.


(** ** Frames built from blocks *)

Section FirstSeen.
Context {K : Type} `{EqDecision K}.

Lemma first_seen_NoDup (keys acc : list K) : NoDup acc -> NoDup (first_seen keys acc).
Proof.
  revert acc. induction keys as [|k keys IH]; intros acc Hacc; [exact Hacc|].
  unfold first_seen in *. cbn [fold_left]. apply IH. unfold mem.
  destruct (bool_decide (k ∈ acc)) eqn:Hin; [exact Hacc|].
  apply bool_decide_eq_false_1 in Hin. apply NoDup_app. split; [exact Hacc|]. split.
  - intros x Hx Hx'. apply list_elem_of_singleton in Hx'. subst. contradiction.
  - apply NoDup_singleton.
Qed.

Lemma first_seen_elem (keys acc : list K) x :
  x ∈ first_seen keys acc <-> x ∈ acc \/ x ∈ keys.
Proof.
  revert acc. induction keys as [|k keys IH]; intros acc.
  - cbn. rewrite elem_of_nil. tauto.
  - unfold first_seen in *. cbn [fold_left]. rewrite IH, elem_of_cons. unfold mem.
    destruct (bool_decide (k ∈ acc)) eqn:Hin.
    + apply bool_decide_eq_true_1 in Hin. intuition (subst; auto).
    + rewrite elem_of_app, list_elem_of_singleton. tauto.
Qed.
End FirstSeen.

Lemma block_columns_NoDup (rs : list Record_) (acc : list string) :
  NoDup acc -> NoDup (fold_left (fun acc r => first_seen (dict_keys r) acc) rs acc).
Proof.
  revert acc. induction rs as [|r rs IH]; intros acc Hacc; cbn [fold_left]; [exact Hacc|].
  apply IH, first_seen_NoDup, Hacc.
Qed.

Lemma block_columns_elem (rs : list Record_) (acc : list string) x :
  x ∈ fold_left (fun acc r => first_seen (dict_keys r) acc) rs acc
  <-> x ∈ acc \/ exists r, r ∈ rs /\ x ∈ dict_keys r.
Proof.
  revert acc. induction rs as [|r rs IH]; intros acc; cbn [fold_left].
  - split; [auto|]. intros [Hin | [r [Hr _]]]; [exact Hin | inversion Hr].
  - rewrite IH, first_seen_elem. split.
    + intros [[Hin | Hin] | [r' [Hr' Hin]]]; [auto| |].
      * right. exists r. split; [apply list_elem_of_here | exact Hin].
      * right. exists r'. split; [apply list_elem_of_further, Hr' | exact Hin].
    + intros [Hin | [r' [Hr' Hin]]]; [auto|].
      apply elem_of_cons in Hr' as [-> | Hr']; [auto|].
      right. exists r'. auto.
Qed.

Lemma frame_of_records_lists (rs : list Record_) : frame_lists rs (frame_of_records rs).
Proof.
  unfold frame_lists, frame_of_records. cbn [columns data].
  match goal with
  | |- context [fold_left ?step rs []] => set (cols := fold_left step rs [])
  end.
  split; [|split; [|split]].
  - unfold well_formed. cbn [columns data]. rewrite forallb_forall. intros row Hrow.
    apply in_map_iff in Hrow as [r [<- _]]. rewrite length_map. apply Nat.eqb_refl.
  - apply block_columns_NoDup. constructor.
  - intros k. unfold cols. rewrite block_columns_elem, elem_of_nil. tauto.
  - generalize cols. intros cols'. induction rs as [|r rs IH]; cbn [map]; constructor;
      [|exact IH].
    intros i k Hk. rewrite list_lookup_fmap, Hk. reflexivity.
Qed.

(** X7.  The frame an extractor returns has one row per block it cut, in
    order, and one column per label that occurs in some block, each once;
    a cell holds the value of the block for that label, or NaN when the
    block lacks the label. *)
Theorem extracted_frame_lists_blocks (path : string) (paragraphs pages : list string) :
  frame_lists (FileParser.docx_blocks paragraphs)
              (FileParser.extract_key_value_from_docx (docx_file path paragraphs))
  /\ frame_lists (FileParser.pdf_blocks pages)
                 (FileParser.extract_key_value_from_pdf (pdf_file path pages)).
Proof. split; apply frame_of_records_lists. Qed.

Lemma empty_frame_regular {L} : well_formed (@empty_frame L) = true /\ NoDup (columns (@empty_frame L)).
Proof. split; [reflexivity | constructor]. Qed.

Lemma extract_document_regular f :
  well_formed (FileProcessing.extract_document f) = true
  /\ NoDup (columns (FileProcessing.extract_document f)).
Proof.
  unfold FileProcessing.extract_document, FileParser.extract_key_value_from_docx,
    FileParser.extract_key_value_from_pdf.
  destruct (ends_with ".docx" (file_path f)).
  - destruct (docx_paragraphs f); [|apply empty_frame_regular].
    destruct (frame_of_records_lists (FileParser.docx_blocks a)) as [Hwf [Hnodup _]]. auto.
  - destruct (pdf_pages f); [|apply empty_frame_regular].
    destruct (frame_of_records_lists (FileParser.pdf_blocks a)) as [Hwf [Hnodup _]]. auto.
Qed.

(** ** What a pass hands on *)

Section Projection.
Context {L : Type} `{EqDecision L}.

Lemma positions_from_absent (l : L) cols i : l ∉ cols -> positions_from l cols i = [].
Proof.
  revert i. induction cols as [|c cols IH]; intros i Hnot; cbn [positions_from];
    [reflexivity|].
  destruct (decide (c = l)) as [->|Hne].
  - exfalso. apply Hnot, list_elem_of_here.
  - apply IH. intros Hin. apply Hnot, list_elem_of_further, Hin.
Qed.

Lemma positions_from_once (l : L) cols i :
  NoDup cols -> l ∈ cols -> exists p, positions_from l cols i = [p].
Proof.
  revert i. induction cols as [|c cols IH]; intros i Hnodup Hin; [inversion Hin|].
  apply NoDup_cons in Hnodup as [Hc Hnodup]. cbn [positions_from].
  destruct (decide (c = l)) as [->|Hne].
  - rewrite (positions_from_absent _ _ _ Hc). eauto.
  - apply elem_of_cons in Hin as [->|Hin]; [congruence|]. apply IH; assumption.
Qed.

Lemma selected_columns_once (labels cols : list L) :
  NoDup cols -> (forall l, l ∈ labels -> l ∈ cols) ->
  selected_columns labels cols = labels.
Proof.
  intros Hnodup. induction labels as [|l labels IH]; intros Hall; [reflexivity|].
  unfold selected_columns in *. cbn [flat_map].
  destruct (positions_from_once l cols 0 Hnodup) as [p ->];
    [apply Hall, list_elem_of_here|].
  cbn [map app]. rewrite IH; [reflexivity|].
  intros x Hx. apply Hall, list_elem_of_further, Hx.
Qed.
End Projection.

Lemma filter_all {A} (p : A -> bool) (l : list A) :
  (forall x, x ∈ l -> p x = true) -> List.filter p l = l.
Proof.
  induction l as [|x l IH]; intros Hall; cbn [List.filter]; [reflexivity|].
  rewrite (Hall x) by apply list_elem_of_here. rewrite IH; [reflexivity|].
  intros y Hy. apply Hall, list_elem_of_further, Hy.
Qed.

(** The frame [summarize] hands on when every key of the mapping is a
    column and no column label occurs twice. *)
Lemma summarize_projection path df matched unmatched :
  NoDup (columns df) ->
  (forall h, h ∈ dict_keys matched -> h ∈ columns df) ->
  exists result md,
    FileProcessing.summarize path df matched unmatched
    = Ok (FileProcessing.Triple result md matched)
    /\ FileProcessing.summary_path result = path
    /\ FileProcessing.matched_columns result = FileProcessing.AsDict matched
    /\ FileProcessing.unmatched_columns result = unmatched
    /\ (matched = [] -> md = empty_frame)
    /\ (matched <> [] ->
        columns md = dict_keys matched /\ length (data md) = length (data df)).
Proof.
  intros Hnodup Hkeys.
  destruct (summarize_ok path df matched unmatched)
    as [result [md [Hsum [_ [Hpath [Hm Hu]]]]]].
  exists result, md. split; [exact Hsum|]. split; [exact Hpath|].
  split; [exact Hm|]. split; [exact Hu|].
  unfold FileProcessing.summarize in Hsum.
  rewrite filter_all in Hsum
    by (intros h Hh; apply bool_decide_eq_true_2, Hkeys, Hh).
  destruct matched as [|kv matched'].
  - rewrite exc_bind_ok in Hsum. injection Hsum as _ <-. split; [reflexivity | congruence].
  - split; [discriminate|]. intros _.
    destruct (frame_select (dict_keys (kv :: matched')) df) as [out|e] eqn:Hsel;
      [|discriminate Hsum].
    rewrite exc_bind_ok in Hsum. injection Hsum as _ <-.
    apply frame_select_inv in Hsel. subst out. cbn [columns data].
    rewrite (selected_columns_once _ _ Hnodup Hkeys), length_map. auto.
Qed.

Lemma pass_projection svc path df :
  NoDup (columns df) ->
  exists result md matched,
    ('(matched, unmatched) ← try_except
        (FileProcessing.generative_mapping FileProcessing.model svc (columns df))
        (FileProcessing.fuzzy_match_columns (columns df));
     FileProcessing.summarize path df matched unmatched)
    = Ok (FileProcessing.Triple result md matched)
    /\ FileProcessing.summary_path result = path
    /\ FileProcessing.matched_columns result = FileProcessing.AsDict matched
    /\ (forall h, h ∈ columns df ->
                  sorted_out h matched (FileProcessing.unmatched_columns result))
    /\ (matched = [] -> md = empty_frame)
    /\ (matched <> [] ->
        columns md = dict_keys matched /\ length (data md) = length (data df)).
Proof.
  intros Hnodup. rewrite resolve_is_fuzzy.
  destruct (fuzzy_sorts_out FileProcessing.flat_map (7, 10)%nat (columns df))
    as [matched [unmatched [Hrun [_ [Hsorted Hin]]]]].
  unfold FileProcessing.fuzzy_match_columns. rewrite Hrun, exc_bind_ok.
  destruct (summarize_projection path df matched unmatched Hnodup)
    as [result [md [Hsum [Hpath [Hm [Hu [Hnone Hsome]]]]]]]; [intros h Hh; apply Hin; auto|].
  exists result, md, matched. rewrite Hu. auto 10.
Qed.

(** X8.  For a table that is read and whose headers are distinct,
    process_tabular returns three values: a summary carrying the path it
    was given and the mapping as matched_columns, every header being
    either mapped or listed as unmatched; and a frame that has exactly the
    mapped headers as columns and as many rows as the table, or the empty
    frame when nothing is mapped. *)
Theorem tabular_pass_hands_on_mapped_columns svc f df :
  FileProcessing.read_table f = Ok df ->
  NoDup (columns df) ->
  exists result md matched,
    FileProcessing.process_tabular svc f = FileProcessing.Triple result md matched
    /\ FileProcessing.summary_path result = file_path f
    /\ FileProcessing.matched_columns result = FileProcessing.AsDict matched
    /\ (forall h, h ∈ columns df ->
                  sorted_out h matched (FileProcessing.unmatched_columns result))
    /\ (matched = [] -> md = empty_frame)
    /\ (matched <> [] ->
        columns md = dict_keys matched /\ length (data md) = length (data df)).
Proof.
  intros Hread Hnodup. unfold FileProcessing.process_tabular.
  rewrite Hread, exc_bind_ok.
  destruct (pass_projection svc (file_path f) df Hnodup)
    as [result [md [matched [-> Hrest]]]].
  exists result, md, matched. split; [reflexivity | exact Hrest].
Qed.

Lemma tabular_pass_hands_on_mapped_columns_witness :
  exists result md matched,
    FileProcessing.process_tabular FileProcessing.EmptyResponse batting_csv
    = FileProcessing.Triple result md matched
    /\ FileProcessing.summary_path result = file_path batting_csv
    /\ FileProcessing.matched_columns result = FileProcessing.AsDict matched
    /\ (forall h, h ∈ ["batsman"; "runs"] ->
                  sorted_out h matched (FileProcessing.unmatched_columns result))
    /\ (matched = [] -> md = empty_frame)
    /\ (matched <> [] ->
        columns md = dict_keys matched /\ length (data md) = 1%nat).
Proof.
  apply (tabular_pass_hands_on_mapped_columns FileProcessing.EmptyResponse batting_csv
           (mkFrame ["batsman"; "runs"] [[PStr "V Kohli"; PInt 8676]])).
  - reflexivity.
  - apply (bool_decide_unpack _). vm_compute. exact I.
Defined.

(** X9.  For a document in which an extractor finds at least one block,
    process_document returns three values: a summary carrying the path and
    the mapping, every label of the document being either mapped or listed
    as unmatched; and a frame with exactly the mapped labels as columns
    and one row per block, or the empty frame when nothing is mapped. *)
Theorem document_pass_hands_on_mapped_columns svc f :
  nonempty (file_path f) = true ->
  frame_empty (FileProcessing.extract_document f) = false ->
  exists result md matched,
    FileProcessing.process_document svc f = FileProcessing.Triple result md matched
    /\ FileProcessing.summary_path result = file_path f
    /\ FileProcessing.matched_columns result = FileProcessing.AsDict matched
    /\ (forall h, h ∈ columns (FileProcessing.extract_document f) ->
                  sorted_out h matched (FileProcessing.unmatched_columns result))
    /\ (matched = [] -> md = empty_frame)
    /\ (matched <> [] ->
        columns md = dict_keys matched
        /\ length (data md) = length (data (FileProcessing.extract_document f))).
Proof.
  intros Hpath Hrows. unfold FileProcessing.process_document.
  rewrite Hpath, exc_bind_ok, Hrows.
  destruct (extract_document_regular f) as [_ Hnodup].
  destruct (pass_projection svc (file_path f) _ Hnodup)
    as [result [md [matched [-> Hrest]]]].
  exists result, md, matched. split; [reflexivity | exact Hrest].
Qed.

Lemma document_pass_hands_on_mapped_columns_witness :
  exists result md matched,
    FileProcessing.process_document FileProcessing.EmptyResponse
      (docx_file "uploaded_files/squad.docx" ["Name: A Sharma"; "Shirt: 7"; "Name: B Rao"])
    = FileProcessing.Triple result md matched
    /\ FileProcessing.summary_path result = "uploaded_files/squad.docx"
    /\ FileProcessing.matched_columns result = FileProcessing.AsDict matched
    /\ (forall h, h ∈ ["Name"; "Shirt"] ->
                  sorted_out h matched (FileProcessing.unmatched_columns result))
    /\ (matched = [] -> md = empty_frame)
    /\ (matched <> [] ->
        columns md = dict_keys matched /\ length (data md) = 2%nat).
Proof.
  apply (document_pass_hands_on_mapped_columns FileProcessing.EmptyResponse
           (docx_file "uploaded_files/squad.docx"
                      ["Name: A Sharma"; "Shirt: 7"; "Name: B Rao"]));
    vm_compute; reflexivity.
Defined.


(** ** The analysis of tables *)

(** A pass over a table returns three values whatever happens, with the
    path it was given in the summary. *)
Lemma process_tabular_triple svc f :
  exists result md matched,
    FileProcessing.process_tabular svc f = FileProcessing.Triple result md matched
    /\ FileProcessing.summary_path result = file_path f.
Proof.
  unfold FileProcessing.process_tabular.
  destruct (FileProcessing.read_table f) as [df|e]; [|eexists _, _, _; split; reflexivity].
  rewrite exc_bind_ok, resolve_is_fuzzy.
  destruct (fuzzy_match_columns_ok (columns df)) as [matched [unmatched ->]].
  rewrite exc_bind_ok.
  destruct (summarize_ok (file_path f) df matched unmatched)
    as [result [md [-> [_ [Hpath _]]]]].
  exists result, md, matched. split; [reflexivity | exact Hpath].
Qed.

(** X10.  analyze_file never raises for a file detected as CSV: it returns
    a summary with the path of the file, and when the file cannot be read
    as a table it returns the rejected summary with an empty frame and an
    empty mapping. *)
Theorem csv_analysis_never_raises svc f mime :
  detected_type f = Ok (mime, "csv") ->
  exists result md matched,
    FileAnalyzer.analyze_file svc f = Ok (result, md, matched)
    /\ FileProcessing.summary_path result = file_path f
    /\ (forall e, FileProcessing.read_table f = Raise e ->
                  result = FileProcessing.rejected_summary (file_path f)
                  /\ md = empty_frame /\ matched = []).
Proof.
  intros Hdetect. unfold FileAnalyzer.analyze_file. rewrite Hdetect, exc_bind_ok.
  cbn [bool_decide decide_rel]. rewrite bool_decide_eq_true_2 by reflexivity.
  destruct (process_tabular_triple svc f) as [result [md [matched [Hpass Hpath]]]].
  rewrite Hpass. exists result, md, matched. split; [reflexivity|]. split; [exact Hpath|].
  intros e He. unfold FileProcessing.process_tabular in Hpass. rewrite He in Hpass.
  cbn in Hpass. injection Hpass as <- <- <-. auto.
Qed.

Lemma csv_analysis_never_raises_witness :
  exists result md matched,
    FileAnalyzer.analyze_file FileProcessing.EmptyResponse
      (mkFile "uploaded_files/torn.csv" (Ok ("text/csv", "csv")) (Raise ValueError)
              not_this_kind not_this_kind not_this_kind not_this_kind (Ok ()))
    = Ok (result, md, matched)
    /\ FileProcessing.summary_path result = "uploaded_files/torn.csv"
    /\ (forall e, @Raise (DataFrame string) ValueError = Raise e ->
                  result = FileProcessing.rejected_summary "uploaded_files/torn.csv"
                  /\ md = empty_frame /\ matched = []).
Proof.
  apply (csv_analysis_never_raises FileProcessing.EmptyResponse
           (mkFile "uploaded_files/torn.csv" (Ok ("text/csv", "csv")) (Raise ValueError)
                   not_this_kind not_this_kind not_this_kind not_this_kind (Ok ()))
           "text/csv").
  reflexivity.
Defined.

(** X11.  An XLSX file that pd.read_excel reads is analysed through its
    temporary CSV export: analyze_file returns what process_tabular gives
    for the export, so the summary carries the path
    temp_converted_from_excel.csv, not the path of the upload. *)
Theorem spreadsheet_is_analysed_as_its_export svc f mime df0 :
  detected_type f = Ok (mime, "xlsx") ->
  read_excel f = Ok df0 ->
  exists result md matched,
    FileAnalyzer.analyze_file svc f = Ok (result, md, matched)
    /\ FileProcessing.process_tabular svc (FileAnalyzer.temp_csv f)
       = FileProcessing.Triple result md matched
    /\ FileProcessing.summary_path result = "temp_converted_from_excel.csv".
Proof.
  intros Hdetect Hread. unfold FileAnalyzer.analyze_file.
  rewrite Hdetect, exc_bind_ok.
  rewrite bool_decide_eq_false_2 by discriminate.
  rewrite bool_decide_eq_true_2 by reflexivity.
  rewrite Hread, exc_bind_ok.
  destruct (process_tabular_triple svc (FileAnalyzer.temp_csv f))
    as [result [md [matched [Hpass Hpath]]]].
  rewrite Hpass. exists result, md, matched. auto.
Qed.

Lemma spreadsheet_is_analysed_as_its_export_witness :
  exists result md matched,
    FileAnalyzer.analyze_file FileProcessing.EmptyResponse
      (mkFile "uploaded_files/runs.xlsx"
              (Ok ("application/vnd.openxmlformats-officedocument.spreadsheetml.sheet",
                   "xlsx"))
              not_this_kind
              (Ok (mkFrame [LStr "runs"; LInt 2024] [[PInt 412; PInt 9]]))
              (Ok (mkFrame ["runs"; "2024"] [[PInt 412; PInt 9]]))
              not_this_kind not_this_kind (Ok ()))
    = Ok (result, md, matched)
    /\ FileProcessing.process_tabular FileProcessing.EmptyResponse
         (FileAnalyzer.temp_csv
            (mkFile "uploaded_files/runs.xlsx"
               (Ok ("application/vnd.openxmlformats-officedocument.spreadsheetml.sheet",
                    "xlsx"))
               not_this_kind
               (Ok (mkFrame [LStr "runs"; LInt 2024] [[PInt 412; PInt 9]]))
               (Ok (mkFrame ["runs"; "2024"] [[PInt 412; PInt 9]]))
               not_this_kind not_this_kind (Ok ())))
       = FileProcessing.Triple result md matched
    /\ FileProcessing.summary_path result = "temp_converted_from_excel.csv".
Proof.
  apply (spreadsheet_is_analysed_as_its_export FileProcessing.EmptyResponse
           (mkFile "uploaded_files/runs.xlsx"
              (Ok ("application/vnd.openxmlformats-officedocument.spreadsheetml.sheet",
                   "xlsx"))
              not_this_kind
              (Ok (mkFrame [LStr "runs"; LInt 2024] [[PInt 412; PInt 9]]))
              (Ok (mkFrame ["runs"; "2024"] [[PInt 412; PInt 9]]))
              not_this_kind not_this_kind (Ok ()))
           "application/vnd.openxmlformats-officedocument.spreadsheetml.sheet"
           (mkFrame [LStr "runs"; LInt 2024] [[PInt 412; PInt 9]]));
    reflexivity.
Defined.

(** ** Rejected uploads *)

Lemma merge_fold_raise (keys header : list Label) e :
  fold_left (fun (acc : Exc (option (list Label))) col =>
               t ← acc;
               if mem col keys then Ok t else SaveData.append_to t col)
            header (Raise e)
  = Raise e.
Proof. induction header as [|col header IH]; cbn [fold_left]; [reflexivity | exact IH]. Qed.

Lemma merge_fold_none (keys header : list Label) :
  fold_left (fun (acc : Exc (option (list Label))) col =>
               t ← acc;
               if mem col keys then Ok t else SaveData.append_to t col)
            header (Ok None)
  = Ok None
  \/ fold_left (fun (acc : Exc (option (list Label))) col =>
                  t ← acc;
                  if mem col keys then Ok t else SaveData.append_to t col)
               header (Ok None)
     = Raise AttributeError.
Proof.
  induction header as [|col header IH]; cbn [fold_left]; [left; reflexivity|].
  rewrite exc_bind_ok. destruct (mem col keys); [exact IH|].
  right. cbn [SaveData.append_to]. apply merge_fold_raise.
Qed.

(** A log without a list of unmatched columns cannot be merged into. *)
Lemma merge_log_without_list seed file_log header new_mapped total :
  SaveData.log_unmatched_columns file_log = None ->
  exists e, SaveData.merge_log seed file_log header new_mapped total = Raise e.
Proof.
  intros Hnone. unfold SaveData.merge_log. rewrite Hnone.
  destruct (merge_fold_none (dict_keys new_mapped) header) as [-> | ->].
  - rewrite exc_bind_ok. cbn. eauto.
  - cbn. eauto.
Qed.

Lemma correction_without_list seed request f db file_log :
  SaveData.file_processing_log db !! SaveData.file_id request = Some file_log ->
  SaveData.log_unmatched_columns file_log = None ->
  SaveData.save_submit_columns_data seed request f db = Raise (HTTPException 500).
Proof.
  intros Hlog Hnone. unfold SaveData.save_submit_columns_data. cbv zeta.
  destruct (SaveData.read_source request f) as [df|e]; [|reflexivity].
  rewrite exc_bind_ok.
  destruct (SaveData.select_mapped _ _) as [mtc nm].
  destruct (SaveData.canonical_records _ df) as [records|e]; [|reflexivity].
  rewrite exc_bind_ok.
  destruct (SaveData.insert_rows _ _ records db) as [[[db1 total] missing]|e] eqn:Hins;
    [|reflexivity].
  rewrite exc_bind_ok. destruct (insert_rows_log _ _ _ _ _ _ _ Hins) as [-> _].
  rewrite Hlog.
  destruct (merge_log_without_list seed file_log (columns df) nm total Hnone) as [e ->].
  reflexivity.
Qed.

Lemma add_upload_inv now name type st fid st1 :
  SaveUploads.add_upload now name type st = Ok (fid, st1) ->
  fid = (Z.of_nat (length (SaveUploads.file_upload st)) + 1)%Z
  /\ st1 = SaveUploads.mkStore
             (SaveUploads.mapped_data st)
             (SaveData.mkDb
                (SaveUploads.file_upload st ++ [FileModel.mkUpload fid name type now])
                (SaveData.file_processing_log (SaveUploads.statistics st))
                (SaveData.player (SaveUploads.statistics st))
                (SaveData.batting (SaveUploads.statistics st))
                (SaveData.bowling (SaveUploads.statistics st))).
Proof.
  unfold SaveUploads.add_upload. cbv zeta. destruct (_ && _); [|discriminate].
  intros [= <- <-]. auto.
Qed.

Lemma add_log_inv log st st2 :
  SaveUploads.add_log log st = Ok st2 ->
  SaveData.file_processing_log (SaveUploads.statistics st) !! SaveData.log_file_id log = None
  /\ st2 = SaveUploads.with_statistics st
             (SaveData.mkDb (SaveData.file_upload (SaveUploads.statistics st))
                            (<[SaveData.log_file_id log := log]>
                               (SaveData.file_processing_log (SaveUploads.statistics st)))
                            (SaveData.player (SaveUploads.statistics st))
                            (SaveData.batting (SaveUploads.statistics st))
                            (SaveData.bowling (SaveUploads.statistics st))).
Proof.
  unfold SaveUploads.add_log.
  destruct (_ !! _) as [old|] eqn:Hold; [discriminate|]. intros [= <-]. auto.
Qed.

(** What [save_rejected_files] leaves in the store. *)
Lemma save_rejected_files_inv now name st fid st' :
  SaveUploads.save_rejected_files now name st = Ok (fid, st') ->
  let type := if contains_char "."%char name
              then SaveUploads.last_piece name else "unknown" in
  let db := SaveUploads.statistics st in
  fid = (Z.of_nat (length (SaveUploads.file_upload st)) + 1)%Z
  /\ SaveData.file_processing_log db !! fid = None
  /\ st' = SaveUploads.mkStore
             (SaveUploads.mapped_data st)
             (SaveData.mkDb
                (SaveUploads.file_upload st
                   ++ [FileModel.mkUpload fid (SaveUploads.first_piece name) type now])
                (<[fid := SaveData.mkLog fid None None None None (Some "rejected")]>
                   (SaveData.file_processing_log db))
                (SaveData.player db) (SaveData.batting db) (SaveData.bowling db)).
Proof.
  unfold SaveUploads.save_rejected_files. cbv zeta. intros Hsave.
  apply bind_Ok in Hsave as [[fid1 st1] [Hup Hsave]].
  apply bind_Ok in Hsave as [st2 [Hlog Hsave]]. injection Hsave as <- <-.
  apply add_upload_inv in Hup as [Hfid ->].
  apply add_log_inv in Hlog as [Hfree ->].
  cbn in *. auto.
Qed.

(** X13.  A file recorded by save_rejected_files cannot be corrected: its
    log has no unmatched list, so every later save_submit_columns_data for
    its identifier fails with a 500, whatever the mapping and the file. *)
Theorem rejected_upload_cannot_be_corrected
        (now : Z) (name : string) (st st' : SaveUploads.Store) (fid : Z)
        (seed : HashSeed) (request : SaveData.ColumnMappingRequest) (f : File) :
  SaveUploads.save_rejected_files now name st = Ok (fid, st') ->
  SaveData.file_id request = fid ->
  SaveData.save_submit_columns_data seed request f (SaveUploads.statistics st')
  = Raise (HTTPException 500).
Proof.
  intros Hsave Hfid. apply save_rejected_files_inv in Hsave as [_ [_ ->]].
  cbn [SaveUploads.statistics].
  eapply correction_without_list.
  - cbn [SaveData.file_processing_log]. rewrite Hfid. apply lookup_insert_eq.
  - reflexivity.
Qed.

Lemma rejected_upload_cannot_be_corrected_witness :
  SaveData.save_submit_columns_data reverse_seed runs_request runs_csv
    (SaveData.mkDb [FileModel.mkUpload 1 "runs" "txt" 0]
                   {[ 1%Z := SaveData.mkLog 1 None None None None (Some "rejected") ]}
                   [] [] [])
  = Raise (HTTPException 500).
Proof.
  apply (rejected_upload_cannot_be_corrected 0 "runs.txt"
           (SaveUploads.mkStore [] (SaveData.mkDb [] ∅ [] [] []))
           (SaveUploads.mkStore
              []
              (SaveData.mkDb
                 [FileModel.mkUpload 1 "runs" "txt" 0]
                 {[ 1%Z := SaveData.mkLog 1 None None None None (Some "rejected") ]}
                 [] [] []))
           1 reverse_seed runs_request runs_csv);
    reflexivity.
Defined.

(** ** The endpoints *)

(** X14.  The submit-columns endpoint never returns a response: it awaits
    the dictionary a plain function returns, so it raises a 500 even when
    the correction has been committed; the statistics are then stored all
    the same and the uploads are untouched. *)
Theorem submit_columns_always_raises
        (seed : HashSeed) (request : SaveData.ColumnMappingRequest) (f : File)
        (st : SaveUploads.Store) :
  fst (Endpoints.submit_columns seed request f st) = Raise (HTTPException 500)
  /\ SaveUploads.statistics (snd (Endpoints.submit_columns seed request f st))
     = db_after seed request f (SaveUploads.statistics st)
  /\ SaveUploads.file_upload (snd (Endpoints.submit_columns seed request f st))
     = SaveUploads.file_upload st.
Proof.
  unfold Endpoints.submit_columns, db_after.
  destruct (SaveData.save_submit_columns_data seed request f (SaveUploads.statistics st))
    as [db'|e] eqn:Hsave.
  - cbn [fst snd SaveUploads.with_statistics SaveUploads.statistics]. split; [reflexivity|].
    split; [reflexivity|].
    destruct (save_submit_rows _ _ _ _ _ Hsave) as [df [records [xs [log' [_ [_ [_ [_ [-> _]]]]]]]]].
    reflexivity.
  - cbn [fst snd]. split; [|auto].
    unfold SaveData.save_submit_columns_data in Hsave. cbv zeta in Hsave.
    destruct (_ ≫= _) in Hsave; [discriminate|]. injection Hsave as <-. reflexivity.
Qed.


(** The body of the [try] of [upload_file] never gets past the awaited
    analysis. *)
Lemma upload_never_answers_body svc file :
  exists e, Endpoints.analysed_upload svc file = Raise e.
Proof.
  unfold Endpoints.analysed_upload.
  destruct (Endpoints.makedirs file) as [[]|e]; [|eauto]. rewrite exc_bind_ok.
  destruct (negb _); [cbn; eauto|].
  destruct (Endpoints.stored file _) as [f|e]; [|eauto]. rewrite exc_bind_ok.
  destruct (FileAnalyzer.analyze_file svc f) as [r|e]; [|eauto]. rewrite exc_bind_ok.
  unfold Endpoints.await. eauto.
Qed.

(** X15.  The upload endpoint never returns an answer: up to the analysis
    its body always raises (analyze_file is awaited although it is no
    coroutine, and the rejection of an unsupported extension calls
    save_rejected_files without its db argument), so the statements after
    the analysis are never reached, and the 400 of an unsupported
    extension is never raised either. *)
Theorem upload_never_answers
        (Answer : Type)
        (rest : FileProcessing.Summary * DataFrame string * FileProcessing.Mapping ->
                SaveUploads.Store -> Exc Answer * SaveUploads.Store)
        (now : Z) (svc : FileProcessing.Completion) (file : Endpoints.UploadFile)
        (st : SaveUploads.Store) :
  (exists e, Endpoints.analysed_upload svc file = Raise e)
  /\ (forall answer, fst (Endpoints.upload_file Answer rest now svc file st) <> Ok answer)
  /\ fst (Endpoints.upload_file Answer rest now svc file st) <> Raise (HTTPException 400).
Proof.
  destruct (upload_never_answers_body svc file) as [e He].
  split; [eauto|].
  unfold Endpoints.upload_file. rewrite He.
  destruct (SaveUploads.save_rejected_files now (Endpoints.filename file) st)
    as [[fid st']|e'] eqn:Hsave; cbn [fst].
  - split; [discriminate | discriminate].
  - split; [discriminate|]. intros [= ->].
    unfold SaveUploads.save_rejected_files in Hsave. cbv zeta in Hsave.
    destruct (SaveUploads.add_upload _ _ _ st) as [[fid st1]|e1] eqn:Hup.
    + rewrite exc_bind_ok in Hsave.
      unfold SaveUploads.add_log in Hsave. destruct (_ !! _) in Hsave; discriminate.
    + unfold SaveUploads.add_upload in Hup. destruct (_ && _) in Hup; [discriminate|].
      injection Hup as <-. discriminate Hsave.
Qed.

(** X16.  Whenever the store takes the record, an upload ends with a 500
    and is recorded as a rejected file, whatever file was sent and
    whatever its analysis gave: the log of the new identifier has the
    status rejected and no columns or count, and no mapped data and no
    player is stored. *)
Theorem upload_is_recorded_as_rejected
        (Answer : Type)
        (rest : FileProcessing.Summary * DataFrame string * FileProcessing.Mapping ->
                SaveUploads.Store -> Exc Answer * SaveUploads.Store)
        (now : Z) (svc : FileProcessing.Completion) (file : Endpoints.UploadFile)
        (st st' : SaveUploads.Store) (fid : Z) :
  SaveUploads.save_rejected_files now (Endpoints.filename file) st = Ok (fid, st') ->
  Endpoints.upload_file Answer rest now svc file st = (Raise (HTTPException 500), st')
  /\ SaveData.file_processing_log (SaveUploads.statistics st') !! fid
     = Some (SaveData.mkLog fid None None None None (Some "rejected"))
  /\ SaveUploads.mapped_data st' = SaveUploads.mapped_data st
  /\ SaveData.player (SaveUploads.statistics st')
     = SaveData.player (SaveUploads.statistics st).
Proof.
  intros Hsave.
  destruct (upload_never_answers_body svc file) as [e He].
  unfold Endpoints.upload_file. rewrite He, Hsave. split; [reflexivity|].
  apply save_rejected_files_inv in Hsave as [_ [_ ->]]. cbn.
  rewrite lookup_insert_eq. auto.
Qed.

Lemma upload_is_recorded_as_rejected_witness :
  Endpoints.upload_file unit (fun _ st => (Ok (), st)) 0
    (FileProcessing.Reply conforming_reply)
    (Endpoints.mkUploadFile "batting.csv" (Ok ()) "0f3a"
       (fun path => Ok (csv_file path (mkFrame ["batsman"; "runs"]
                                               [[PStr "V Kohli"; PInt 8676]]))))
    (SaveUploads.mkStore [] (SaveData.mkDb [] ∅ [] [] []))
  = (Raise (HTTPException 500),
     SaveUploads.mkStore
       []
       (SaveData.mkDb [FileModel.mkUpload 1 "batting" "csv" 0]
                      {[ 1%Z := SaveData.mkLog 1 None None None None (Some "rejected") ]}
                      [] [] []))
  /\ SaveData.file_processing_log
       (SaveData.mkDb [FileModel.mkUpload 1 "batting" "csv" 0]
                      {[ 1%Z := SaveData.mkLog 1 None None None None (Some "rejected") ]}
                      [] [] []) !! 1%Z
     = Some (SaveData.mkLog 1 None None None None (Some "rejected"))
  /\ @nil FileModel.MappedData = []
  /\ @nil SaveData.Player = [].
Proof.
  apply (upload_is_recorded_as_rejected unit (fun _ st => (Ok (), st)) 0
           (FileProcessing.Reply conforming_reply)
           (Endpoints.mkUploadFile "batting.csv" (Ok ()) "0f3a"
       (fun path => Ok (csv_file path (mkFrame ["batsman"; "runs"]
                                               [[PStr "V Kohli"; PInt 8676]]))))
           (SaveUploads.mkStore [] (SaveData.mkDb [] ∅ [] [] []))
           (SaveUploads.mkStore
              []
              (SaveData.mkDb
                 [FileModel.mkUpload 1 "batting" "csv" 0]
                 {[ 1%Z := SaveData.mkLog 1 None None None None (Some "rejected") ]}
                 [] [] []))
           1).
  reflexivity.
Defined.


(** ** Names of uploads *)

Section Splitting.
Variable c : ascii.
Implicit Types (l a b : list ascii).

Lemma split_all_cons_form l : exists p ps, split_all c l = p :: ps.
Proof.
  induction l as [|x l [p [ps IH]]]; cbn [split_all]; [eauto|].
  destruct (Ascii.eqb x c); [eauto|]. rewrite IH. eauto.
Qed.

Lemma split_all_without l : c ∉ l -> split_all c l = [l].
Proof.
  induction l as [|x l IH]; intros Hnot; cbn [split_all]; [reflexivity|].
  destruct (Ascii.eqb_spec x c) as [->|Hne].
  - exfalso. apply Hnot, list_elem_of_here.
  - rewrite IH; [reflexivity|]. intros Hin. apply Hnot, list_elem_of_further, Hin.
Qed.

Lemma split_all_app a b : c ∉ a -> split_all c (a ++ c :: b) = a :: split_all c b.
Proof.
  induction a as [|x a IH]; intros Hnot; cbn [app split_all].
  - rewrite Ascii.eqb_refl. reflexivity.
  - destruct (Ascii.eqb_spec x c) as [->|Hne].
    + exfalso. apply Hnot, list_elem_of_here.
    + rewrite IH; [reflexivity|]. intros Hin. apply Hnot, list_elem_of_further, Hin.
Qed.

Lemma split_all_pieces l p : p ∈ split_all c l -> c ∉ p.
Proof.
  revert p. induction l as [|x l IH]; intros p; cbn [split_all].
  - rewrite list_elem_of_singleton. intros -> Hin. inversion Hin.
  - destruct (Ascii.eqb_spec x c) as [->|Hne].
    + rewrite elem_of_cons. intros [-> | Hin]; [intros Hin; inversion Hin | exact (IH p Hin)].
    + destruct (split_all_cons_form l) as [q [qs Hq]]. rewrite Hq in *.
      rewrite elem_of_cons. intros [-> | Hin].
      * rewrite elem_of_cons. intros [Heq | Hin]; [congruence|].
        apply (IH q); [apply list_elem_of_here | exact Hin].
      * apply IH, list_elem_of_further, Hin.
Qed.

Lemma count_occ_absent l : c ∉ l <-> count_occ Ascii.ascii_dec l c = 0%nat.
Proof. rewrite list_elem_of_In. apply count_occ_not_In. Qed.

Lemma split_all_two a b : exists p q qs, split_all c (a ++ c :: b) = p :: q :: qs.
Proof.
  induction a as [|x a [p [q [qs IH]]]]; cbn [app split_all].
  - rewrite Ascii.eqb_refl. destruct (split_all_cons_form b) as [q [qs ->]]. eauto.
  - destruct (Ascii.eqb x c); rewrite IH; eauto.
Qed.

Lemma split_all_last a b :
  List.last (split_all c (a ++ c :: b)) [] = List.last (split_all c b) [].
Proof.
  induction a as [|x a IH]; cbn [app split_all].
  - rewrite Ascii.eqb_refl. destruct (split_all_cons_form b) as [q [qs ->]]. reflexivity.
  - destruct (split_all_two a b) as [p [q [qs Hsplit]]]. rewrite Hsplit in *.
    destruct (Ascii.eqb x c); rewrite <- IH; reflexivity.
Qed.
End Splitting.

Lemma first_piece_dots s : dots (SaveUploads.first_piece s) = 0%nat.
Proof.
  unfold dots, SaveUploads.first_piece. rewrite chars_text.
  apply count_occ_absent, (split_all_pieces _ (chars s)).
  destruct (split_all_cons_form "."%char (chars s)) as [p [ps ->]]. apply list_elem_of_here.
Qed.

Lemma last_elem {A} (l : list A) d : l <> [] -> List.last l d ∈ l.
Proof.
  induction l as [|x l IH]; [congruence|]. intros _.
  destruct l as [|y l]; [apply list_elem_of_here|].
  apply list_elem_of_further, IH. discriminate.
Qed.

Lemma last_piece_dots s : dots (SaveUploads.last_piece s) = 0%nat.
Proof.
  unfold dots, SaveUploads.last_piece. rewrite chars_text.
  apply count_occ_absent, (split_all_pieces _ (chars s)), last_elem.
  destruct (split_all_cons_form "."%char (chars s)) as [p [ps ->]]. discriminate.
Qed.

Lemma dots_app s t : dots (s ++ t) = (dots s + dots t)%nat.
Proof. unfold dots. rewrite chars_app. apply count_occ_app. Qed.

Lemma chars_inj s t : chars s = chars t -> s = t.
Proof. intros H. rewrite <- (text_chars s), <- (text_chars t), H. reflexivity. Qed.

Lemma chars_cut a b : chars (a ++ "." ++ b) = chars a ++ "."%char :: chars b.
Proof. rewrite chars_app. reflexivity. Qed.

(** The piece before the first full stop. *)
Lemma first_piece_cut a b : dots a = 0%nat -> SaveUploads.first_piece (a ++ "." ++ b) = a.
Proof.
  intros Ha. unfold dots in Ha. apply count_occ_absent in Ha.
  unfold SaveUploads.first_piece. rewrite chars_cut, (split_all_app _ _ _ Ha).
  cbn [hd]. apply text_chars.
Qed.

(** The piece after the last full stop. *)
Lemma last_piece_cut a b : dots b = 0%nat -> SaveUploads.last_piece (a ++ "." ++ b) = b.
Proof.
  intros Hb. unfold dots in Hb. apply count_occ_absent in Hb.
  unfold SaveUploads.last_piece.
  rewrite chars_cut, split_all_last, (split_all_without _ _ Hb).
  cbn [List.last]. apply text_chars.
Qed.

Lemma contains_char_cut a b : contains_char "."%char (a ++ "." ++ b) = true.
Proof.
  apply contains_char_spec. rewrite chars_cut.
  apply elem_of_app. right. apply list_elem_of_here.
Qed.

(** The name and the type kept for an upload, against the name sent. *)
Lemma kept_name_and_type (name : string) :
  let kept_name := SaveUploads.first_piece name in
  let kept_type := if contains_char "."%char name
                   then SaveUploads.last_piece name else "unknown" in
  dots kept_name = 0%nat
  /\ dots kept_type = 0%nat
  /\ (dots name = 0%nat -> kept_name = name /\ kept_type = "unknown")
  /\ (forall front rest,
        name = (front ++ "." ++ rest)%string -> dots front = 0%nat -> kept_name = front)
  /\ (forall front rest,
        name = (front ++ "." ++ rest)%string -> dots rest = 0%nat -> kept_type = rest)
  /\ ((kept_name ++ "." ++ kept_type)%string = name <-> dots name = 1%nat).
Proof.
  cbv zeta.
  assert (dots (if contains_char "."%char name
                then SaveUploads.last_piece name else "unknown") = 0%nat) as Htype.
  { destruct (contains_char "."%char name); [apply last_piece_dots | reflexivity]. }
  split; [apply first_piece_dots|]. split; [exact Htype|]. split; [|split; [|split]].
  - intros Hnone. unfold dots in Hnone. apply count_occ_absent in Hnone.
    assert (contains_char "."%char name = false) as ->
        by (apply not_true_is_false; rewrite contains_char_spec; exact Hnone).
    split; [|reflexivity]. unfold SaveUploads.first_piece.
    rewrite (split_all_without _ _ Hnone). apply text_chars.
  - intros front rest -> Hfront. apply first_piece_cut, Hfront.
  - intros front rest -> Hrest. rewrite contains_char_cut. apply last_piece_cut, Hrest.
  - split.
    + intros Heq. rewrite <- Heq, !dots_app, first_piece_dots, Htype. reflexivity.
    + intros Hone.
      assert ("."%char ∈ chars name) as Hin.
      { destruct (decide ("."%char ∈ chars name)) as [Hin|Hnot]; [exact Hin|].
        unfold dots in Hone. apply count_occ_absent in Hnot. congruence. }
      rewrite (proj2 (contains_char_spec _ _) Hin).
      destruct (split_first "."%char (chars name)) as [[a b]|] eqn:Hcut;
        [|apply split_first_None in Hcut; contradiction].
      apply split_first_Some in Hcut as [Hname Ha].
      assert ("."%char ∉ b) as Hb.
      { unfold dots in Hone. rewrite Hname, count_occ_app in Hone. cbn in Hone.
        apply count_occ_absent in Ha. apply count_occ_absent. lia. }
      unfold SaveUploads.first_piece, SaveUploads.last_piece.
      rewrite Hname, (split_all_app _ _ _ Ha), (split_all_without _ _ Hb). cbn [hd List.last].
      apply chars_inj. rewrite !chars_app, !chars_text. exact (eq_sym Hname).
Qed.

(** X17.  save_rejected_files records an upload under the part of its name
    before the first full stop, with the part after the last full stop as
    type: however the name is cut at a full stop, a front without a full
    stop is the name kept and a rest without a full stop is the type kept;
    neither holds a full stop; a name without a full stop is kept whole
    with the type unknown; and name and type put together give the name
    back exactly when it has one full stop. *)
Theorem rejected_upload_is_recorded_by_pieces
        (now : Z) (name : string) (st st' : SaveUploads.Store) (fid : Z) :
  SaveUploads.save_rejected_files now name st = Ok (fid, st') ->
  exists kept_name kept_type,
    SaveUploads.file_upload st'
    = SaveUploads.file_upload st ++ [FileModel.mkUpload fid kept_name kept_type now]
    /\ dots kept_name = 0%nat
    /\ dots kept_type = 0%nat
    /\ (dots name = 0%nat -> kept_name = name /\ kept_type = "unknown")
    /\ (forall front rest,
          name = (front ++ "." ++ rest)%string -> dots front = 0%nat -> kept_name = front)
    /\ (forall front rest,
          name = (front ++ "." ++ rest)%string -> dots rest = 0%nat -> kept_type = rest)
    /\ ((kept_name ++ "." ++ kept_type)%string = name <-> dots name = 1%nat).
Proof.
  intros Hsave. apply save_rejected_files_inv in Hsave as [_ [_ ->]].
  eexists _, _. split; [reflexivity|]. apply kept_name_and_type.
Qed.

Lemma rejected_upload_is_recorded_by_pieces_witness :
  exists kept_name kept_type,
    [FileModel.mkUpload 1 "squad" "gz" 0]
    = [] ++ [FileModel.mkUpload 1 kept_name kept_type 0]
    /\ dots kept_name = 0%nat
    /\ dots kept_type = 0%nat
    /\ (dots "squad.2024.tar.gz" = 0%nat
        -> kept_name = "squad.2024.tar.gz" /\ kept_type = "unknown")
    /\ (forall front rest,
          "squad.2024.tar.gz" = (front ++ "." ++ rest)%string
          -> dots front = 0%nat -> kept_name = front)
    /\ (forall front rest,
          "squad.2024.tar.gz" = (front ++ "." ++ rest)%string
          -> dots rest = 0%nat -> kept_type = rest)
    /\ ((kept_name ++ "." ++ kept_type)%string = "squad.2024.tar.gz"
        <-> dots "squad.2024.tar.gz" = 1%nat).
Proof.
  apply (rejected_upload_is_recorded_by_pieces 0 "squad.2024.tar.gz"
           (SaveUploads.mkStore [] (SaveData.mkDb [] ∅ [] [] []))
           (SaveUploads.mkStore
              []
              (SaveData.mkDb
                 [FileModel.mkUpload 1 "squad" "gz" 0]
                 {[ 1%Z := SaveData.mkLog 1 None None None None (Some "rejected") ]}
                 [] [] []))
           1).
  reflexivity.
Defined.


(** ** The rows a correction stores *)

Lemma entities_of_inv fid pid mapped_row x :
  entities_of fid pid mapped_row = Ok x ->
  SaveData.player_id (fst (fst x)) = pid
  /\ SaveData.player_file_id (fst (fst x)) = fid
  /\ SaveData.batting_player_id (snd (fst x)) = pid
  /\ SaveData.bowling_player_id (snd x) = pid.
Proof.
  unfold entities_of. intros H.
  repeat (apply bind_Ok in H as [? [_ H]]).
  injection H as <-. cbn. auto.
Qed.

Lemma entities_from_inv fid targets records pid xs :
  entities_from fid targets records pid = Ok xs ->
  length xs = length records /\ numbered pid xs /\ Forall (linked fid) xs.
Proof.
  revert pid xs. induction records as [|row records IH]; intros pid xs; cbn [entities_from].
  - intros [= <-]. cbn. auto.
  - intros H. apply bind_Ok in H as [x [Hx H]]. apply bind_Ok in H as [xs' [Hxs H]].
    injection H as <-. apply entities_of_inv in Hx as [Hp [Hf [Hb Hw]]].
    destruct (IH _ _ Hxs) as [Hlen [Hnum Hlinked]].
    split; [cbn; rewrite Hlen; reflexivity|]. split.
    + cbn [numbered]. auto.
    + constructor; [|exact Hlinked]. unfold linked. rewrite Hp, Hb, Hw. auto.
Qed.

Lemma Ok_inj {A} (a b : A) : Ok a = Ok b -> a = b.
Proof. intros [= H]. exact H. Qed.

Lemma normalize_length {L} `{EqDecision L} (label : string -> L) renames
      (md : DataFrame L) records :
  normalize label renames md = Ok records -> length records = length (data md).
Proof.
  rewrite normalize_rows. intros H. apply Ok_inj in H. rewrite <- H.
  apply length_map.
Qed.

Lemma canonical_records_length mapped df records :
  SaveData.canonical_records mapped df = Ok records ->
  length records = if is_nil mapped then 0%nat else length (data df).
Proof.
  unfold SaveData.canonical_records.
  destruct (SaveData.select_mapped mapped (columns df)) as [mtc nm].
  destruct mapped as [|kv mapped'].
  - rewrite exc_bind_ok. intros H. apply normalize_length in H. exact H.
  - destruct (frame_select mtc df) as [md|e] eqn:Hsel; [|discriminate].
    rewrite exc_bind_ok. intros H. apply normalize_length in H. rewrite H.
    apply frame_select_inv in Hsel. rewrite Hsel. cbn [data is_nil].
    apply length_map.
Qed.

(** X18.  A committed correction adds one player, one batting and one
    bowling row for every row of the file (none when the mapping is
    empty), at the end of their tables; the three rows of a record refer
    to the same player and the player to the file of the request; and the
    log of the file records that number of rows as total_records. *)
Theorem correction_stores_a_linked_row_per_record
        (seed : HashSeed) (request : SaveData.ColumnMappingRequest) (f : File)
        (db db' : SaveData.Db) :
  SaveData.save_submit_columns_data seed request f db = Ok db' ->
  exists df xs log',
    SaveData.read_source request f = Ok df
    /\ SaveData.player db' = SaveData.player db ++ map (fun x => fst (fst x)) xs
    /\ SaveData.batting db' = SaveData.batting db ++ map (fun x => snd (fst x)) xs
    /\ SaveData.bowling db' = SaveData.bowling db ++ map snd xs
    /\ length xs = stored_count request df
    /\ Forall (linked (SaveData.file_id request)) xs
    /\ SaveData.file_processing_log db' !! SaveData.file_id request = Some log'
    /\ SaveData.log_total_records log' = Some (Z.of_nat (stored_count request df)).
Proof.
  intros Hsave.
  destruct (save_submit_rows _ _ _ _ _ Hsave)
    as [df [records [xs [log' [Hread [Hrec [Hxs [_ [-> [Htotal _]]]]]]]]]].
  destruct (entities_from_inv _ _ _ _ _ Hxs) as [Hlen [_ Hlinked]].
  pose proof (canonical_records_length _ _ _ Hrec) as Hcount.
  exists df, xs, log'. cbn [SaveData.player SaveData.batting SaveData.bowling
                            SaveData.file_processing_log].
  unfold stored_count. rewrite lookup_insert_eq, Hlen, Htotal, Hcount. auto 10.
Qed.

Lemma correction_stores_a_linked_row_per_record_witness :
  exists df xs log',
    SaveData.read_source runs_request runs_csv = Ok df
    /\ SaveData.player (db_after first_seed runs_request runs_csv runs_db)
       = [] ++ map (fun x => fst (fst x)) xs
    /\ SaveData.batting (db_after first_seed runs_request runs_csv runs_db)
       = [] ++ map (fun x => snd (fst x)) xs
    /\ SaveData.bowling (db_after first_seed runs_request runs_csv runs_db)
       = [] ++ map snd xs
    /\ length xs = stored_count runs_request df
    /\ Forall (linked 1) xs
    /\ SaveData.file_processing_log (db_after first_seed runs_request runs_csv runs_db)
         !! 1%Z
       = Some log'
    /\ SaveData.log_total_records log' = Some (Z.of_nat (stored_count runs_request df)).
Proof.
  apply (correction_stores_a_linked_row_per_record first_seed runs_request runs_csv runs_db
           (db_after first_seed runs_request runs_csv runs_db)).
  vm_compute. reflexivity.
Defined.


(** ** Fetching what a correction has stored *)

Lemma answer_one (order : RowOrder) {A} (x : A) : answer order [x] = [x].
Proof. apply Permutation_singleton_r, answer_perm. Qed.

Lemma answer_none (order : RowOrder) {A} : answer order (@nil A) = [].
Proof. apply Permutation_nil_r, answer_perm. Qed.

Lemma filter_none {A} (p : A -> bool) (l : list A) :
  Forall (fun x => p x = false) l -> List.filter p l = [].
Proof.
  induction 1 as [|x l Hx _ IH]; cbn [List.filter]; [reflexivity|]. rewrite Hx. exact IH.
Qed.

Lemma numbered_from pid xs :
  numbered pid xs ->
  Forall (fun x => (pid <= SaveData.batting_player_id (snd (fst x)))%Z
                   /\ (pid <= SaveData.bowling_player_id (snd x))%Z) xs.
Proof.
  revert pid. induction xs as [|x xs IH]; intros pid; [constructor|].
  cbn [numbered]. intros [_ [Hb [Hw Hnum]]]. constructor; [lia|].
  eapply Forall_impl; [exact (IH _ Hnum)|]. intros y Hy. cbn beta in *. lia.
Qed.

(** The rows of the players just stored: each has one batting and one
    bowling row, so that the order of the answers does not matter. *)
Lemma stats_of_new order db1 xs : forall pid pre_b pre_w,
  numbered pid xs ->
  Forall (fun b => (SaveData.batting_player_id b < pid)%Z) pre_b ->
  Forall (fun w => (SaveData.bowling_player_id w < pid)%Z) pre_w ->
  SaveData.batting db1 = pre_b ++ map (fun x => snd (fst x)) xs ->
  SaveData.bowling db1 = pre_w ++ map snd xs ->
  map (FetchData.stats_of order db1) (map (fun x => fst (fst x)) xs)
  = map stats_of_entities xs.
Proof.
  induction xs as [|[[p b] w] xs IH]; intros pid pre_b pre_w Hnum Hpre_b Hpre_w Hb Hw;
    [reflexivity|].
  cbn [numbered fst snd] in Hnum. destruct Hnum as [Hp [Hbp [Hwp Hnum]]].
  pose proof (numbered_from _ _ Hnum) as Hlater.
  cbn [map fst snd]. f_equal.
  - unfold FetchData.stats_of, FetchData.batting_of, FetchData.bowling_of.
    rewrite Hb, Hw. cbn [map fst snd].
    rewrite !List.filter_app. cbn [List.filter]. rewrite Hp, Hbp, Hwp, !Z.eqb_refl.
    rewrite (filter_none _ pre_b), (filter_none _ pre_w),
      (filter_none _ (map (fun x => snd (fst x)) xs)), (filter_none _ (map snd xs)).
    + cbn [app]. rewrite !answer_one. reflexivity.
    + apply Forall_fmap. eapply Forall_impl; [exact Hlater|].
      intros y [_ Hy]. cbn. apply Z.eqb_neq. lia.
    + apply Forall_fmap. eapply Forall_impl; [exact Hlater|].
      intros y [Hy _]. cbn. apply Z.eqb_neq. lia.
    + eapply Forall_impl; [exact Hpre_w|]. intros y Hy. cbn beta in *.
      apply Z.eqb_neq. lia.
    + eapply Forall_impl; [exact Hpre_b|]. intros y Hy. cbn beta in *.
      apply Z.eqb_neq. lia.
  - apply (IH (pid + 1)%Z (pre_b ++ [b]) (pre_w ++ [w])).
    + exact Hnum.
    + apply Forall_app. split.
      * eapply Forall_impl; [exact Hpre_b|]. intros y Hy. cbn beta in *. lia.
      * constructor; [lia | constructor].
    + apply Forall_app. split.
      * eapply Forall_impl; [exact Hpre_w|]. intros y Hy. cbn beta in *. lia.
      * constructor; [lia | constructor].
    + rewrite Hb, <- app_assoc. reflexivity.
    + rewrite Hw, <- app_assoc. reflexivity.
Qed.

Lemma stats_of_players order db1 xs players :
  map (FetchData.stats_of order db1) (map (fun x => fst (fst x)) xs)
  = map stats_of_entities xs ->
  players ≡ₚ map (fun x => fst (fst x)) xs ->
  map (FetchData.stats_of order db1) players ≡ₚ map stats_of_entities xs.
Proof. intros <- Hperm. apply fmap_Permutation, Hperm. Qed.

Lemma players_of_new order fid db db1 xs :
  Forall (fun p => SaveData.player_file_id p <> fid) (SaveData.player db) ->
  Forall (linked fid) xs ->
  SaveData.player db1 = SaveData.player db ++ map (fun x => fst (fst x)) xs ->
  FetchData.players_of order fid db1 = answer order (map (fun x => fst (fst x)) xs).
Proof.
  intros Hold Hnew Hplayers. unfold FetchData.players_of.
  rewrite Hplayers, List.filter_app, filter_none, filter_all; [reflexivity| |].
  - intros p Hp. apply list_elem_of_In, in_map_iff in Hp as [x [<- Hx]].
    rewrite Forall_forall in Hnew. destruct (Hnew x (proj2 (list_elem_of_In _ _) Hx)) as [Hfid _].
    apply Z.eqb_eq, Hfid.
  - eapply Forall_impl; [exact Hold|]. intros p Hp. cbn beta in *.
    apply Z.eqb_neq, Hp.
Qed.

(** X19.  Round trip of a correction: for a file that had no player yet,
    get_mapped_data returns after a committed correction one list for
    each record the correction stored, holding the eleven values of the
    player, batting and bowling rows stored for that record; the lists
    come in the order in which the store answers the query for the
    players, which the query does not fix; when the correction stored no
    record the answer is a 500, the 404 of the source being caught by its
    own handler. *)
Theorem stored_statistics_are_fetched
        (seed : HashSeed) (order : RowOrder)
        (request : SaveData.ColumnMappingRequest) (f : File) (db db' : SaveData.Db) :
  SaveData.save_submit_columns_data seed request f db = Ok db' ->
  settled (SaveData.file_id request) db ->
  exists df records xs,
    SaveData.read_source request f = Ok df
    /\ SaveData.canonical_records (SaveData.user_mapping request) df = Ok records
    /\ length xs = length records
    /\ SaveData.player db' = SaveData.player db ++ map (fun x => fst (fst x)) xs
    /\ SaveData.batting db' = SaveData.batting db ++ map (fun x => snd (fst x)) xs
    /\ SaveData.bowling db' = SaveData.bowling db ++ map snd xs
    /\ ((records = []
         /\ FetchData.get_mapped_data order (SaveData.file_id request) db'
            = Raise (HTTPException 500))
        \/ exists result,
            FetchData.get_mapped_data order (SaveData.file_id request) db' = Ok result
            /\ result ≡ₚ map stats_of_entities xs).
Proof.
  intros Hsave [Hold_b [Hold_w Hold_p]].
  destruct (save_submit_rows _ _ _ _ _ Hsave)
    as [df [records [xs [log' [Hread [Hrec [Hxs [_ [Hdb _]]]]]]]]].
  destruct (entities_from_inv _ _ _ _ _ Hxs) as [Hlen [Hnum Hlinked]].
  assert (SaveData.player db' = SaveData.player db ++ map (fun x => fst (fst x)) xs) as Hp
      by (rewrite Hdb; reflexivity).
  assert (SaveData.batting db' = SaveData.batting db ++ map (fun x => snd (fst x)) xs) as Hb
      by (rewrite Hdb; reflexivity).
  assert (SaveData.bowling db' = SaveData.bowling db ++ map snd xs) as Hw
      by (rewrite Hdb; reflexivity).
  exists df, records, xs. split; [exact Hread|]. split; [exact Hrec|].
  split; [exact Hlen|]. split; [exact Hp|]. split; [exact Hb|]. split; [exact Hw|].
  clear Hdb Hsave.
  unfold FetchData.get_mapped_data. cbv zeta.
  rewrite (players_of_new order _ db db' xs Hold_p Hlinked Hp).
  destruct xs as [|x xs].
  - left. destruct records; [|discriminate Hlen]. cbn [map]. rewrite answer_none. auto.
  - right.
    pose proof (answer_perm order _ (map (fun y : SaveData.Player * SaveData.Batting
                                                  * SaveData.Bowling => fst (fst y))
                                         (x :: xs))) as Hperm.
    destruct (answer order (map _ (x :: xs))) as [|p ps] eqn:Hanswer.
    + apply Permutation_nil_l in Hperm. discriminate Hperm.
    + cbn [is_nil]. rewrite exc_bind_ok. eexists. split; [reflexivity|].
      apply stats_of_players; [|exact Hperm].
      apply (stats_of_new order db' (x :: xs) _ (SaveData.batting db) (SaveData.bowling db)
               Hnum).
      * eapply Forall_impl; [exact Hold_b|]. intros y Hy. cbn beta in *. lia.
      * eapply Forall_impl; [exact Hold_w|]. intros y Hy. cbn beta in *. lia.
      * exact Hb.
      * exact Hw.
Qed.

Lemma stored_statistics_are_fetched_witness :
  exists df records xs,
    SaveData.read_source runs_request runs_csv = Ok df
    /\ SaveData.canonical_records (SaveData.user_mapping runs_request) df = Ok records
    /\ length xs = length records
    /\ SaveData.player (db_after first_seed runs_request runs_csv runs_db)
       = [] ++ map (fun x => fst (fst x)) xs
    /\ SaveData.batting (db_after first_seed runs_request runs_csv runs_db)
       = [] ++ map (fun x => snd (fst x)) xs
    /\ SaveData.bowling (db_after first_seed runs_request runs_csv runs_db)
       = [] ++ map snd xs
    /\ ((records = []
         /\ FetchData.get_mapped_data reverse_order 1
              (db_after first_seed runs_request runs_csv runs_db)
            = Raise (HTTPException 500))
        \/ exists result,
            FetchData.get_mapped_data reverse_order 1
              (db_after first_seed runs_request runs_csv runs_db) = Ok result
            /\ result ≡ₚ map stats_of_entities xs).
Proof.
  apply (stored_statistics_are_fetched first_seed reverse_order runs_request runs_csv runs_db
           (db_after first_seed runs_request runs_csv runs_db)).
  - vm_compute. reflexivity.
  - repeat split; constructor.
Defined.


(** ** The log of a first correction *)

Lemma map_row_snd_fold targets row (acc : list (string * PyVal) * list string) :
  snd (fold_left
         (fun (acc : list (string * PyVal) * list string) mapped_key =>
            let value := default PNone (dict_get (LStr mapped_key) row) in
            (dict_set mapped_key value (fst acc),
             if bool_decide (value = PNone) then snd acc ++ [mapped_key] else snd acc))
         targets acc)
  = snd acc ++ List.filter (fun t => bool_decide (cell t row = PNone)) targets.
Proof.
  revert acc. induction targets as [|t targets IH]; intros acc; cbn [fold_left List.filter].
  - rewrite app_nil_r. reflexivity.
  - rewrite IH. cbn [snd]. unfold cell.
    destruct (bool_decide (default PNone (dict_get (LStr t) row) = PNone)).
    + rewrite <- app_assoc. reflexivity.
    + reflexivity.
Qed.

Lemma map_row_snd targets row :
  snd (SaveData.map_row targets row)
  = List.filter (fun t => bool_decide (cell t row = PNone)) targets.
Proof. unfold SaveData.map_row. rewrite map_row_snd_fold. reflexivity. Qed.

Lemma fill_not_none v : fill v <> PNone.
Proof. destruct v as [|s|z|b|[| |]|]; cbn; discriminate. Qed.

Lemma canonical_record_cells (rho : Label -> Label) cols row rec t :
  canonical_record LStr rho cols row rec ->
  cell t rec = PNone <-> t ∉ FileParser.schema_fields.
Proof.
  intros [Hkeys Hcells]. unfold cell. split.
  - intros Hnone Hin. destruct (Hcells t Hin) as [Habsent Hpresent].
    destruct (decide (LStr t ∈ map rho cols)) as [Hmapped | Hmapped].
    + destruct (Hpresent Hmapped) as [h [v [_ [_ Hget]]]]. rewrite Hget in Hnone.
      exact (fill_not_none v Hnone).
    + rewrite (Habsent Hmapped) in Hnone. discriminate Hnone.
  - intros Hnot.
    assert (dict_get (LStr t) rec = None) as ->; [|reflexivity].
    apply dict_get_None_keys. rewrite Hkeys. intros Hin.
    apply list_elem_of_fmap in Hin as [c [[= ->] Hc]]. exact (Hnot Hc).
Qed.

Lemma canonical_records_cells mapped df records :
  SaveData.canonical_records mapped df = Ok records ->
  Forall (fun rec => forall t, cell t rec = PNone <-> t ∉ FileParser.schema_fields) records.
Proof.
  unfold SaveData.canonical_records.
  destruct (SaveData.select_mapped mapped (columns df)) as [mtc nm].
  assert (forall md : DataFrame Label,
             well_formed md = true ->
             normalize LStr (map (fun kv => (fst kv, LStr (snd kv))) nm) md = Ok records ->
             Forall (fun rec => forall t, cell t rec = PNone <-> t ∉ FileParser.schema_fields)
                    records) as Hmd.
  { intros md Hwf Hnorm.
    destruct (normalize_spec LStr
                (fun a b H => f_equal (fun l => match l with LStr s => s | LInt _ => a end) H)
                (map (fun kv => (fst kv, LStr (snd kv))) nm) md Hwf)
      as [records' [Hnorm' Hall]].
    rewrite Hnorm in Hnorm'. apply Ok_inj in Hnorm'. subst records'. clear Hnorm.
    induction Hall as [|row rec rows recs Hrec _ IH]; constructor; [|exact IH].
    intros t. eapply canonical_record_cells, Hrec. }
  destruct mapped as [|kv mapped'].
  - rewrite exc_bind_ok. apply Hmd. reflexivity.
  - destruct (frame_select mtc df) as [md|e] eqn:Hsel; [|discriminate].
    rewrite exc_bind_ok. apply Hmd. exact (frame_select_well_formed _ _ _ Hsel).
Qed.

Lemma missing_targets targets records t :
  Forall (fun rec => forall t, cell t rec = PNone <-> t ∉ FileParser.schema_fields) records ->
  t ∈ concat (map (fun row => snd (SaveData.map_row targets row)) records)
  <-> t ∈ targets /\ (t ∉ FileParser.schema_fields) /\ records <> [].
Proof.
  intros Hcells. induction Hcells as [|rec records Hrec _ IH]; cbn [map concat].
  - rewrite elem_of_nil. intuition congruence.
  - rewrite elem_of_app, IH, map_row_snd, elem_of_filter_bool.
    rewrite bool_decide_eq_true, Hrec. intuition congruence.
Qed.

Lemma save_submit_new_log seed request f db db' :
  SaveData.save_submit_columns_data seed request f db = Ok db' ->
  SaveData.file_processing_log db !! SaveData.file_id request = None ->
  exists df records,
    SaveData.read_source request f = Ok df
    /\ SaveData.canonical_records (SaveData.user_mapping request) df = Ok records
    /\ SaveData.file_processing_log db' !! SaveData.file_id request
       = Some (SaveData.create_log
                 seed (SaveData.file_id request)
                 (dict_values (SaveData.user_mapping request))
                 (concat (map (fun row =>
                                 snd (SaveData.map_row
                                        (dict_values (SaveData.user_mapping request)) row))
                              records))
                 (Z.of_nat (length records))).
Proof.
  intros Hsave Hnone.
  destruct (save_submit_rows _ _ _ _ _ Hsave)
    as [df [records [xs [log' [Hread [Hrec [_ [_ [-> [_ Hlog]]]]]]]]]].
  rewrite Hnone in Hlog. destruct Hlog as [_ ->].
  exists df, records. split; [exact Hread|]. split; [exact Hrec|].
  cbn [SaveData.file_processing_log]. apply lookup_insert_eq.
Qed.

(** The labels of a list of names, listed as a set, are the labels of
    those names, each once. *)
Lemma list_of_set_names seed (names : list string) :
  exists unknown,
    list_of_set seed (map LStr names) = map LStr unknown
    /\ NoDup unknown
    /\ forall t, t ∈ unknown <-> t ∈ names.
Proof.
  pose proof (list_of_set_NoDup seed (map LStr names)) as Hnodup.
  assert (forall l, l ∈ list_of_set seed (map LStr names) <-> l ∈ map LStr names) as Helem
      by (intros l; apply list_of_set_elem).
  revert Hnodup Helem. generalize (list_of_set seed (map LStr names)). intros listed Hnodup Helem.
  assert (exists unknown, listed = map LStr unknown) as [unknown ->].
  { assert (Forall (fun l => exists t, l = LStr t) listed) as Hall.
    { apply Forall_forall. intros l Hl. apply Helem, list_elem_of_fmap in Hl as [t [-> _]]. eauto. }
    clear -Hall. induction Hall as [|l listed [t ->] _ [unknown ->]].
    - exists []. reflexivity.
    - exists (t :: unknown). reflexivity. }
  exists unknown. split; [reflexivity|]. split.
  - exact (NoDup_fmap_1 LStr unknown Hnodup).
  - intros t. split; intros Ht.
    + assert (LStr t ∈ map LStr unknown) as Hin by (apply list_elem_of_fmap; eauto).
      apply Helem, list_elem_of_fmap in Hin as [t' [[= <-] Ht']]. exact Ht'.
    + assert (LStr t ∈ map LStr names) as Hin by (apply list_elem_of_fmap; eauto).
      apply Helem, list_elem_of_fmap in Hin as [t' [[= <-] Ht']]. exact Ht'.
Qed.

(** X20.  A committed correction of a file without a log creates one that
    lists all target fields of the mapping as matched and, as unmatched,
    each target that is no canonical field (once, and only if a row was
    stored); its status is accepted when there is none, else partial. *)
Theorem first_correction_logs_unknown_targets
        (seed : HashSeed) (request : SaveData.ColumnMappingRequest) (f : File)
        (db db' : SaveData.Db) :
  SaveData.save_submit_columns_data seed request f db = Ok db' ->
  SaveData.file_processing_log db !! SaveData.file_id request = None ->
  exists df log' unknown,
    SaveData.read_source request f = Ok df
    /\ SaveData.file_processing_log db' !! SaveData.file_id request = Some log'
    /\ SaveData.log_matched_columns log'
       = Some (map LStr (dict_values (SaveData.user_mapping request)))
    /\ SaveData.log_unmatched_columns log' = Some (map LStr unknown)
    /\ NoDup unknown
    /\ (forall t, t ∈ unknown
                  <-> t ∈ dict_values (SaveData.user_mapping request)
                      /\ (t ∉ FileParser.schema_fields)
                      /\ stored_count request df <> 0%nat)
    /\ SaveData.log_status log' = Some (if is_nil unknown then "accepted" else "partial").
Proof.
  intros Hsave Hnone.
  destruct (save_submit_new_log _ _ _ _ _ Hsave Hnone) as [df [records [Hread [Hrec Hlog]]]].
  set (missing := concat _) in Hlog.
  destruct (list_of_set_names seed missing) as [unknown [Hlisted [Hnodup Helem]]].
  eexists df, _, unknown.
  split; [exact Hread|]. split; [exact Hlog|].
  split; [reflexivity|].
  split; [cbn [SaveData.create_log SaveData.log_unmatched_columns]; rewrite Hlisted;
          reflexivity|].
  split; [exact Hnodup|]. split.
  - intros t. rewrite Helem.
    unfold missing. rewrite (missing_targets _ _ _ (canonical_records_cells _ _ _ Hrec)).
    unfold stored_count. rewrite <- (canonical_records_length _ _ _ Hrec).
    destruct records; cbn [length]; intuition (congruence || lia).
  - cbn [SaveData.create_log SaveData.log_status].
    assert (is_nil missing = is_nil unknown) as ->; [|reflexivity].
    destruct missing as [|m missing'], unknown as [|u unknown']; try reflexivity.
    + exfalso. apply (elem_of_nil u), Helem, list_elem_of_here.
    + exfalso. apply (elem_of_nil m), Helem, list_elem_of_here.
Qed.

Lemma first_correction_logs_unknown_targets_witness :
  exists df log' unknown,
    SaveData.read_source
      (SaveData.mkRequest 7 [("runs", "Total Runs"); ("shirt", "Shirt Number")]
                          "uploaded_files/runs.csv" "csv") runs_csv = Ok df
    /\ SaveData.file_processing_log
         (db_after first_seed
                   (SaveData.mkRequest 7 [("runs", "Total Runs"); ("shirt", "Shirt Number")]
                                       "uploaded_files/runs.csv" "csv")
                   runs_csv
                   (SaveData.mkDb [FileModel.mkUpload 7 "runs.csv" "csv" 0] ∅ [] [] []))
         !! 7%Z = Some log'
    /\ SaveData.log_matched_columns log' = Some [LStr "Total Runs"; LStr "Shirt Number"]
    /\ SaveData.log_unmatched_columns log' = Some (map LStr unknown)
    /\ NoDup unknown
    /\ (forall t, t ∈ unknown
                  <-> t ∈ ["Total Runs"; "Shirt Number"]
                      /\ (t ∉ FileParser.schema_fields)
                      /\ stored_count
                           (SaveData.mkRequest 7
                              [("runs", "Total Runs"); ("shirt", "Shirt Number")]
                              "uploaded_files/runs.csv" "csv") df <> 0%nat)
    /\ SaveData.log_status log' = Some (if is_nil unknown then "accepted" else "partial").
Proof.
  apply (first_correction_logs_unknown_targets
           first_seed
           (SaveData.mkRequest 7 [("runs", "Total Runs"); ("shirt", "Shirt Number")]
                               "uploaded_files/runs.csv" "csv")
           runs_csv (SaveData.mkDb [FileModel.mkUpload 7 "runs.csv" "csv" 0] ∅ [] [] [])
           (db_after first_seed
                     (SaveData.mkRequest 7 [("runs", "Total Runs"); ("shirt", "Shirt Number")]
                                         "uploaded_files/runs.csv" "csv")
                     runs_csv
                     (SaveData.mkDb [FileModel.mkUpload 7 "runs.csv" "csv" 0] ∅ [] [] []))).
  - vm_compute. reflexivity.
  - reflexivity.
Defined.

(** ** The listing of uploads *)

Lemma entries_of_others fid (entry : FileModel.FileUpload -> FetchData.Metadata)
      (uploads : list FileModel.FileUpload) :
  (forall u, FetchData.meta_file_id (entry u) = FileModel.upload_id u) ->
  Forall (fun u => FileModel.upload_id u <> fid) uploads ->
  entries_of fid (map entry uploads) = [].
Proof.
  intros Hentry Hall. unfold entries_of. apply filter_none.
  induction Hall as [|u uploads Hu _ IH]; cbn [map]; constructor; [|exact IH].
  rewrite Hentry. apply Z.eqb_neq, Hu.
Qed.

Lemma entries_of_app fid l1 l2 :
  entries_of fid (l1 ++ l2) = entries_of fid l1 ++ entries_of fid l2.
Proof. apply List.filter_app. Qed.

Lemma Forall_filter_keep {A} (P : A -> Prop) (p : A -> bool) (l : list A) :
  Forall P l -> Forall P (List.filter p l).
Proof.
  induction 1 as [|x l Hx _ IH]; cbn [List.filter]; [constructor|].
  destruct (p x); [constructor; assumption | exact IH].
Qed.

Lemma filter_perm {A} (p : A -> bool) (l l' : list A) :
  l ≡ₚ l' -> List.filter p l ≡ₚ List.filter p l'.
Proof.
  induction 1 as [|x l l' _ IH|x y l|l l' l'' _ IH1 _ IH2]; cbn [List.filter].
  - constructor.
  - destruct (p x); [constructor|]; exact IH.
  - destruct (p x), (p y); try reflexivity. constructor.
  - etransitivity; eassumption.
Qed.

Lemma entries_of_map fid (entry : FileModel.FileUpload -> FetchData.Metadata)
      (uploads : list FileModel.FileUpload) :
  (forall u, FetchData.meta_file_id (entry u) = FileModel.upload_id u) ->
  entries_of fid (map entry uploads)
  = map entry (List.filter (fun u => (FileModel.upload_id u =? fid)%Z) uploads).
Proof.
  intros Hentry. unfold entries_of.
  induction uploads as [|u uploads IH]; cbn [map List.filter]; [reflexivity|].
  rewrite Hentry. destruct (FileModel.upload_id u =? fid)%Z; cbn [map]; rewrite IH; reflexivity.
Qed.

(** The entries of one file among the answer to a query. *)
Lemma entries_of_answer (order : RowOrder) fid
      (entry : FileModel.FileUpload -> FetchData.Metadata)
      (uploads found : list FileModel.FileUpload) :
  (forall u, FetchData.meta_file_id (entry u) = FileModel.upload_id u) ->
  List.filter (fun u => (FileModel.upload_id u =? fid)%Z) uploads = found ->
  length found <= 1 ->
  entries_of fid (map entry (answer order uploads)) = map entry found.
Proof.
  intros Hentry Hfound Hlen. rewrite (entries_of_map _ _ _ Hentry). f_equal.
  pose proof (filter_perm (fun u => (FileModel.upload_id u =? fid)%Z) _ _
                          (answer_perm order _ uploads)) as Hperm.
  rewrite Hfound in Hperm.
  destruct found as [|u [|v found]]; [| |cbn in Hlen; lia].
  - apply Permutation_nil_r, Hperm.
  - apply Permutation_singleton_r, Hperm.
Qed.

(** The listing: the uploads that have players, then all the uploads,
    each as the store answers them. *)
Lemma get_file_metadata_spec order st :
  let db := SaveUploads.statistics st in
  let entry := fun file =>
    FetchData.metadata_of file
      (SaveData.file_processing_log db !! FileModel.upload_id file) in
  FetchData.get_file_metadata order st
  = Ok (map entry
            (answer order
               (List.filter
                  (fun file => mem (FileModel.upload_id file)
                                   (remove_dups (map SaveData.player_file_id
                                                     (SaveData.player db))))
                  (SaveUploads.file_upload st)))
        ++ map entry (answer order (SaveUploads.file_upload st))).
Proof. reflexivity. Qed.

(** An upload that has just received its identifier is listed once. *)
Lemma new_upload_listed_once order st st' u log :
  issued st ->
  FileModel.upload_id u = (Z.of_nat (length (SaveUploads.file_upload st)) + 1)%Z ->
  SaveUploads.file_upload st' = SaveUploads.file_upload st ++ [u] ->
  SaveData.player (SaveUploads.statistics st')
  = SaveData.player (SaveUploads.statistics st) ->
  SaveData.file_processing_log (SaveUploads.statistics st') !! FileModel.upload_id u
  = Some log ->
  exists listing,
    FetchData.get_file_metadata order st' = Ok listing
    /\ entries_of (FileModel.upload_id u) listing = [FetchData.metadata_of u (Some log)].
Proof.
  intros [Hup [Hpl _]] Hfid Huploads Hplayers Hlog.
  set (fid := FileModel.upload_id u) in *.
  assert (Forall (fun u => (FileModel.upload_id u =? fid)%Z = false)
                 (SaveUploads.file_upload st))
    as Hothers.
  { eapply Forall_impl; [exact Hup|]. intros y Hy. cbn beta in *. apply Z.eqb_neq. lia. }
  assert (fid ∉ remove_dups (map SaveData.player_file_id
                                 (SaveData.player (SaveUploads.statistics st)))) as Hnew.
  { rewrite elem_of_remove_dups, list_elem_of_fmap. intros [p [Hp Hin]].
    rewrite Forall_forall in Hpl. specialize (Hpl p Hin). cbn beta in Hpl. lia. }
  eexists. rewrite get_file_metadata_spec. cbv zeta. split; [reflexivity|].
  rewrite Huploads, Hplayers, entries_of_app.
  rewrite (entries_of_answer order fid _ _ []), (entries_of_answer order fid _ _ [u]).
  - cbn [app map]. fold fid. rewrite Hlog. reflexivity.
  - reflexivity.
  - rewrite List.filter_app, (filter_none _ _ Hothers). cbn [List.filter app].
    fold fid. rewrite Z.eqb_refl. reflexivity.
  - cbn. lia.
  - reflexivity.
  - apply filter_none. rewrite List.filter_app. cbn [List.filter]. fold fid. unfold mem at 2.
    rewrite (bool_decide_eq_false_2 _ Hnew), app_nil_r.
    apply Forall_filter_keep, Hothers.
  - cbn. lia.
Qed.

(** X21.  A file recorded by save_rejected_files appears exactly once in
    the listing of get_file_metadata, and of the endpoint over it: under
    the name and type kept for it, with the status rejected and null
    columns, record count and missing columns. *)
Theorem rejected_upload_is_listed_once
        (order : RowOrder) (now : Z) (name : string) (st st' : SaveUploads.Store) (fid : Z) :
  SaveUploads.save_rejected_files now name st = Ok (fid, st') ->
  issued st ->
  exists listing kept_name kept_type,
    FetchData.get_file_metadata order st' = Ok listing
    /\ Endpoints.get_all_file_metadata order st' = Ok listing
    /\ SaveUploads.file_upload st'
       = SaveUploads.file_upload st ++ [FileModel.mkUpload fid kept_name kept_type now]
    /\ entries_of fid listing
       = [FetchData.mkMetadata fid kept_name kept_type now None None None
                               (Some "rejected") None].
Proof.
  intros Hsave Hissued.
  apply save_rejected_files_inv in Hsave as [Hfid [_ Hst']].
  destruct (new_upload_listed_once order st st'
              (FileModel.mkUpload fid (SaveUploads.first_piece name)
                 (if contains_char "."%char name
                  then SaveUploads.last_piece name else "unknown") now)
              (SaveData.mkLog fid None None None None (Some "rejected")) Hissued Hfid)
    as [listing [Hlist Hentries]].
  - rewrite Hst'. reflexivity.
  - rewrite Hst'. reflexivity.
  - rewrite Hst'. cbn. apply lookup_insert_eq.
  - exists listing. eexists _, _.
    unfold Endpoints.get_all_file_metadata. rewrite Hlist.
    split; [reflexivity|]. split; [reflexivity|].
    split; [rewrite Hst'; reflexivity|]. exact Hentries.
Qed.

Lemma rejected_upload_is_listed_once_witness :
  exists listing kept_name kept_type,
    FetchData.get_file_metadata reverse_order
      (SaveUploads.mkStore
         []
         (SaveData.mkDb [FileModel.mkUpload 1 "squad" "gz" 0]
                        {[ 1%Z := SaveData.mkLog 1 None None None None (Some "rejected") ]}
                        [] [] []))
    = Ok listing
    /\ Endpoints.get_all_file_metadata reverse_order
         (SaveUploads.mkStore
            []
            (SaveData.mkDb [FileModel.mkUpload 1 "squad" "gz" 0]
                           {[ 1%Z := SaveData.mkLog 1 None None None None (Some "rejected") ]}
                           [] [] []))
       = Ok listing
    /\ [FileModel.mkUpload 1 "squad" "gz" 0]
       = [] ++ [FileModel.mkUpload 1 kept_name kept_type 0]
    /\ entries_of 1 listing
       = [FetchData.mkMetadata 1 kept_name kept_type 0 None None None
                               (Some "rejected") None].
Proof.
  apply (rejected_upload_is_listed_once reverse_order 0 "squad.2024.tar.gz"
           (SaveUploads.mkStore [] (SaveData.mkDb [] ∅ [] [] []))
           (SaveUploads.mkStore
              []
              (SaveData.mkDb
                 [FileModel.mkUpload 1 "squad" "gz" 0]
                 {[ 1%Z := SaveData.mkLog 1 None None None None (Some "rejected") ]}
                 [] [] []))
           1).
  - reflexivity.
  - split; [constructor|]. split; [constructor|]. intros fid log Hlog.
    cbn [SaveUploads.statistics SaveData.file_processing_log] in Hlog.
    rewrite lookup_empty in Hlog. discriminate Hlog.
Defined.


(** ** When a correction fails *)

Lemma safe_int_overflow v :
  int_overflows v = true -> SaveData.safe_int v = Raise OverflowError.
Proof. destruct v as [|s|z|b|[|neg|m e]|]; cbn; try discriminate. reflexivity. Qed.

Lemma safe_float_overflow v :
  float_overflows v = true -> SaveData.safe_float v = Raise OverflowError.
Proof.
  destruct v as [|s|z|b|f|]; cbn -[Z.pow]; try discriminate.
  intros Hz. apply negb_true_iff in Hz. unfold SaveData.safe_float. cbn -[Z.pow].
  rewrite Hz. reflexivity.
Qed.

Lemma safe_int_Ok v z : SaveData.safe_int v = Ok z -> int_overflows v = false.
Proof.
  intros H. destruct (int_overflows v) eqn:Hv; [|reflexivity].
  rewrite (safe_int_overflow v Hv) in H. discriminate H.
Qed.

Lemma safe_float_Ok v x : SaveData.safe_float v = Ok x -> float_overflows v = false.
Proof.
  intros H. destruct (float_overflows v) eqn:Hv; [|reflexivity].
  rewrite (safe_float_overflow v Hv) in H. discriminate H.
Qed.

Lemma entities_of_no_overflow fid pid mapped_row x :
  entities_of fid pid mapped_row = Ok x ->
  forallb (fun c => negb (int_overflows (SaveData.row_get c mapped_row))) int_fields
  && negb (float_overflows (SaveData.row_get "Average" mapped_row)) = true.
Proof.
  unfold entities_of. intros H.
  apply bind_Ok in H as [m [Hm H]]. apply bind_Ok in H as [i [Hi H]].
  apply bind_Ok in H as [runs [Hruns H]]. apply bind_Ok in H as [avg [Havg H]].
  apply bind_Ok in H as [hs [_ H]].
  apply bind_Ok in H as [c [Hc H]]. apply bind_Ok in H as [hc [Hhc H]].
  apply bind_Ok in H as [w [Hw H]]. apply bind_Ok in H as [fw [Hfw _]].
  unfold int_fields. cbn [forallb].
  rewrite (safe_int_Ok _ _ Hm), (safe_int_Ok _ _ Hi), (safe_int_Ok _ _ Hruns),
    (safe_float_Ok _ _ Havg), (safe_int_Ok _ _ Hc), (safe_int_Ok _ _ Hhc),
    (safe_int_Ok _ _ Hw), (safe_int_Ok _ _ Hfw).
  reflexivity.
Qed.

Lemma entities_from_no_overflow fid targets records pid xs :
  entities_from fid targets records pid = Ok xs ->
  forallb (no_overflow targets) records = true.
Proof.
  revert pid xs. induction records as [|row records IH]; intros pid xs;
    cbn [entities_from forallb]; [reflexivity|].
  intros H. apply bind_Ok in H as [x [Hx H]]. apply bind_Ok in H as [xs' [Hxs _]].
  unfold no_overflow at 1, field_of.
  rewrite (entities_of_no_overflow _ _ _ _ Hx). exact (IH _ _ Hxs).
Qed.

Lemma correction_raises_500 seed request f db e :
  SaveData.save_submit_columns_data seed request f db = Raise e -> e = HTTPException 500.
Proof.
  unfold SaveData.save_submit_columns_data. cbv zeta.
  match goal with |- match ?body with _ => _ end = _ -> _ => destruct body end;
    intros H; [discriminate H | injection H as <-; reflexivity].
Qed.

(** X22.  One number out of range in one record makes the whole correction
    fail with a 500: safe_int and safe_float catch ValueError and
    TypeError only, so the OverflowError of an infinite float in an
    integer field, or of an integer beyond the doubles in Average, leaves
    the row loop. *)
Theorem out_of_range_number_fails_correction
        (seed : HashSeed) (request : SaveData.ColumnMappingRequest) (f : File)
        (db : SaveData.Db)
        (df : DataFrame Label) (records : list (list (Label * PyVal))) :
  SaveData.read_source request f = Ok df ->
  SaveData.canonical_records (SaveData.user_mapping request) df = Ok records ->
  forallb (no_overflow (dict_values (SaveData.user_mapping request))) records = false ->
  SaveData.save_submit_columns_data seed request f db = Raise (HTTPException 500).
Proof.
  intros Hread Hrec Hover.
  destruct (SaveData.save_submit_columns_data seed request f db) as [db'|e] eqn:Hsave.
  - destruct (save_submit_rows _ _ _ _ _ Hsave)
      as [df' [records' [xs [log' [Hread' [Hrec' [Hxs _]]]]]]].
    rewrite Hread in Hread'. apply Ok_inj in Hread'. subst df'.
    rewrite Hrec in Hrec'. apply Ok_inj in Hrec'. subst records'.
    apply entities_from_no_overflow in Hxs. rewrite Hxs in Hover. discriminate Hover.
  - f_equal. exact (correction_raises_500 seed request f db e Hsave).
Qed.

Lemma out_of_range_number_fails_correction_witness :
  SaveData.save_submit_columns_data first_seed inf_request inf_csv upload_db
  = Raise (HTTPException 500).
Proof.
  eapply (out_of_range_number_fails_correction first_seed inf_request inf_csv upload_db
            (mkFrame [LStr "mat"; LStr "inns"] [[PStr "-"; PFloat (FInf false)]])).
  - reflexivity.
  - vm_compute. reflexivity.
  - reflexivity.
Defined.

(** ** Documents *)

(** X23.  For a file detected as docx, doc or pdf that the loader loads,
    analyze_file returns exactly when an extractor finds at least one
    block in the document; otherwise it raises. *)
Theorem document_is_analysed_iff_it_has_a_block svc f mime ext :
  detected_type f = Ok (mime, ext) ->
  ext ∈ ["docx"; "doc"; "pdf"] ->
  load_file f = Ok () ->
  nonempty (file_path f) = true ->
  (exists r, FileAnalyzer.analyze_file svc f = Ok r)
  <-> frame_empty (FileProcessing.extract_document f) = false.
Proof.
  intros Hdetect Hext Hload Hpath.
  assert (FileAnalyzer.analyze_file svc f
          = reraise_runtime (reraise_runtime (FileAnalyzer.as_document svc f))) as ->.
  { unfold FileAnalyzer.analyze_file. rewrite Hdetect, exc_bind_ok.
    repeat (apply elem_of_cons in Hext as [-> | Hext]); [| | | inversion Hext];
      rewrite !bool_decide_eq_false_2 by discriminate.
    - rewrite orb_true_r. reflexivity.
    - rewrite orb_true_r. reflexivity.
    - destruct (contains "word" mime); [reflexivity|]. cbn [orb].
      rewrite bool_decide_eq_true_2 by reflexivity. rewrite orb_true_r. reflexivity. }
  destruct (frame_empty (FileProcessing.extract_document f)) eqn:Hrows.
  - rewrite (empty_document_raises svc f Hpath Hload Hrows). cbn.
    split; [intros [r H]; discriminate H | discriminate].
  - split; [reflexivity|]. intros _.
    destruct (process_document_pass svc f Hpath Hrows)
      as [result [md [matched [unmatched [_ [Hpass _]]]]]].
    unfold FileAnalyzer.as_document. rewrite Hload, exc_bind_ok, Hpass. cbn. eauto.
Qed.

Lemma document_is_analysed_iff_it_has_a_block_witness :
  (exists r, FileAnalyzer.analyze_file FileProcessing.EmptyResponse plain_docx = Ok r)
  <-> frame_empty (FileProcessing.extract_document plain_docx) = false.
Proof.
  apply (document_is_analysed_iff_it_has_a_block FileProcessing.EmptyResponse plain_docx
           "application/vnd.openxmlformats-officedocument.wordprocessingml.document"
           "docx").
  - reflexivity.
  - apply list_elem_of_here.
  - reflexivity.
  - reflexivity.
Defined.


(** ** Saved analyses *)

Lemma save_file_analysis_inv
      now name type matched unmatched total status mapped missing st fid st' :
  SaveUploads.save_file_analysis_to_db now name type matched unmatched total status
                                       mapped missing st = Ok (fid, st') ->
  let db := SaveUploads.statistics st in
  let log := SaveData.mkLog fid (Some (map LStr matched)) (Some (map LStr unmatched))
                            (Some missing) (Some total) (Some status) in
  fid = (Z.of_nat (length (SaveUploads.file_upload st)) + 1)%Z
  /\ st' = SaveUploads.mkStore
             (SaveUploads.mapped_data st
                ++ [FileModel.mkMapped
                      (Z.of_nat (length (SaveUploads.mapped_data st)) + 1) fid mapped])
             (SaveData.mkDb (SaveUploads.file_upload st
                               ++ [FileModel.mkUpload fid name type now])
                            (<[fid := log]> (SaveData.file_processing_log db))
                            (SaveData.player db) (SaveData.batting db)
                            (SaveData.bowling db)).
Proof.
  unfold SaveUploads.save_file_analysis_to_db. cbv zeta. intros Hsave.
  apply bind_Ok in Hsave as [[fid1 st1] [Hup Hsave]].
  apply bind_Ok in Hsave as [[] [_ Hsave]].
  apply bind_Ok in Hsave as [st2 [Hlog Hsave]]. injection Hsave as <- <-.
  apply add_upload_inv in Hup as [Hfid ->].
  apply add_log_inv in Hlog as [_ ->]. cbn in *. auto.
Qed.

(** X24.  An analysis saved by save_file_analysis_to_db appears exactly
    once in the listing of get_file_metadata, with the name, type,
    columns, count, status and missing columns it was saved with, and its
    records are appended to the mapped data under the identifier of the
    file. *)
Theorem saved_analysis_is_listed_once
        (order : RowOrder) (now : Z) (name type : string)
        (matched unmatched : list string) (total : Z)
        (status : string) (mapped : list (list (string * PyVal))) (missing : list string)
        (st st' : SaveUploads.Store) (fid : Z) :
  SaveUploads.save_file_analysis_to_db now name type matched unmatched total status
                                       mapped missing st = Ok (fid, st') ->
  issued st ->
  exists listing mid,
    FetchData.get_file_metadata order st' = Ok listing
    /\ entries_of fid listing
       = [FetchData.mkMetadata fid name type now (Some (map LStr matched))
                               (Some (map LStr unmatched)) (Some total) (Some status)
                               (Some missing)]
    /\ SaveUploads.mapped_data st'
       = SaveUploads.mapped_data st ++ [FileModel.mkMapped mid fid mapped].
Proof.
  intros Hsave Hissued.
  apply save_file_analysis_inv in Hsave as [Hfid Hst'].
  destruct (new_upload_listed_once order st st' (FileModel.mkUpload fid name type now)
              (SaveData.mkLog fid (Some (map LStr matched)) (Some (map LStr unmatched))
                              (Some missing) (Some total) (Some status))
              Hissued Hfid) as [listing [Hlist Hentries]].
  - rewrite Hst'. reflexivity.
  - rewrite Hst'. reflexivity.
  - rewrite Hst'. cbn. apply lookup_insert_eq.
  - exists listing. eexists. split; [exact Hlist|]. split; [exact Hentries|].
    rewrite Hst'. reflexivity.
Qed.

Lemma saved_analysis_is_listed_once_witness :
  exists listing mid,
    FetchData.get_file_metadata reverse_order
      (SaveUploads.mkStore
         [FileModel.mkMapped 1 1 [[("Total Runs", PInt 412)]]]
         (SaveData.mkDb
            [FileModel.mkUpload 1 "runs.csv" "csv" 0]
            {[ 1%Z := SaveData.mkLog 1 (Some [LStr "runs"]) (Some [LStr "shirt"])
                                     (Some ["Matches"]) (Some 1%Z) (Some "Rejected") ]}
            [] [] []))
    = Ok listing
    /\ entries_of 1 listing
       = [FetchData.mkMetadata 1 "runs.csv" "csv" 0 (Some [LStr "runs"])
                               (Some [LStr "shirt"]) (Some 1%Z) (Some "Rejected")
                               (Some ["Matches"])]
    /\ [FileModel.mkMapped 1 1 [[("Total Runs", PInt 412)]]]
       = [] ++ [FileModel.mkMapped mid 1 [[("Total Runs", PInt 412)]]].
Proof.
  apply (saved_analysis_is_listed_once reverse_order
           0 "runs.csv" "csv" ["runs"] ["shirt"] 1 "Rejected"
           [[("Total Runs", PInt 412)]] ["Matches"]
           (SaveUploads.mkStore [] (SaveData.mkDb [] ∅ [] [] []))
           (SaveUploads.mkStore
              [FileModel.mkMapped 1 1 [[("Total Runs", PInt 412)]]]
              (SaveData.mkDb
                 [FileModel.mkUpload 1 "runs.csv" "csv" 0]
                 {[ 1%Z := SaveData.mkLog 1 (Some [LStr "runs"]) (Some [LStr "shirt"])
                                          (Some ["Matches"]) (Some 1%Z) (Some "Rejected") ]}
                 [] [] []))
           1).
  - reflexivity.
  - split; [constructor|]. split; [constructor|]. intros fid log Hlog.
    cbn [SaveUploads.statistics SaveData.file_processing_log] in Hlog.
    rewrite lookup_empty in Hlog. discriminate Hlog.
Defined.

(** ** The path of a stored upload *)

Section LastIndex.
Variable c : ascii.

Lemma rfind_from_app a b i last :
  FileLoader.rfind_from c (a ++ b) i last
  = FileLoader.rfind_from c b (i + Z.of_nat (length a))%Z (FileLoader.rfind_from c a i last).
Proof.
  revert i last. induction a as [|x a IH]; intros i last; cbn [app FileLoader.rfind_from length].
  - rewrite Z.add_0_r. reflexivity.
  - rewrite IH. f_equal. lia.
Qed.

Lemma rfind_from_absent b i last : c ∉ b -> FileLoader.rfind_from c b i last = last.
Proof.
  revert i last. induction b as [|x b IH]; intros i last Hnot; cbn [FileLoader.rfind_from];
    [reflexivity|].
  destruct (Ascii.eqb_spec x c) as [->|Hne].
  - exfalso. apply Hnot, list_elem_of_here.
  - apply IH. intros Hin. apply Hnot, list_elem_of_further, Hin.
Qed.

Lemma rfind_last a b : c ∉ b -> FileLoader.rfind c (a ++ c :: b) = Z.of_nat (length a).
Proof.
  intros Hnot. unfold FileLoader.rfind. rewrite rfind_from_app.
  cbn [FileLoader.rfind_from]. rewrite Ascii.eqb_refl, rfind_from_absent by exact Hnot.
  lia.
Qed.
End LastIndex.

(** The extension of [directory/name.extension], for a name that is
    not made of full stops only. *)
Lemma splitext_stem (d n e : list ascii) :
  "/"%char ∉ n -> "/"%char ∉ e -> "."%char ∉ e ->
  existsb (fun c => negb (Ascii.eqb c "."%char)) n = true ->
  FileLoader.splitext (text (d ++ "/"%char :: n ++ "."%char :: e))
  = (text (d ++ "/"%char :: n), text ("."%char :: e)).
Proof.
  intros Hn He Hdot Hname. unfold FileLoader.splitext. cbv zeta. rewrite chars_text.
  assert (FileLoader.rfind "/"%char (d ++ "/"%char :: n ++ "."%char :: e)
          = Z.of_nat (length d)) as ->.
  { apply rfind_last. rewrite elem_of_app, elem_of_cons. intros [Hin | [Heq | Hin]];
      [exact (Hn Hin) | discriminate Heq | exact (He Hin)]. }
  assert (FileLoader.rfind "."%char (d ++ "/"%char :: n ++ "."%char :: e)
          = Z.of_nat (length (d ++ "/"%char :: n))) as ->.
  { replace (d ++ "/"%char :: n ++ "."%char :: e)
      with ((d ++ "/"%char :: n) ++ "."%char :: e) by (rewrite <- app_assoc; reflexivity).
    apply rfind_last, Hdot. }
  rewrite length_app. cbn [length].
  assert ((Z.of_nat (length d) <? Z.of_nat (length d + S (length n)))%Z = true) as ->
      by (apply Z.ltb_lt; lia).
  unfold FileLoader.slice.
  replace (Z.to_nat (Z.of_nat (length d + S (length n)) - (Z.of_nat (length d) + 1)))
    with (length n) by lia.
  replace (Z.to_nat (Z.of_nat (length d) + 1)) with (length (d ++ ["/"%char]))
    by (rewrite length_app; cbn; lia).
  replace (d ++ "/"%char :: n ++ "."%char :: e)
    with ((d ++ ["/"%char]) ++ n ++ "."%char :: e) at 1
    by (rewrite <- app_assoc; reflexivity).
  rewrite drop_app_length, take_app_length, Hname. cbn [andb].
  replace (Z.to_nat (Z.of_nat (length d + S (length n))))
    with (length (d ++ "/"%char :: n)) by (rewrite length_app; cbn; lia).
  replace (d ++ "/"%char :: n ++ "."%char :: e)
    with ((d ++ "/"%char :: n) ++ "."%char :: e) by (rewrite <- app_assoc; reflexivity).
  rewrite take_app_length, drop_app_length. reflexivity.
Qed.

Lemma is_hex_plain c : is_hex c = true -> c <> "/"%char /\ c <> "."%char.
Proof. intros Hc. split; intros ->; discriminate Hc. Qed.

Lemma hex_name (hex : string) :
  nonempty hex = true -> forallb is_hex (chars hex) = true ->
  ("/"%char ∉ chars hex)
  /\ existsb (fun c => negb (Ascii.eqb c "."%char)) (chars hex) = true
  /\ forall rest, String.prefix "/" (hex ++ rest) = false.
Proof.
  intros Hne Hall. rewrite forallb_forall in Hall. split; [|split].
  - intros Hin. apply list_elem_of_In, Hall, is_hex_plain in Hin as [Hin _]. congruence.
  - destruct hex as [|c hex]; [discriminate Hne|]. cbn.
    destruct (is_hex_plain c (Hall c (or_introl eq_refl))) as [_ Hdot].
    apply Ascii.eqb_neq in Hdot. rewrite Hdot. reflexivity.
  - intros rest. destruct hex as [|c hex]; [discriminate Hne|].
    destruct (is_hex_plain c (Hall c (or_introl eq_refl))) as [Hsep _].
    change (String c hex ++ rest)%string with (String c (hex ++ rest)%string).
    cbn [String.prefix].
    destruct (Ascii.ascii_dec "/" c) as [Heq | _]; [congruence | reflexivity].
Qed.


(** X25.  The path upload_file stores an accepted upload at
    (uploaded_files/<hex>.<ext>) is cut by os.path.splitext into that stem
    and .<ext>; detect_file_type answers text/csv, csv for a csv from the
    name alone, and load_file calls the loader of the extension that
    upload_file checked. *)
Theorem stored_upload_keeps_its_extension
        (hex ext : string) (probe : FileLoader.Probe) (loaders : FileLoader.Loaders) :
  nonempty hex = true ->
  forallb is_hex (chars hex) = true ->
  ext ∈ ["csv"; "xlsx"; "pdf"; "docx"] ->
  FileLoader.splitext (stored_path hex ext)
  = (("uploaded_files/" ++ hex)%string, ("." ++ ext)%string)
  /\ (ext = "csv" ->
      FileLoader.detect_file_type (stored_path hex ext) probe = Ok ("text/csv", "csv"))
  /\ FileLoader.load_file (stored_path hex ext) loaders
     = reraise_runtime
         (if bool_decide (ext = "csv")
          then docs ← FileLoader.csv_loader loaders; Ok (docs, "tabular")
          else if bool_decide (ext = "xlsx")
               then docs ← FileLoader.excel_loader loaders; Ok (docs, "tabular")
               else if bool_decide (ext = "pdf")
                    then docs ← FileLoader.pdf_loader loaders; Ok (docs, "document")
                    else docs ← FileLoader.word_loader loaders; Ok (docs, "document")).
Proof.
  intros Hne Hall Hext.
  destruct (hex_name hex Hne Hall) as [Hsep [Hname Hprefix]].
  assert (stored_path hex ext
          = text (chars "uploaded_files" ++ "/"%char :: chars hex ++ "."%char :: chars ext))
    as Hpath.
  { unfold stored_path, Endpoints.path_join. rewrite Hprefix.
    assert (nonempty "uploaded_files" && negb (ends_with "/" "uploaded_files") = true)
      as -> by reflexivity.
    apply chars_inj. rewrite chars_text, !chars_app. reflexivity. }
  assert (FileLoader.splitext (stored_path hex ext)
          = (("uploaded_files/" ++ hex)%string, ("." ++ ext)%string)) as Hsplit.
  { rewrite Hpath, splitext_stem.
    - f_equal; apply chars_inj; rewrite chars_text, !chars_app; reflexivity.
    - exact Hsep.
    - repeat (apply elem_of_cons in Hext as [-> | Hext]); [| | | |inversion Hext];
        apply (bool_decide_unpack _); vm_compute; exact I.
    - repeat (apply elem_of_cons in Hext as [-> | Hext]); [| | | |inversion Hext];
        apply (bool_decide_unpack _); vm_compute; exact I.
    - exact Hname. }
  split; [exact Hsplit|]. split.
  - intros ->. unfold FileLoader.detect_file_type. rewrite Hsplit. reflexivity.
  - unfold FileLoader.load_file. rewrite Hsplit. cbn [snd].
    repeat (apply elem_of_cons in Hext as [-> | Hext]); [| | | |inversion Hext];
      reflexivity.
Qed.

Lemma stored_upload_keeps_its_extension_witness :
  FileLoader.splitext (stored_path "0f3a9c" "xlsx")
  = (("uploaded_files/" ++ "0f3a9c")%string, ("." ++ "xlsx")%string)
  /\ ("xlsx" = "csv" ->
      FileLoader.detect_file_type (stored_path "0f3a9c" "xlsx")
        (FileLoader.mkProbe (Ok ()) (Some ("application/zip", "zip")) None)
      = Ok ("text/csv", "csv"))
  /\ FileLoader.load_file (stored_path "0f3a9c" "xlsx")
       (FileLoader.mkLoaders (Ok ()) (Raise ValueError) (Ok ()) (Ok ()))
     = reraise_runtime
         (if bool_decide ("xlsx" = "csv")
          then docs ← Ok (); Ok (docs, "tabular")
          else if bool_decide ("xlsx" = "xlsx")
               then docs ← Raise ValueError; Ok (docs, "tabular")
               else if bool_decide ("xlsx" = "pdf")
                    then docs ← Ok (); Ok (docs, "document")
                    else docs ← Ok (); Ok (docs, "document")).
Proof.
  apply (stored_upload_keeps_its_extension "0f3a9c" "xlsx"
           (FileLoader.mkProbe (Ok ()) (Some ("application/zip", "zip")) None)
           (FileLoader.mkLoaders (Ok ()) (Raise ValueError) (Ok ()) (Ok ()))).
  - reflexivity.
  - reflexivity.
  - apply list_elem_of_further, list_elem_of_here.
Defined.
